(** * perf_testing: sampler, test-case planner, benchmark runner and
      validation checks of [datarobot_drum/drum/perf_testing.py]

    A shallow embedding of the functions of [perf_testing.py] that decide
    how a performance test is planned and run:

    - [_get_samples_df] and [_get_approximate_samples_in_csv_size]
      (module-level helpers),
    - [CMRunTests._prepare_test_cases]  (the planner),
    - [CMRunTests._run_test_case] and [CMRunTests._run_all_test_cases]
      (the runner),
    - [CMRunTests.validation_test] (null value imputation check),
    - the sample drawn by [CMRunTests.check_prediction_side_effects],
    - [CMRunTests._wait_for_server_to_start] (the wait for the server),
    - [PerfTestResultsFormatter] (the table of results).

    Python integers are [Z].  Python's true division [a / b] and the
    products [int * float] are binary64 operations; they are embedded with
    the IEEE 754 specification of the standard library ([SpecFloat], at
    precision 53 and maximal exponent 1024), and [int(x)] truncates towards
    zero.  A data frame is the list of its rows.  Exceptions are values of
    [Exn] carried by the [result] type.  The server and the network are
    a state threaded through the calls that reach them; the alarm of a
    test case is delivered inside such a call.  Printing to the terminal
    and the progress bar are not part of the model, and [assert] is
    executed (the interpreter runs without [-O]). *)

From Stdlib Require Import ZArith List Bool Lia String Ascii.
From Stdlib Require Import SpecFloat DecimalString DecimalZ.
Import ListNotations.
Local Open Scope Z_scope.

(** ** Python exceptions *)

Inductive Exn : Type :=
| ZeroDivisionError
| OverflowError
| ValueError
| AssertionError
| IndexError
| DrumPerfTestTimeout
| RequestException (msg : string).

Inductive result (A : Type) : Type :=
| Ok (a : A)
| Raise (e : Exn).
Arguments Ok {A} a.
Arguments Raise {A} e.

Definition bind {A B : Type} (r : result A) (k : A -> result B) : result B :=
  match r with
  | Ok a => k a
  | Raise e => Raise e
  end.

Notation "x <- r ;; k" := (bind r (fun x => k))
  (at level 61, r at next level, right associativity).

(** ** Python floats (binary64) *)

Module PyFloat.

Definition prec : Z := 53.
Definition emax : Z := 1024.

(** [float(a)] for an integer [a]: exact below [2^53], rounded to
    nearest-even above, [OverflowError] when the result is not finite. *)
Definition of_int (a : Z) : result spec_float :=
  match binary_normalize prec emax a 0 false with
  | S754_infinity _ => Raise OverflowError
  | x => Ok x
  end.

(** [int(x)]: truncation towards zero. *)
Definition to_int (x : spec_float) : result Z :=
  match x with
  | S754_zero _ => Ok 0
  | S754_finite s m e =>
      let v := Z.shiftl (Zpos m) e in
      Ok (if s then - v else v)
  | S754_infinity _ => Raise OverflowError
  | S754_nan => Raise ValueError
  end.

(** [a / b] on two integers (true division).  CPython rounds the exact
    quotient once; converting both operands first gives the same float
    whenever both are below [2^53] in absolute value, which is the range
    the theorems below are stated for. *)
Definition truediv (a b : Z) : result spec_float :=
  if b =? 0 then Raise ZeroDivisionError
  else
    x <- of_int a ;;
    y <- of_int b ;;
    match SFdiv prec emax x y with
    | S754_infinity _ => Raise OverflowError
    | q => Ok q
    end.

(** [a * x] for an integer [a] and a float [x]. *)
Definition mul_int (a : Z) (x : spec_float) : result spec_float :=
  y <- of_int a ;;
  Ok (SFmul prec emax y x).

(** [int(a / b)] *)
Definition int_truediv (a b : Z) : result Z :=
  q <- truediv a b ;; to_int q.

(** [int(a * x)] *)
Definition int_mul (a : Z) (x : spec_float) : result Z :=
  p <- mul_int a x ;; to_int p.

(** The literal [0.1]: the binary64 number nearest to one tenth,
    [0x1.999999999999ap-4]. *)
Definition one_tenth : spec_float :=
  S754_finite false 7205759403792794 (-56).

End PyFloat.

(** [str(n)] for an integer, as ["{}".format(n)] prints it. *)
Definition str_of_int (n : Z) : string :=
  NilZero.string_of_int (Z.to_int n).

(** ** Data frames and the sampler *)

Section Sampler.

Context {Row : Type}.

Definition DataFrame : Type := list Row.

(** [df.shape[0]] *)
Definition shape0 (df : DataFrame) : Z := Z.of_nat (List.length df).

(** [df.head(n=n)]: the first [n] rows; for a negative [n], all rows but
    the last [-n]. *)
Definition head (df : DataFrame) (n : Z) : DataFrame :=
  if 0 <=? n then firstn (Z.to_nat n) df
  else firstn (Z.to_nat (shape0 df + n)) df.

(** [pd.concat(dfs, ignore_index=True)]; pandas raises [ValueError] when
    there is nothing to concatenate. *)
Definition pd_concat (dfs : list DataFrame) : result DataFrame :=
  match dfs with
  | [] => Raise ValueError
  | _ => Ok (List.concat dfs)
  end.

Definition _get_samples_df (df : DataFrame) (samples : Z) : result DataFrame :=
  let nrows := shape0 df in
  if nrows >=? samples then Ok (head df samples)
  else
    multiplier <- PyFloat.int_truediv samples nrows ;;
    let remainder := samples mod nrows in
    ret_df <- pd_concat (repeat df (Z.to_nat multiplier)) ;;
    Ok (ret_df ++ head df remainder)%list.

(** A CSV file on disk: the rows [pd.read_csv] loads from it and the
    byte size [os.stat] reports. *)
Record CsvFile : Type := {
  csv_rows : DataFrame;
  st_size : Z
}.

Definition pd_read_csv (file : CsvFile) : DataFrame := csv_rows file.

Definition _get_approximate_samples_in_csv_size
  (file : CsvFile) (target_csv_size : Z) : result Z :=
  let df := pd_read_csv file in
  let file_size := st_size file in
  lines_multiplier <- PyFloat.truediv target_csv_size file_size ;;
  k <- PyFloat.int_mul (shape0 df) lines_multiplier ;;
  Ok (k + 1).

End Sampler.

Arguments DataFrame Row : clear implicits.
Arguments CsvFile Row : clear implicits.

(** ** The planner *)

Module PerfTestCase.
Record t : Type := mk {
  name : option string;
  samples : Z;
  iterations : Z
}.
End PerfTestCase.

(** The command-line options the planner and the runner read. *)
Record Options : Type := {
  opt_iterations : option Z;
  opt_samples : option Z;
  opt_timeout : Z;
  opt_verbose : bool
}.

Definition _get_size_and_units (size : Z) : result (Z * string) :=
  if size <? 1024 then Ok (size, "bytes"%string)
  else
    k <- PyFloat.int_truediv size 1024 ;;
    Ok (k, "KB"%string).

(** The label ["{} {}".format(size, units)] of a size and its units. *)
Definition format_size (su : Z * string) : string :=
  (str_of_int (fst su) ++ " " ++ snd su)%string.

Section Planner.

Context {Row : Type}.

(** [_prepare_test_cases] sets [self._test_cases_to_run] and
    [self._df_for_test]; the model returns the pair.  [self._input_df] is
    the frame read from [self._input_csv] when the object was built. *)
Definition _prepare_test_cases (_input_csv : CsvFile Row) (options : Options)
  : result (list PerfTestCase.t * DataFrame Row) :=
  let _input_df := pd_read_csv _input_csv in
  let file_size := st_size _input_csv in
  sample_size <- PyFloat.int_truediv file_size (shape0 _input_df) ;;
  match opt_iterations options, opt_samples options with
  | None, None =>
      samples_in_50mb <-
        _get_approximate_samples_in_csv_size _input_csv (50 * 1048576) ;;
      df_50mb <- _get_samples_df _input_df samples_in_50mb ;;
      su <- _get_size_and_units sample_size ;;
      s_01mb <- PyFloat.int_truediv samples_in_50mb 500 ;;
      s_10mb <- PyFloat.int_truediv samples_in_50mb 5 ;;
      Ok ([ PerfTestCase.mk (Some (format_size su)) 1 100;
            PerfTestCase.mk (Some "0.1MB"%string) s_01mb 50;
            PerfTestCase.mk (Some "10MB"%string) s_10mb 5;
            PerfTestCase.mk (Some "50MB"%string) samples_in_50mb 1 ],
          df_50mb)
  | _, _ =>
      let iters :=
        match opt_iterations options with None => 1 | Some i => i end in
      let samples :=
        match opt_samples options with
        | None => shape0 _input_df
        | Some s => s
        end in
      let samples_size := samples * sample_size in
      su <- _get_size_and_units samples_size ;;
      Ok ([ PerfTestCase.mk (Some (format_size su)) samples iters ],
          _input_df)
  end.

End Planner.

(** ** The runner *)

(** What the [requests] library hands back: [response.ok] and
    [response.text]. *)
Record Response : Type := {
  ok : bool;
  text : string
}.

(** The outcome of a blocking call: it returns, or an exception surfaces
    inside it.  The alarm armed by [signal.alarm] is delivered while such a
    call is in progress, as [Throws DrumPerfTestTimeout]. *)
Inductive Event (A : Type) : Type :=
| Returns (a : A)
| Throws (e : Exn).
Arguments Returns {A} a.
Arguments Throws {A} e.

(** The calls made on the [StatsCollector] of a test case. *)
Inductive StatsOp : Type :=
| RegisterReport (report_name first op second : string)
| Enable
| Mark (label : string)
| Disable.

Module TestCaseResults.
Record t : Type := mk {
  name : string;
  iterations : Z;
  samples : Z;
  stats_obj : list StatsOp;
  prediction_ok : bool;
  prediction_error : option string;
  server_stats : option string
}.

(** [TestCaseResults.__init__] *)
Definition init (name : string) (iterations samples : Z)
  (stats_obj : list StatsOp) : t :=
  mk name iterations samples stats_obj false None None.

Definition stats_call (op : StatsOp) (r : t) : t :=
  mk (name r) (iterations r) (samples r) (stats_obj r ++ [op])
     (prediction_ok r) (prediction_error r) (server_stats r).

Definition set_prediction_ok (b : bool) (r : t) : t :=
  mk (name r) (iterations r) (samples r) (stats_obj r)
     b (prediction_error r) (server_stats r).

Definition set_prediction_error (e : string) (r : t) : t :=
  mk (name r) (iterations r) (samples r) (stats_obj r)
     (prediction_ok r) (Some e) (server_stats r).

Definition set_server_stats (s : string) (r : t) : t :=
  mk (name r) (iterations r) (samples r) (stats_obj r)
     (prediction_ok r) (prediction_error r) (Some s).
End TestCaseResults.

Definition REPORT_NAME : string := "Request time (s)".

(** A request the runner sent, with what came back (a ghost record of the
    calls of one test case, in order). *)
Inductive Call : Type :=
| CallPredict (payload : string) (ev : Event Response)
| CallStats (ev : Event Response).

(** [tc_results] is appended to [results] before it is filled in; the
    object is aliased as the last element of the list, and every later
    assignment to it is an update of that element. *)
Fixpoint modify_last {A : Type} (f : A -> A) (l : list A) : list A :=
  match l with
  | [] => []
  | [x] => [f x]
  | x :: r => x :: modify_last f r
  end.

Section Runner.

Context {Row : Type}.

(** The server and the network, as a state the calls thread through. *)
Variable World : Type.
(** [requests.post(url + "/predict/", files={"X": df_csv})] *)
Variable requests_post_predict : string -> World -> Event Response * World.
(** [requests.get(url + "/stats/")] *)
Variable requests_get_stats : World -> Event Response * World.
(** [signal.alarm(seconds)] *)
Variable signal_alarm : Z -> World -> World.
(** [len(json.loads(text)["predictions"])] *)
Variable len_predictions : string -> result Z.
(** [test_df.to_csv(index=False)] *)
Variable to_csv : DataFrame Row -> string.

Record RunState : Type := {
  results : list TestCaseResults.t;
  world : World;
  calls : list Call
}.

Definition update_tc_results (f : TestCaseResults.t -> TestCaseResults.t)
  (st : RunState) : RunState :=
  {| results := modify_last f (results st);
     world := world st;
     calls := calls st |}.

Definition record_call (c : Call) (w : World) (st : RunState) : RunState :=
  {| results := results st; world := w; calls := calls st ++ [c] |}.

(** The [for i in range(tc.iterations)] loop of [_run_test_case], [n]
    iterations to go.  [Ok true] says the body executed [return]. *)
Fixpoint predict_loop (n : nat) (df_csv : string) (test_df_nrows : Z)
  (st : RunState) : result bool * RunState :=
  match n with
  | O => (Ok false, st)
  | S n' =>
      let st := update_tc_results (TestCaseResults.stats_call Enable) st in
      let st := update_tc_results (TestCaseResults.stats_call (Mark "start")) st in
      let '(ev, w) := requests_post_predict df_csv (world st) in
      let st := record_call (CallPredict df_csv ev) w st in
      match ev with
      | Throws e => (Raise e, st)
      | Returns response =>
          let st := update_tc_results (TestCaseResults.stats_call (Mark "end")) st in
          if ok response then
            let st := update_tc_results (TestCaseResults.set_prediction_ok true) st in
            match len_predictions (text response) with
            | Raise e => (Raise e, st)
            | Ok actual_num_predictions =>
                if negb (actual_num_predictions =? test_df_nrows)
                then (Raise AssertionError, st)
                else
                  let st := update_tc_results (TestCaseResults.stats_call Disable) st in
                  predict_loop n' df_csv test_df_nrows st
            end
          else
            let st := update_tc_results (TestCaseResults.set_prediction_ok false) st in
            let st := update_tc_results
                        (TestCaseResults.set_prediction_error (text response)) st in
            (Ok true, st)
      end
  end.

Definition _run_test_case (_df_for_test : DataFrame Row)
  (tc : PerfTestCase.t) (st : RunState) : result unit * RunState :=
  let samples := PerfTestCase.samples tc in
  let name :=
    match PerfTestCase.name tc with
    | Some n => n
    | None => "Test case"%string
    end in
  let sc := [RegisterReport REPORT_NAME "end" "SUB" "start"] in
  let tc_results :=
    TestCaseResults.init name (PerfTestCase.iterations tc) samples sc in
  let st := {| results := results st ++ [tc_results];
               world := world st;
               calls := calls st |} in
  match _get_samples_df _df_for_test samples with
  | Raise e => (Raise e, st)
  | Ok test_df =>
      let test_df_nrows := shape0 test_df in
      let df_csv := to_csv test_df in
      match predict_loop (Z.to_nat (PerfTestCase.iterations tc))
                         df_csv test_df_nrows st with
      | (Raise e, st) => (Raise e, st)
      | (Ok true, st) => (Ok tt, st)
      | (Ok false, st) =>
          let '(ev, w) := requests_get_stats (world st) in
          let st := record_call (CallStats ev) w st in
          match ev with
          | Throws e => (Raise e, st)
          | Returns response =>
              if ok response
              then (Ok tt, update_tc_results
                             (TestCaseResults.set_server_stats (text response)) st)
              else (Ok tt, st)
          end
      end
  end.

(** The body of the [for tc in self._test_cases_to_run] loop with its
    [try] statement: both handlers print a line and fall through, so
    the loop goes on to the next case whatever was raised.  The third
    component is the ghost record of the calls made, one list per case. *)
Fixpoint run_cases (_df_for_test : DataFrame Row) (timeout : Z)
  (cases : list PerfTestCase.t)
  (results_so_far : list TestCaseResults.t) (w : World)
  : list TestCaseResults.t * World * list (list Call) :=
  match cases with
  | [] => (results_so_far, w, [])
  | tc :: rest =>
      let w := signal_alarm timeout w in
      let '(outcome, st) :=
        _run_test_case _df_for_test tc
          {| results := results_so_far; world := w; calls := [] |} in
      let st :=
        match outcome with
        | Raise DrumPerfTestTimeout => st
        | Raise _ => st
        | Ok _ => st
        end in
      let '(res, w', logs) :=
        run_cases _df_for_test timeout rest (results st) (world st) in
      (res, w', calls st :: logs)
  end.

Definition _run_all_test_cases (_df_for_test : DataFrame Row)
  (_test_cases_to_run : list PerfTestCase.t) (options : Options) (w : World)
  : list TestCaseResults.t * World * list (list Call) :=
  run_cases _df_for_test (opt_timeout options) _test_cases_to_run [] w.

End Runner.

Arguments results {World} r.
Arguments world {World} r.
Arguments calls {World} r.
Arguments update_tc_results {World} f st.
Arguments record_call {World} c w st.

(** ** The null value imputation check *)

(** A frame with named columns: every column name with its cells, [None]
    for a null cell. *)
Definition Column : Type := (string * list (option string))%type.
Definition Frame : Type := list Column.

(** [list(df.iloc[[0]])]: the column names, read off the first row. *)
Definition column_names (df : Frame) : result (list string) :=
  match df with
  | (_, _ :: _) :: _ => Ok (map fst df)
  | _ => Raise IndexError
  end.

(** [df_tmp = df.copy(); df_tmp[column_name] = None] *)
Definition null_column (column_name : string) (df : Frame) : Frame :=
  map (fun c : Column =>
         if String.eqb (fst c) column_name
         then (fst c, map (fun _ => None) (snd c))
         else c) df.

(** The files on disk: path and content. *)
Definition FileSystem : Type := list (string * Frame).

Definition exists_file (path : string) (fs : FileSystem) : bool :=
  existsb (fun f => String.eqb (fst f) path) fs.

(** [os.remove(path)] *)
Definition os_remove (path : string) (fs : FileSystem) : FileSystem :=
  filter (fun f => negb (String.eqb (fst f) path)) fs.

(** [df.to_csv(path, index=False)] *)
Definition to_csv_file (path : string) (df : Frame) (fs : FileSystem)
  : FileSystem :=
  (path, df) :: os_remove path fs.

(** [os.path.join(dir, name)] *)
Definition os_path_join (dir name : string) : string :=
  (dir ++ "/" ++ name)%string.

(** [shutil.rmtree(dir)]: every file below the directory goes. *)
Definition shutil_rmtree (dir : string) (fs : FileSystem) : FileSystem :=
  filter (fun f => negb (String.prefix (dir ++ "/") (fst f))) fs.

Record ValidationTestResult : Type := {
  filename : string;
  retcode : Z
}.

(** [results[key] = value] on a dict, which keeps insertion order. *)
Fixpoint dict_set {V : Type} (key : string) (value : V)
  (d : list (string * V)) : list (string * V) :=
  match d with
  | [] => [(key, value)]
  | (k, v) :: r =>
      if String.eqb k key then (k, value) :: r
      else (k, v) :: dict_set key value r
  end.

(** A scoring subprocess that was launched: the data set it was given,
    the paths on disk at that moment and its exit code (a ghost record). *)
Record Launch : Type := {
  launch_input : string;
  launch_disk : list string;
  launch_retcode : Z
}.

Record ValidationState : Type := {
  disk : FileSystem;
  check_results : list (string * ValidationTestResult);
  launches : list Launch
}.

(** What [validation_test] prints: the status of the check and, when it
    failed, the table of failed features with their data set files. *)
Record ValidationReport : Type := {
  status : string;
  failed_features : list (string * string)
}.

Section Validation.

(** [p = subprocess.Popen(cmd_list, env=os.environ); p.wait()], for the
    command line whose input argument is the given path: the exit code of
    the scoring run, which reads the disk and leaves the files of the
    check alone. *)
Variable score_subprocess : string -> FileSystem -> Z.

(** The [for i, column_name in enumerate(column_names)] loop. *)
Fixpoint null_loop (null_datasets_dir : string) (df : Frame)
  (columns : list string) (i : nat) (st : ValidationState) : ValidationState :=
  match columns with
  | [] => st
  | column_name :: rest =>
      let tmp_dataset_file_path :=
        os_path_join null_datasets_dir
          ("null_value_imputation_column" ++ str_of_int (Z.of_nat i))%string in
      let df_tmp := null_column column_name df in
      let fs := to_csv_file tmp_dataset_file_path df_tmp (disk st) in
      let retcode := score_subprocess tmp_dataset_file_path fs in
      let results :=
        if negb (retcode =? 0)
        then dict_set column_name
               {| filename := tmp_dataset_file_path; retcode := retcode |}
               (check_results st)
        else check_results st in
      null_loop null_datasets_dir df rest (S i)
        {| disk := fs;
           check_results := results;
           launches := launches st ++
                       [{| launch_input := tmp_dataset_file_path;
                           launch_disk := map fst fs;
                           launch_retcode := retcode |}] |}
  end.

(** [for test_result in results.values(): if not test_result.retcode:
    os.remove(test_result.filename)] *)
Definition remove_passed (results : list (string * ValidationTestResult))
  (fs : FileSystem) : FileSystem :=
  fold_left
    (fun fs kv =>
       if retcode (snd kv) =? 0 then os_remove (filename (snd kv)) fs else fs)
    results fs.

(** [validation_test], from the directory [mkdtemp] created and the frame
    read from the input file, on the disk [fs]. *)
Definition validation_test (null_datasets_dir : string) (df : Frame)
  (fs : FileSystem) : result (ValidationReport * ValidationState) :=
  columns <- column_names df ;;
  let st := null_loop null_datasets_dir df columns 0
              {| disk := fs; check_results := []; launches := [] |} in
  if (List.length (check_results st) =? 0)%nat then
    Ok ({| status := "PASSED"; failed_features := [] |},
        {| disk := shutil_rmtree null_datasets_dir (disk st);
           check_results := check_results st;
           launches := launches st |})
  else
    let fs' := remove_passed (check_results st) (disk st) in
    let rows2 :=
      map (fun kv => (fst kv, filename (snd kv)))
          (filter (fun kv => negb (retcode (snd kv) =? 0)) (check_results st)) in
    Ok ({| status := "FAILED"; failed_features := rows2 |},
        {| disk := fs'; check_results := check_results st;
           launches := launches st |}).

End Validation.

(** ** The sample of the prediction side-effects check *)

Section SideEffects.

Context {Row : Type}.

(** numpy's generator: [RandomState seed] is a fresh generator seeded
    with [seed]; [choice g n k] draws [k] of the positions [0 .. n-1]
    without replacement. *)
Variable RngState : Type.
Variable RandomState : Z -> RngState.
Variable choice : RngState -> nat -> nat -> list nat.

(** [df.iloc[positions]], with the positions kept as the index. *)
Definition iloc (df : DataFrame Row) (positions : list nat)
  : list (nat * Row) :=
  flat_map (fun i => match nth_error df i with
                     | Some r => [(i, r)]
                     | None => []
                     end) positions.

(** [df.sample(n=n, random_state=random_state)]: without a seed pandas
    draws from numpy's global generator; it cannot take more rows than
    the frame has. *)
Definition df_sample (df : DataFrame Row) (n : Z) (random_state : option Z)
  (global : RngState) : result (list (nat * Row)) :=
  if (n <? 0) || (shape0 df <? n) then Raise ValueError
  else
    let g := match random_state with
             | Some seed => RandomState seed
             | None => global
             end in
    Ok (iloc df (choice g (List.length df) (Z.to_nat n))).

(** [min(1000, max(int(len(df) * 0.1), 10))] *)
Definition samplesize (len_df : Z) : result Z :=
  k <- PyFloat.int_mul len_df PyFloat.one_tenth ;;
  Ok (Z.min 1000 (Z.max k 10)).

(** The first lines of [check_prediction_side_effects], the same for a
    sparse and for a CSV input: the subset to score a second time. *)
Definition data_subset (df : DataFrame Row) (global : RngState)
  : result (list (nat * Row)) :=
  n <- samplesize (shape0 df) ;;
  df_sample df n (Some 42) global.

End SideEffects.

(** ** Waiting for the server, and the table of results

    [CMRunTests._wait_for_server_to_start] and the class
    [PerfTestResultsFormatter].  The exceptions these raise are values of
    [PyError], carried by [outcome]. *)

Inductive PyError : Type :=
| KeyError (key : string)
| TypeError
| DrumCommonException (message : string)
| LibraryError (message : string).

Inductive outcome (A : Type) : Type :=
| Done (a : A)
| Fails (e : PyError).

Arguments Done {A} a.
Arguments Fails {A} e.

Definition and_then {A B : Type} (r : outcome A) (k : A -> outcome B)
  : outcome B :=
  match r with
  | Done a => k a
  | Fails e => Fails e
  end.

Notation "x <~ r ;; k" := (and_then r (fun x => k))
  (at level 61, r at next level, right associativity).

(** The line feed of ["\n{}".format(...)]. *)
Definition newline : string := String (ascii_of_nat 10) EmptyString.

Section ServerStart.

Variable World : Type.
(** [requests.get(self._url_server_address)] *)
Variable requests_get : World -> Event Response * World.
(** [time.sleep(seconds)] *)
Variable time_sleep : Z -> World -> World.
(** [self._server_process.communicate()]: waits for the server process
    to exit and gives what it wrote to its standard output and to its
    standard error; [None] when the process does not exit, so that the
    call does not return (it is called without a timeout, and no alarm
    is armed yet). *)
Variable communicate : World -> option ((string * string) * World).

(** [self._timeout] and the world, with the number of probes sent so far
    (a ghost counter). *)
Record WaitState : Type := {
  _timeout : Z;
  wait_world : World;
  probes : nat
}.

Definition start_error_message (stdout stderr : string) : string :=
  let error_message :=
    "Error: server failed to start while running performance testing."%string in
  let error_message :=
    if (0 <? String.length stdout)%nat
    then (error_message ++ newline ++ stdout)%string
    else error_message in
  if (0 <? String.length stderr)%nat
  then (error_message ++ newline ++ stderr)%string
  else error_message.

(** How a wait went: it returned or raised, or it is held in
    [communicate()] by a server process that does not exit. *)
Inductive Waited : Type :=
| Ended (o : outcome unit) (st : WaitState)
| Held (st : WaitState).

(** [_wait_for_server_to_start]: the [while True] loop, with [fuel]
    bounding the number of its iterations; [None] says the fuel ran out
    with the loop still running.  [except Exception: pass] swallows
    whatever the probe raises. *)
Fixpoint _wait_for_server_to_start (fuel : nat) (st : WaitState)
  : option Waited :=
  match fuel with
  | O => None
  | S fuel' =>
      let '(ev, w) := requests_get (wait_world st) in
      let n := S (probes st) in
      let started :=
        match ev with
        | Returns response => ok response
        | Throws _ => false
        end in
      if started then
        Some (Ended (Done tt) {| _timeout := _timeout st; wait_world := w;
                                 probes := n |})
      else
        let w := time_sleep 1 w in
        let t := _timeout st - 1 in
        if t =? 0 then
          match communicate w with
          | Some ((stdout, stderr), w') =>
              Some (Ended (Fails (DrumCommonException
                                    (start_error_message stdout stderr)))
                          {| _timeout := t; wait_world := w'; probes := n |})
          | None =>
              Some (Held {| _timeout := t; wait_world := w; probes := n |})
          end
        else
          _wait_for_server_to_start fuel'
            {| _timeout := t; wait_world := w; probes := n |}
  end.

End ServerStart.

Arguments _timeout {World} _.
Arguments wait_world {World} _.
Arguments probes {World} _.
Arguments Ended {World} o st.
Arguments Held {World} st.

(** *** Python values

    The values the rows of the table are made of: what [json.loads]
    returns, and the tuple [__init__] wraps [memory_limit] in. *)
#[warnings="-register-all"]
Inductive PyVal : Type :=
| VNone
| VBool (b : bool)
| VInt (n : Z)
| VFloat (x : spec_float)
| VStr (s : string)
| VList (l : list PyVal)
| VTuple (l : list PyVal)
| VDict (d : list (string * PyVal)).

(** [v is None] *)
Definition is_None (v : PyVal) : bool :=
  match v with
  | VNone => true
  | _ => false
  end.

(** The truth value of [v], as [if v:] tests it. *)
Definition py_truthy (v : PyVal) : bool :=
  match v with
  | VNone => false
  | VBool b => b
  | VInt n => negb (n =? 0)
  | VFloat x => match x with S754_zero _ => false | _ => true end
  | VStr s => negb (String.eqb s EmptyString)
  | VList l => match l with [] => false | _ => true end
  | VTuple l => match l with [] => false | _ => true end
  | VDict d => match d with [] => false | _ => true end
  end.

(** [d.get(key)] on the items of a dict. *)
Fixpoint dict_lookup (key : string) (d : list (string * PyVal))
  : option PyVal :=
  match d with
  | [] => None
  | (k, v) :: r => if String.eqb k key then Some v else dict_lookup key r
  end.

Definition is_str (key : string) (v : PyVal) : bool :=
  match v with
  | VStr s => String.eqb s key
  | _ => false
  end.

(** [key in v] for a string [key]: a key of a dict, an element of a list
    or of a tuple, a substring of a string; the other values are not
    containers. *)
Definition py_contains (key : string) (v : PyVal) : outcome bool :=
  match v with
  | VDict d => Done (match dict_lookup key d with
                     | Some _ => true
                     | None => false
                     end)
  | VList l => Done (existsb (is_str key) l)
  | VTuple l => Done (existsb (is_str key) l)
  | VStr s => Done (match String.index 0 key s with
                    | Some _ => true
                    | None => false
                    end)
  | _ => Fails TypeError
  end.

(** [v[key]] for a string [key]. *)
Definition py_getitem (v : PyVal) (key : string) : outcome PyVal :=
  match v with
  | VDict d => match dict_lookup key d with
               | Some x => Done x
               | None => Fails (KeyError key)
               end
  | _ => Fails TypeError
  end.

Definition NA_VALUE : string := "NA".
Definition TEST_CASE_FAIL_VALUE : string := "Fail".

(** What [get_tbl_str] hands to [Texttable]: the types and the alignment
    of the columns, and the rows, the header first. *)
Record Table : Type := {
  cols_dtype : list string;
  cols_align : list string;
  table_rows : list (list PyVal)
}.

Module PerfTestResultsFormatter.

Record t : Type := {
  _results : list TestCaseResults.t;
  _in_docker : bool;
  _show_mem : bool;
  _memory_limit : PyVal;
  _show_inside_server : bool
}.

(** [__init__]; [self._memory_limit = (memory_limit,)] is a tuple of one
    element. *)
Definition init (results : list TestCaseResults.t) (in_docker : bool)
  (memory_limit : PyVal) (show_mem : bool) (show_inside_server : bool) : t :=
  {| _results := results;
     _in_docker := in_docker;
     _show_mem := show_mem;
     _memory_limit := VTuple [memory_limit];
     _show_inside_server := show_inside_server |}.

(** [_init_table]: the header names, the types and the alignment of the
    columns.  (The width of the terminal, which the table is told when it
    can be found, is not part of the model.) *)
Definition _init_table (self : t)
  : list string * list string * list string :=
  let header_names := ["size"; "samples"; "iters"; "min"; "avg"; "max"]%string in
  let header_types := ["t"; "i"; "i"; "f"; "f"; "f"]%string in
  let col_allign := ["l"; "r"; "r"; "r"; "r"; "r"]%string in
  let '(header_names, header_types, col_allign) :=
    if _show_mem self then
      if _in_docker self then
        (header_names
         ++ [ ("container" ++ newline ++ "used (MB)")%string;
              ("container" ++ newline ++ "max used (MB)")%string;
              ("container" ++ newline ++ "limit (MB)")%string;
              "total physical (MB)"%string ],
         header_types ++ ["f"; "f"; "f"; "f"]%string,
         col_allign ++ ["r"; "r"; "r"; "r"]%string)%list
      else
        (header_names ++ ["used (MB)"; "total physical (MB)"]%string,
         header_types ++ ["f"; "f"]%string,
         col_allign ++ ["r"; "r"]%string)%list
    else (header_names, header_types, col_allign) in
  if _show_inside_server self then
    (header_names ++ ["prediction"]%string,
     header_types ++ ["f"]%string,
     col_allign ++ ["r"]%string)%list
  else (header_names, header_types, col_allign).

(** [_same_value_list] *)
Definition _same_value_list (value : PyVal) (n : nat) : list PyVal :=
  repeat value n.

(** [_add_mem_info]: the row with the memory columns added. *)
Definition _add_mem_info (self : t) (row : list PyVal) (server_stats : PyVal)
  : outcome (list PyVal) :=
  has_mem_info <~ (if is_None server_stats then Done false
                   else py_contains "mem_info" server_stats) ;;
  if has_mem_info : bool then
    mem_info <~ py_getitem server_stats "mem_info" ;;
    if _in_docker self then
      container_limit <~
        (if is_None (_memory_limit self) then Done (VStr "no memory limit")
         else py_getitem mem_info "container_limit") ;;
      has_max_used <~ py_contains "container_max_used" mem_info ;;
      max_used <~
        (if has_max_used : bool
         then py_getitem mem_info "container_max_used"
         else Done (VStr "N/A")) ;;
      has_used <~ py_contains "container_used" mem_info ;;
      used <~
        (if has_used : bool
         then py_getitem mem_info "container_used"
         else Done (VStr "N/A")) ;;
      total <~ py_getitem mem_info "total" ;;
      Done (row ++ [used; max_used; container_limit; total])
    else
      drum_rss <~ py_getitem mem_info "drum_rss" ;;
      total <~ py_getitem mem_info "total" ;;
      Done (row ++ [drum_rss; total])
  else
    Done (row ++ _same_value_list (VStr NA_VALUE)
                   (if _in_docker self then 4 else 2)).

(** [_add_inside_server_info] *)
Definition _add_inside_server_info (self : t) (row : list PyVal)
  (server_stats : PyVal) : outcome (list PyVal) :=
  if py_truthy server_stats then
    time_info <~ py_getitem server_stats "time_info" ;;
    run_predictor_total <~ py_getitem time_info "run_predictor_total" ;;
    avg <~ py_getitem run_predictor_total "avg" ;;
    Done (row ++ [avg])
  else Done (row ++ [VStr NA_VALUE]).

Section Report.

(** [json.loads] *)
Variable json_loads : string -> outcome PyVal.
(** [StatsCollector.dict_report], from the calls made on the collector. *)
Variable dict_report : list StatsOp -> string -> outcome PyVal.

(** The body of the [for res in self._results] loop: the row of one
    result. *)
Definition result_row (self : t) (res : TestCaseResults.t)
  : outcome (list PyVal) :=
  let row := [ VStr (TestCaseResults.name res);
               VInt (TestCaseResults.samples res);
               VInt (TestCaseResults.iterations res) ] in
  row_and_stats <~
    (if TestCaseResults.prediction_ok res then
       d <~ dict_report (TestCaseResults.stats_obj res) REPORT_NAME ;;
       d_min <~ py_getitem d "min" ;;
       d_avg <~ py_getitem d "avg" ;;
       d_max <~ py_getitem d "max" ;;
       server_stats <~
         match TestCaseResults.server_stats res with
         | Some s =>
             if String.eqb s EmptyString then Done VNone else json_loads s
         | None => Done VNone
         end ;;
       Done (row ++ [d_min; d_avg; d_max], server_stats)
     else
       Done (row ++ _same_value_list (VStr TEST_CASE_FAIL_VALUE) 3, VNone)) ;;
  let '(row, server_stats) := row_and_stats : list PyVal * PyVal in
  row <~ (if _show_mem self then _add_mem_info self row server_stats
          else Done row) ;;
  if _show_inside_server self
  then _add_inside_server_info self row server_stats
  else Done row.

Fixpoint rows_loop (self : t) (results : list TestCaseResults.t)
  (rows : list (list PyVal)) : outcome (list (list PyVal)) :=
  match results with
  | [] => Done rows
  | res :: rest =>
      row <~ result_row self res ;;
      rows_loop self rest (rows ++ [row])
  end.

(** [get_tbl_str], up to the call of [Texttable.draw]: the table it has
    drawn. *)
Definition get_tbl_str (self : t) : outcome Table :=
  let '(header_names, header_types, col_allign) := _init_table self in
  rows <~ rows_loop self (_results self) [map VStr header_names] ;;
  Done {| cols_dtype := header_types;
          cols_align := col_allign;
          table_rows := rows |}.

End Report.

End PerfTestResultsFormatter.

(** ** Definitions for the rounding proofs *)

Module Rounding.

(** The position of [num / den] between two consecutive integers. *)
Definition loc (R D : Z) : location :=
  if R =? 0 then loc_Exact else loc_Inexact (2 * R ?= D).

(** A shift record that stands for [num / den]: its mantissa is the
    quotient and its two bits place the remainder. *)
Definition rec_ok (mrs : shr_record) (num den : Z) : Prop :=
  shr_m mrs = num / den /\ loc_of_shr_record mrs = loc (num mod den) den.

(** What [binary_round_aux] returns for a mantissa of at least 53 digits in
    the normal range, from the once-truncated mantissa [m_r] and its
    exponent [E]. *)
Definition round_result (m_r E : Z) : spec_float :=
  if m_r <? 2 ^ 53 then
    if E <=? 971 then S754_finite false (Z.to_pos m_r) E
    else S754_infinity false
  else
    if E + 1 <=? 971 then S754_finite false (Z.to_pos (2 ^ 52)) (E + 1)
    else S754_infinity false.

End Rounding.

(** ** Reading a run *)

(** What identifies the test case a result belongs to. *)
Definition res_key (r : TestCaseResults.t) : string * Z * Z :=
  (TestCaseResults.name r, TestCaseResults.samples r,
   TestCaseResults.iterations r).

Definition tc_key (tc : PerfTestCase.t) : string * Z * Z :=
  (match PerfTestCase.name tc with
   | Some n => n
   | None => "Test case"%string
   end,
   PerfTestCase.samples tc, PerfTestCase.iterations tc).

(** A prediction request of the case came back with a response. *)
Definition got_response (log : list Call) : bool :=
  existsb (fun c => match c with
                    | CallPredict _ (Returns _) => true
                    | _ => false
                    end) log.

(** A prediction request of the case came back with [response.ok] false. *)
Definition got_not_ok (log : list Call) : bool :=
  existsb (fun c => match c with
                    | CallPredict _ (Returns r) => negb (ok r)
                    | _ => false
                    end) log.

(** The alarm went off during a call of the case. *)
Definition timed_out (log : list Call) : bool :=
  existsb (fun c => match c with
                    | CallPredict _ (Throws DrumPerfTestTimeout) => true
                    | CallStats (Throws DrumPerfTestTimeout) => true
                    | _ => false
                    end) log.

(** The number of requests for the server statistics. *)
Definition stats_fetches (log : list Call) : nat :=
  List.length (filter (fun c => match c with
                                | CallStats _ => true
                                | _ => false
                                end) log).

(** The number of prediction requests. *)
Definition predict_requests (log : list Call) : nat :=
  List.length (filter (fun c => match c with
                                | CallPredict _ _ => true
                                | _ => false
                                end) log).

(** ** A scripted server

    The server answers the requests it receives with the events of a
    script, in order; a response text of [k] characters carries [k]
    predictions. *)
Module Script.

Definition World : Type := list (Event Response).

Definition next (w : World) : Event Response * World :=
  match w with
  | [] => (Throws (RequestException "Connection refused"), [])
  | ev :: rest => (ev, rest)
  end.

Definition post_predict (payload : string) (w : World) := next w.
Definition get_stats (w : World) := next w.
Definition alarm (seconds : Z) (w : World) : World := w.

Definition len_predictions (text : string) : result Z :=
  Ok (Z.of_nat (String.length text)).

Definition to_csv (df : DataFrame nat) : string :=
  String.concat "" (map (fun r => (str_of_int (Z.of_nat r) ++ ",")%string) df).

Definition run_test_case :=
  _run_test_case World post_predict get_stats len_predictions to_csv.

Definition run_all :=
  _run_all_test_cases World post_predict get_stats alarm len_predictions to_csv.

Definition ok_with (predictions : string) : Event Response :=
  Returns {| ok := true; text := predictions |}.

Definition failed_with (message : string) : Event Response :=
  Returns {| ok := false; text := message |}.

End Script.

(** ** Definitions for the statements *)

(** A file a data set was read from holds at least one byte per row, and
    both numbers are exactly representable in binary64. *)
Definition well_sized {Row : Type} (file : CsvFile Row) : Prop :=
  0 < shape0 (csv_rows file) <= st_size file /\ st_size file < 2 ^ 53.

Definition default_options (timeout : Z) : Options :=
  {| opt_iterations := None; opt_samples := None;
     opt_timeout := timeout; opt_verbose := false |}.

(** What holds of the result under construction and of the calls made so
    far, between two statements of a test case. *)
Definition case_inv {World : Type} (prev : list TestCaseResults.t)
  (key : string * Z * Z) (st : RunState World) : Prop :=
  exists r,
    results st = prev ++ [r] /\
    res_key r = key /\
    (TestCaseResults.prediction_ok r = true ->
     got_response (calls st) = true /\ got_not_ok (calls st) = false).

(** What a result and the calls of its case have to do with each other. *)
Definition flag_sound (r : TestCaseResults.t) (log : list Call) : Prop :=
  TestCaseResults.prediction_ok r = true ->
  got_response log = true /\ got_not_ok log = false.



(** [out] is [n] rows of [df] taken cyclically: row [i] of [out] is row
    [i mod row_count] of [df]; the first [n] rows when [df] has that many,
    whole copies of [df] and a prefix of it otherwise. *)
Definition cyclic_sample {Row : Type} (df : DataFrame Row) (n : Z)
  (out : DataFrame Row) : Prop :=
  shape0 out = n /\
  (forall i, (i < Z.to_nat n)%nat ->
             nth_error out i = nth_error df (i mod List.length df)) /\
  (n <= shape0 df -> out = firstn (Z.to_nat n) df) /\
  (shape0 df < n ->
   out = (List.concat (repeat df (Z.to_nat (n / shape0 df)))
          ++ firstn (Z.to_nat (n mod shape0 df)) df)%list) /\
  (n = 0 -> out = []).

Fixpoint non_decreasing (l : list Z) : bool :=
  match l with
  | x :: (y :: _) as r => (x <=? y) && non_decreasing r
  | _ => true
  end.

(** ** Inputs for the examples *)

(** [rows] rows in a file of [size] bytes. *)
Definition file_of (rows : Z) (size : Z) : CsvFile unit :=
  {| csv_rows := repeat tt (Z.to_nat rows); st_size := size |}.

(** 100 rows of one mebibyte each. *)
Definition wide_rows_file : CsvFile unit := file_of 100 104857600.

(** 49 rows of 100 bytes each. *)
Definition rows_49_file : CsvFile unit := file_of 49 4900.

(** 10 rows of 100 bytes each. *)
Definition rows_10_file : CsvFile unit := file_of 10 1000.

(** One million rows of 100 bytes each. *)
Definition million_rows_file : CsvFile unit := file_of 1000000 100000000.

Definition three_rows : DataFrame nat := [0; 1; 2]%nat.

(** A test case of 3 iterations on 2 rows. *)
Definition two_rows_three_times : PerfTestCase.t :=
  PerfTestCase.mk (Some "2 rows"%string) 2 3.

(** A frame of two columns, the directory of its null variants, and
    scoring subprocesses that succeed on every data set, or on every
    data set but one. *)
Definition two_columns : Frame :=
  [ ("a", [Some "1"; Some "2"]); ("b", [Some "x"; Some "y"]) ]%string.

Definition checks_dir : string := "/tmp/drum_validation_checks_0".


Definition fails_on (bad : string) (path : string) (fs : FileSystem) : Z :=
  if String.eqb path bad then 1 else 0.

(** A generator that draws the first positions. *)
Definition first_positions (g : unit) (n k : nat) : list nat := seq 0 k.

(** ** More ways of reading a run *)

(** Every prediction request of the case came back as a success. *)
Definition all_ok (log : list Call) : bool :=
  forallb (fun c => match c with
                    | CallPredict _ (Returns r) => ok r
                    | CallPredict _ (Throws _) => false
                    | CallStats _ => true
                    end) log.

(** Every prediction request of the case carried this payload. *)
Definition sent_only (payload : string) (log : list Call) : Prop :=
  Forall (fun c => match c with
                   | CallPredict p _ => p = payload
                   | CallStats _ => True
                   end) log.

(** The calls on the collector for [n] complete iterations. *)
Definition timed_iterations (n : nat) : list StatsOp :=
  List.concat (repeat [Enable; Mark "start"; Mark "end"; Disable] n).

(** The result of a case after [n] complete iterations on top of [r]. *)
Definition after_iterations (n : nat) (r : TestCaseResults.t)
  : TestCaseResults.t :=
  TestCaseResults.mk
    (TestCaseResults.name r) (TestCaseResults.iterations r)
    (TestCaseResults.samples r)
    (TestCaseResults.stats_obj r ++ timed_iterations n)
    (match n with O => TestCaseResults.prediction_ok r | S _ => true end)
    (TestCaseResults.prediction_error r) (TestCaseResults.server_stats r).

(** ** A server that always answers

    Every prediction request is answered with two predictions, every
    request for the statistics with the same text. *)
Module Healthy.

Definition World : Type := unit.

Definition post_predict (payload : string) (w : World)
  : Event Response * World :=
  (Returns {| ok := true; text := "ab" |}, w).

Definition get_stats (w : World) : Event Response * World :=
  (Returns {| ok := true; text := "{}" |}, w).

Definition run_test_case :=
  _run_test_case World post_predict get_stats
    Script.len_predictions Script.to_csv.

End Healthy.

(** The state of a run with earlier results in front of its own. *)
Definition prefixed {World : Type} (acc : list TestCaseResults.t)
  (st : RunState World) : RunState World :=
  {| results := acc ++ results st; world := world st; calls := calls st |}.

(** What the result of a case owes to the calls of that case: an error
    text is the text of a failure response to the last call, a prediction
    request; the server statistics are the text of a success response to
    the last call, the request for them. *)
Definition report_sound (r : TestCaseResults.t) (log : list Call) : Prop :=
  (forall e, TestCaseResults.prediction_error r = Some e ->
     TestCaseResults.prediction_ok r = false /\
     exists payload response l,
       log = l ++ [CallPredict payload (Returns response)] /\
       ok response = false /\ text response = e) /\
  (forall s, TestCaseResults.server_stats r = Some s ->
     exists response l,
       log = l ++ [CallStats (Returns response)] /\
       ok response = true /\ text response = s).

(** The requests of a case stay within its budget: at most one prediction
    request per iteration and at most one request for the statistics,
    which is sent only after every iteration was answered with a success
    and is then the last call. *)
Definition within_budget (tc : PerfTestCase.t) (log : list Call) : Prop :=
  (predict_requests log <= Z.to_nat (PerfTestCase.iterations tc))%nat /\
  (stats_fetches log <= 1)%nat /\
  (stats_fetches log = 1%nat ->
   predict_requests log = Z.to_nat (PerfTestCase.iterations tc) /\
   all_ok log = true /\
   exists ev, log = removelast log ++ [CallStats ev]).

(** Every prediction request of the case carries the sample of the case,
    serialised; when the sample cannot be taken no request is sent. *)
Definition sends_its_sample {Row : Type} (to_csv : DataFrame Row -> string)
  (df : DataFrame Row) (tc : PerfTestCase.t) (log : list Call) : Prop :=
  match _get_samples_df df (PerfTestCase.samples tc) with
  | Ok test_df => sent_only (to_csv test_df) log
  | Raise _ => log = []
  end.

(** The label of a size, in closed form: the size in bytes below 1024,
    the whole kilobytes in it from there on. *)
Definition size_label (size : Z) : string :=
  format_size (if size <? 1024 then (size, "bytes"%string)
               else (size / 1024, "KB"%string)).

(** The path of the data set written for the column at position [i]. *)
Definition variant_path (dir : string) (i : nat) : string :=
  os_path_join dir
    ("null_value_imputation_column" ++ str_of_int (Z.of_nat i))%string.

(** What reading a path of the disk gives. *)
Definition read_file (path : string) (fs : FileSystem) : option Frame :=
  match find (fun f => String.eqb (fst f) path) fs with
  | Some f => Some (snd f)
  | None => None
  end.

(** ** Reading a table *)

(** The number of columns of the table of a formatter. *)
Definition table_width (self : PerfTestResultsFormatter.t) : nat :=
  (6 + (if PerfTestResultsFormatter._show_mem self
        then if PerfTestResultsFormatter._in_docker self then 4 else 2
        else 0)
   + (if PerfTestResultsFormatter._show_inside_server self then 1 else 0))%nat.

(** The first cells of the row of a result. *)
Definition row_key (res : TestCaseResults.t) : list PyVal :=
  [ VStr (TestCaseResults.name res);
    VInt (TestCaseResults.samples res);
    VInt (TestCaseResults.iterations res) ].

(** The first cells of the row of a test case. *)
Definition case_key (tc : PerfTestCase.t) : list PyVal :=
  [ VStr (match PerfTestCase.name tc with
          | Some n => n
          | None => "Test case"%string
          end);
    VInt (PerfTestCase.samples tc);
    VInt (PerfTestCase.iterations tc) ].

(** The row of a failed case. *)
Definition failed_row (self : PerfTestResultsFormatter.t)
  (res : TestCaseResults.t) : list PyVal :=
  (row_key res ++ repeat (VStr "Fail") 3
   ++ (if PerfTestResultsFormatter._show_mem self
       then repeat (VStr "NA")
              (if PerfTestResultsFormatter._in_docker self then 4 else 2)
       else [])
   ++ (if PerfTestResultsFormatter._show_inside_server self
       then [VStr "NA"] else []))%list.

(** The probe of the server was not answered with a success. *)
Definition probe_failed (ev : Event Response) : bool :=
  match ev with
  | Returns response => negb (ok response)
  | Throws _ => true
  end.

(** ** A server that never starts, a parser and a collector

    The server process has exited: every probe is refused, and
    [communicate()] returns what the process wrote. *)
Module Down.

Definition World : Type := unit.

Definition get (w : World) : Event Response * World :=
  (Throws (RequestException "Connection refused"), w).

Definition sleep (seconds : Z) (w : World) : World := w.

Definition communicate (w : World) : option ((string * string) * World) :=
  Some (("", "Address already in use")%string, w).

Definition wait :=
  _wait_for_server_to_start World get sleep communicate.

End Down.

Module Plain.

(** A parser that knows one text, and a collector that reports the same
    times whatever was measured. *)
Definition json_loads (s : string) : outcome PyVal :=
  if String.eqb s "{}" then Done (VDict [])
  else Fails (LibraryError "Expecting value").

Definition dict_report (ops : list StatsOp) (name : string)
  : outcome PyVal :=
  Done (VDict [ ("min", VInt 1); ("avg", VInt 2); ("max", VInt 3) ]%string).

Definition get_tbl_str :=
  PerfTestResultsFormatter.get_tbl_str json_loads dict_report.

End Plain.

(** The rows of the table of failed features, read off the scoring runs:
    the columns whose run exited with a code other than 0, in the order
    of the columns, each with the data set its run was given. *)
Definition failing_columns (columns : list string) (runs : list Launch)
  : list (string * string) :=
  map (fun cl => (fst cl, launch_input (snd cl)))
      (filter (fun cl => negb (launch_retcode (snd cl) =? 0))
              (combine columns runs)).

(** The success flag of a result says exactly this of the calls of its
    case: a prediction request was answered, and no answer was a
    failure. *)
Definition flag_exact (r : TestCaseResults.t) (log : list Call) : Prop :=
  TestCaseResults.prediction_ok r = true <->
  got_response log = true /\ got_not_ok log = false.

(** The requests of a whole run. *)
Definition total_predict_requests (logs : list (list Call)) : nat :=
  list_sum (map predict_requests logs).

Definition total_stats_fetches (logs : list (list Call)) : nat :=
  list_sum (map stats_fetches logs).

(** * Binary64 rounding *)

Section FloatFacts.

Import PyFloat Rounding.

Lemma digits2_pos_size (p : positive) : digits2_pos p = Pos.size p.
Proof. induction p; simpl; congruence. Qed.

Lemma Zdigits2_log2 (m : Z) : 0 < m -> Zdigits2 m = Z.log2 m + 1.
Proof.
  destruct m as [|p|p]; try lia. intros _. simpl.
  rewrite digits2_pos_size. destruct p; simpl; lia.
Qed.

Lemma Zdigits2_bounds (m : Z) :
  0 < m -> 2 ^ (Zdigits2 m - 1) <= m < 2 ^ Zdigits2 m.
Proof.
  intros Hm. rewrite (Zdigits2_log2 m Hm).
  replace (Z.log2 m + 1 - 1) with (Z.log2 m) by lia.
  apply (Z.log2_spec m Hm).
Qed.

Lemma Zdigits2_unique (m k : Z) :
  2 ^ (k - 1) <= m < 2 ^ k -> 0 < k -> Zdigits2 m = k.
Proof.
  intros H Hk.
  assert (0 < m) by (assert (0 < 2 ^ (k - 1)) by (apply Z.pow_pos_nonneg; lia); lia).
  rewrite Zdigits2_log2 by assumption.
  rewrite (Z.log2_unique m (k - 1)); try lia.
  replace (Z.succ (k - 1)) with k by lia. exact H.
Qed.

Lemma fexp_eq (e : Z) : fexp prec emax e = Z.max (e - 53) (-1074).
Proof. reflexivity. Qed.


Lemma new_location_loc (D R : Z) :
  0 < D -> 0 <= R < D -> new_location D R = loc R D.
Proof.
  intros HD HR. unfold new_location, new_location_even, new_location_odd, loc.
  destruct (Z.even D) eqn:Hev; destruct (R =? 0); try reflexivity.
  f_equal.
  assert (Hodd : Z.odd D = true) by (rewrite <- Z.negb_even, Hev; reflexivity).
  apply Z.odd_spec in Hodd. destruct Hodd as [k Hk].
  destruct (Z.compare_spec (2 * R + 1) D); destruct (Z.compare_spec (2 * R) D);
    try reflexivity; lia.
Qed.


Lemma loc_of_record_of_loc (m : Z) (l : location) :
  loc_of_shr_record (shr_record_of_loc m l) = l.
Proof. destruct l as [|[]]; reflexivity. Qed.

Lemma shr_m_record_of_loc (m : Z) (l : location) :
  shr_m (shr_record_of_loc m l) = m.
Proof. destruct l as [|[]]; reflexivity. Qed.


Lemma div_mod_double (num den : Z) :
  0 <= num -> 0 < den ->
  num / (2 * den) = (num / den) / 2 /\
  num mod (2 * den) = den * ((num / den) mod 2) + num mod den.
Proof.
  intros Hn Hd.
  pose proof (Z.div_mod num den ltac:(lia)) as E1.
  pose proof (Z.mod_pos_bound num den Hd) as B1.
  pose proof (Z.div_mod (num / den) 2 ltac:(lia)) as E2.
  pose proof (Z.mod_pos_bound (num / den) 2 ltac:(lia)) as B2.
  set (m := num / den) in *. set (R := num mod den) in *.
  set (k := m / 2) in *. set (b := m mod 2) in *.
  assert (E : num = (2 * den) * k + (den * b + R)) by nia.
  assert (B : 0 <= den * b + R < 2 * den) by nia.
  split.
  - symmetry. apply (Z.div_unique_pos num (2 * den) k (den * b + R)); assumption.
  - symmetry. apply (Z.mod_unique_pos num (2 * den) k (den * b + R)); assumption.
Qed.

Lemma shr_1_ok (mrs : shr_record) (num den : Z) :
  0 <= num -> 0 < den ->
  rec_ok mrs num den -> rec_ok (shr_1 mrs) num (2 * den).
Proof.
  intros Hn Hd [Hm Hl].
  destruct (div_mod_double num den Hn Hd) as [Ed Em].
  pose proof (Z.mod_pos_bound num den Hd) as B1.
  assert (Hq : 0 <= num / den) by (apply Z.div_pos; lia).
  unfold rec_ok. rewrite Ed, Em. clear Ed Em.
  set (R := num mod den) in *. set (m := num / den) in *.
  destruct mrs as [m0 r s]. simpl in Hm. subst m0.
  unfold loc in *. cbn [loc_of_shr_record] in Hl.
  destruct m as [|p|p]; [| |lia].
  - split; [reflexivity|].
    change (0 mod 2) with 0. rewrite Z.mul_0_r, Z.add_0_l.
    destruct r, s; cbn [loc_of_shr_record shr_1 shr_m orb] in *; destruct (Z.eqb_spec R 0);
      try discriminate; try reflexivity;
      injection Hl as Hl; f_equal;
      destruct (Z.compare_spec (2 * R) den); try discriminate;
      destruct (Z.compare_spec (2 * R) (2 * den)); try reflexivity; lia.
  - destruct p as [p|p|].
    + split; [cbn [shr_m shr_1]; rewrite Pos2Z.inj_xI;
              apply (Z.div_unique_pos _ 2 (Zpos p) 1); lia|].
      replace (Z.pos p~1 mod 2) with 1
        by (rewrite Pos2Z.inj_xI; apply (Z.mod_unique_pos _ 2 (Zpos p) 1); lia).
      destruct r, s; cbn [loc_of_shr_record shr_1 shr_m orb] in *; destruct (Z.eqb_spec R 0);
        try discriminate;
        destruct (Z.eqb_spec (den * 1 + R) 0); try lia;
        try (injection Hl as Hl);
        f_equal;
        destruct (Z.compare_spec (2 * R) den); try discriminate;
        destruct (Z.compare_spec (2 * (den * 1 + R)) (2 * den)); try reflexivity; lia.
    + split; [cbn [shr_m shr_1]; rewrite Pos2Z.inj_xO;
              apply (Z.div_unique_pos _ 2 (Zpos p) 0); lia|].
      replace (Z.pos p~0 mod 2) with 0
        by (rewrite Pos2Z.inj_xO; apply (Z.mod_unique_pos _ 2 (Zpos p) 0); lia).
      rewrite Z.mul_0_r, Z.add_0_l.
      destruct r, s; cbn [loc_of_shr_record shr_1 shr_m orb] in *; destruct (Z.eqb_spec R 0);
        try discriminate; try reflexivity;
        injection Hl as Hl; f_equal;
        destruct (Z.compare_spec (2 * R) den); try discriminate;
        destruct (Z.compare_spec (2 * R) (2 * den)); try reflexivity; lia.
    + split; [reflexivity|].
      change (1 mod 2) with 1.
      destruct r, s; cbn [loc_of_shr_record shr_1 shr_m orb] in *; destruct (Z.eqb_spec R 0);
        try discriminate;
        destruct (Z.eqb_spec (den * 1 + R) 0); try lia;
        try (injection Hl as Hl);
        f_equal;
        destruct (Z.compare_spec (2 * R) den); try discriminate;
        destruct (Z.compare_spec (2 * (den * 1 + R)) (2 * den)); try reflexivity; lia.
Qed.

Lemma iter_shr_1_ok (p : positive) :
  forall (mrs : shr_record) (num den : Z),
    0 <= num -> 0 < den ->
    rec_ok mrs num den ->
    rec_ok (iter_pos shr_1 p mrs) num (den * 2 ^ Zpos p).
Proof.
  induction p as [p IH|p IH|]; intros mrs num den Hn Hd H; cbn [iter_pos].
  - assert (P : 0 < 2 ^ Zpos p) by (apply Z.pow_pos_nonneg; lia).
    replace (den * 2 ^ Zpos p~1) with (2 * den * 2 ^ Zpos p * 2 ^ Zpos p).
    + apply IH; [lia|nia|]. apply IH; [lia|lia|]. apply shr_1_ok; assumption.
    + replace (Zpos p~1) with (1 + Zpos p + Zpos p) by lia.
      rewrite !Z.pow_add_r by lia. change (2 ^ 1) with 2. ring.
  - assert (P : 0 < 2 ^ Zpos p) by (apply Z.pow_pos_nonneg; lia).
    replace (den * 2 ^ Zpos p~0) with (den * 2 ^ Zpos p * 2 ^ Zpos p).
    + apply IH; [lia|nia|]. apply IH; assumption.
    + replace (Zpos p~0) with (Zpos p + Zpos p) by lia.
      rewrite Z.pow_add_r by lia. ring.
  - change (2 ^ 1) with 2. rewrite Z.mul_comm. apply shr_1_ok; assumption.
Qed.

Lemma shr_fexp_spec (m e : Z) (l : location) (num den n : Z) :
  0 <= num -> 0 < den ->
  m = num / den -> l = loc (num mod den) den ->
  n = fexp prec emax (Zdigits2 m + e) - e -> 0 <= n ->
  exists mrs,
    shr_fexp prec emax m e l = (mrs, e + n) /\ rec_ok mrs num (den * 2 ^ n).
Proof.
  intros Hn Hd Hm Hl Hn' Hpos.
  unfold shr_fexp, shr. rewrite <- Hn'.
  assert (H0 : rec_ok (shr_record_of_loc m l) num den).
  { split; [rewrite shr_m_record_of_loc; exact Hm
           |rewrite loc_of_record_of_loc; exact Hl]. }
  destruct n as [|p|p]; [| |lia].
  - exists (shr_record_of_loc m l). split.
    + rewrite Z.add_0_r. reflexivity.
    + rewrite Z.pow_0_r, Z.mul_1_r. exact H0.
  - exists (iter_pos shr_1 p (shr_record_of_loc m l)). split; [reflexivity|].
    apply iter_shr_1_ok; assumption.
Qed.


Lemma round_nearest_even_bounds (m : Z) (l : location) :
  m <= round_nearest_even m l <= m + 1.
Proof.
  destruct l as [|[]]; cbn [round_nearest_even]; try lia.
  destruct (Z.even m); lia.
Qed.


Lemma pow2_split (a b : Z) : 0 <= a -> 0 <= b -> 2 ^ (a + b) = 2 ^ a * 2 ^ b.
Proof. intros. apply Z.pow_add_r; assumption. Qed.

Lemma truncated_mantissa_bounds (mx n : Z) :
  0 <= n -> Zdigits2 mx = 53 + n -> 0 < mx ->
  2 ^ 52 <= mx / 2 ^ n < 2 ^ 53.
Proof.
  intros Hn Hd Hm.
  pose proof (Zdigits2_bounds mx Hm) as B. rewrite Hd in B.
  replace (53 + n - 1) with (n + 52) in B by lia.
  replace (53 + n) with (n + 53) in B by lia.
  rewrite !pow2_split in B by lia.
  assert (P : 0 < 2 ^ n) by (apply Z.pow_pos_nonneg; lia).
  split.
  - apply Z.div_le_lower_bound; lia.
  - apply Z.div_lt_upper_bound; lia.
Qed.

Lemma second_shr_fexp (m_r E : Z) :
  2 ^ 52 <= m_r <= 2 ^ 53 -> -1074 <= E ->
  exists mrs,
    shr_fexp prec emax m_r E loc_Exact =
      (mrs, if m_r <? 2 ^ 53 then E else E + 1) /\
    shr_m mrs = if m_r <? 2 ^ 53 then m_r else 2 ^ 52.
Proof.
  intros Hm HE.
  assert (H1 : m_r = m_r / 1) by (rewrite Z.div_1_r; reflexivity).
  assert (H2 : loc_Exact = loc (m_r mod 1) 1) by (rewrite Z.mod_1_r; reflexivity).
  destruct (Z.ltb_spec m_r (2 ^ 53)) as [Hlt|Hge].
  - assert (Hd : Zdigits2 m_r = 53) by (apply Zdigits2_unique; [exact (conj (proj1 Hm) Hlt)|lia]).
    destruct (shr_fexp_spec m_r E loc_Exact m_r 1 0) as [mrs [Hs [Hk _]]];
      try assumption; try lia.
    { rewrite Hd, fexp_eq. lia. }
    exists mrs. rewrite Z.add_0_r in Hs. split; [exact Hs|].
    rewrite Hk. change (1 * 2 ^ 0) with 1. apply Z.div_1_r.
  - assert (Hm' : m_r = 2 ^ 53) by lia.
    assert (Hd : Zdigits2 m_r = 54) by (rewrite Hm'; reflexivity).
    destruct (shr_fexp_spec m_r E loc_Exact m_r 1 1) as [mrs [Hs [Hk _]]];
      try assumption; try lia.
    { rewrite Hd, fexp_eq. lia. }
    exists mrs. split; [exact Hs|].
    rewrite Hk, Hm'. reflexivity.
Qed.

Lemma binary_round_aux_spec (num den mx ex : Z) (lx : location) :
  0 <= num -> 0 < den ->
  mx = num / den -> lx = loc (num mod den) den ->
  2 ^ 52 <= mx -> -1074 <= Zdigits2 mx + ex - 53 ->
  let n := Zdigits2 mx - 53 in
  let D := den * 2 ^ n in
  0 <= n /\
  2 ^ 52 <= num / D < 2 ^ 53 /\
  binary_round_aux prec emax false mx ex lx =
    round_result (round_nearest_even (num / D) (loc (num mod D) D)) (ex + n).
Proof.
  intros Hnum Hden Hmx Hlx Hbig Hnormal n D.
  assert (Hpos : 0 < mx) by (assert (0 < 2 ^ 52) by reflexivity; lia).
  assert (Hn : 0 <= n).
  { pose proof (Zdigits2_bounds mx Hpos) as [_ B].
    assert (2 ^ 52 < 2 ^ Zdigits2 mx) by lia.
    apply Z.pow_lt_mono_r_iff in H; try lia.
    rewrite Zdigits2_log2 by assumption.
    pose proof (Z.log2_nonneg mx). lia. }
  assert (HQ : num / D = mx / 2 ^ n).
  { unfold D. rewrite <- Z.div_div;
      [rewrite <- Hmx; reflexivity | lia | apply Z.pow_pos_nonneg; lia]. }
  assert (HQb : 2 ^ 52 <= num / D < 2 ^ 53).
  { rewrite HQ. apply truncated_mantissa_bounds; try assumption. unfold n. lia. }
  split; [exact Hn|]. split; [exact HQb|].
  destruct (shr_fexp_spec mx ex lx num den n) as [mrs [Hs [Hk Hl]]];
    try assumption.
  { rewrite fexp_eq. unfold n. lia. }
  fold D in Hk, Hl.
  unfold binary_round_aux. rewrite Hs, Hk, Hl.
  set (m_r := round_nearest_even (num / D) (loc (num mod D) D)).
  pose proof (round_nearest_even_bounds (num / D) (loc (num mod D) D)) as Hr.
  fold m_r in Hr.
  destruct (second_shr_fexp m_r (ex + n)) as [mrs2 [Hs2 Hk2]]; [lia|unfold n; lia|].
  rewrite Hs2, Hk2. unfold round_result.
  change (Z.sub emax prec) with 971.
  destruct (Z.ltb_spec m_r (2 ^ 53)) as [Hlt|Hge].
  - destruct m_r as [|p|p]; try lia. reflexivity.
  - reflexivity.
Qed.


Lemma Pos_iter_xO (m d : positive) :
  Zpos (Pos.iter xO m d) = Zpos m * 2 ^ Zpos d.
Proof.
  rewrite (Pos.iter_swap_gen _ _ Zpos xO (Z.mul 2)) by reflexivity.
  rewrite <- Z.shiftl_mul_pow2 by lia. reflexivity.
Qed.

Lemma Zdigits2_pos (a : Z) : 0 < a -> 0 < Zdigits2 a.
Proof.
  intros H. rewrite Zdigits2_log2 by assumption.
  pose proof (Z.log2_nonneg a). lia.
Qed.

Lemma Zdigits2_le (a k : Z) : 0 < a -> a < 2 ^ k -> Zdigits2 a <= k.
Proof.
  intros H Hk. rewrite Zdigits2_log2 by assumption.
  apply Z.log2_lt_pow2 in Hk; lia.
Qed.

Lemma Zdigits2_mono (a b : Z) : 0 < a -> a <= b -> Zdigits2 a <= Zdigits2 b.
Proof.
  intros Ha Hab. rewrite !Zdigits2_log2 by lia.
  pose proof (Z.log2_le_mono a b Hab). lia.
Qed.

(** [float(a)] is exact for [0 < a < 2^53]: a 53-digit mantissa that is
    [a] shifted left, with the opposite exponent. *)
Lemma of_int_normal (a : Z) :
  0 < a < 2 ^ 53 ->
  exists m e,
    of_int a = Ok (S754_finite false m e) /\
    e = Zdigits2 a - 53 /\
    Zpos m = a * 2 ^ (- e) /\
    2 ^ 52 <= Zpos m < 2 ^ 53.
Proof.
  intros [Ha Hb].
  pose proof (Zdigits2_pos a Ha) as Hd0.
  pose proof (Zdigits2_le a 53 Ha Hb) as Hd1.
  pose proof (Zdigits2_bounds a Ha) as Hd2.
  destruct a as [|p|p]; try lia.
  unfold of_int, binary_normalize, binary_round.
  change (Zpos (digits2_pos p)) with (Zdigits2 (Zpos p)).
  rewrite Z.add_0_r, fexp_eq.
  set (d := Zdigits2 (Zpos p)) in *.
  replace (Z.max (d - 53) (-1074)) with (d - 53) by lia.
  assert (Hshl : exists mz,
             shl_align p 0 (d - 53) = (mz, d - 53) /\
             Zpos mz = Zpos p * 2 ^ (53 - d)).
  { unfold shl_align. rewrite Z.sub_0_r.
    destruct (d - 53) as [|q|q] eqn:E; try lia.
    - exists p. split; [reflexivity|].
      replace (53 - d) with 0 by lia. rewrite Z.pow_0_r. lia.
    - exists (Pos.iter xO p q). split; [reflexivity|].
      rewrite Pos_iter_xO. replace (53 - d) with (Zpos q) by lia. reflexivity. }
  destruct Hshl as [mz [Hs Hmz]]. rewrite Hs.
  assert (Hbounds : 2 ^ 52 <= Zpos mz < 2 ^ 53).
  { rewrite Hmz.
    assert (P : 0 < 2 ^ (53 - d)) by (apply Z.pow_pos_nonneg; lia).
    replace (2 ^ 52) with (2 ^ (d - 1) * 2 ^ (53 - d))
      by (rewrite <- Z.pow_add_r by lia; f_equal; lia).
    replace (2 ^ 53) with (2 ^ d * 2 ^ (53 - d))
      by (rewrite <- Z.pow_add_r by lia; f_equal; lia).
    nia. }
  assert (Hdz : Zdigits2 (Zpos mz) = 53) by (apply Zdigits2_unique; [exact Hbounds|lia]).
  destruct (binary_round_aux_spec (Zpos mz) 1 (Zpos mz) (d - 53) loc_Exact)
    as [_ [_ Hr]];
    [lia | lia | rewrite Z.div_1_r; reflexivity
     | rewrite Z.mod_1_r; reflexivity | lia | rewrite Hdz; lia | ].
  rewrite Hdz in Hr. change (53 - 53) with 0 in Hr.
  change (1 * 2 ^ 0) with 1 in Hr.
  rewrite Z.div_1_r, Z.mod_1_r, Z.add_0_r in Hr.
  change (loc 0 1) with loc_Exact in Hr. cbn [round_nearest_even] in Hr.
  rewrite Hr. unfold round_result.
  destruct (Z.ltb_spec (Zpos mz) (2 ^ 53)); try lia.
  destruct (Z.leb_spec (d - 53) 971); try lia.
  exists mz, (d - 53). repeat split; try lia.
  rewrite Hmz. f_equal. f_equal. lia.
Qed.


Lemma div_eucl_div_mod (a b : Z) : Z.div_eucl a b = (a / b, a mod b).
Proof. unfold Z.div, Z.modulo. destruct (Z.div_eucl a b); reflexivity. Qed.

Lemma quotient_mantissa_bounds (mx my : Z) :
  2 ^ 52 <= mx < 2 ^ 53 -> 2 ^ 52 <= my < 2 ^ 53 ->
  2 ^ 52 <= mx * 2 ^ 53 / my < 2 ^ 54.
Proof.
  intros Hx Hy. split.
  - apply Z.div_le_lower_bound; [lia|]. nia.
  - apply Z.div_lt_upper_bound; [lia|]. nia.
Qed.

Lemma SFdiv_normal (mx my : positive) (ex ey : Z) :
  2 ^ 52 <= Zpos mx < 2 ^ 53 -> 2 ^ 52 <= Zpos my < 2 ^ 53 ->
  -1000 <= ex - ey <= 1000 ->
  let num := Zpos mx * 2 ^ 53 in
  let n := Zdigits2 (num / Zpos my) - 53 in
  let D := Zpos my * 2 ^ n in
  0 <= n <= 1 /\
  2 ^ 52 <= num / D < 2 ^ 53 /\
  SFdiv prec emax (S754_finite false mx ex) (S754_finite false my ey) =
    round_result (round_nearest_even (num / D) (loc (num mod D) D))
                 (ex - ey - 53 + n).
Proof.
  intros Hx Hy He num n D.
  assert (Hdx : Zdigits2 (Zpos mx) = 53) by (apply Zdigits2_unique; [exact Hx|lia]).
  assert (Hdy : Zdigits2 (Zpos my) = 53) by (apply Zdigits2_unique; [exact Hy|lia]).
  pose proof (quotient_mantissa_bounds _ _ Hx Hy) as Hq. fold num in Hq.
  assert (Hn : 0 <= n <= 1).
  { unfold n. assert (0 < num / Zpos my) by lia.
    pose proof (Zdigits2_le (num / Zpos my) 54 H (proj2 Hq)).
    pose proof (Zdigits2_bounds (num / Zpos my) H) as [_ B].
    assert (2 ^ 52 < 2 ^ Zdigits2 (num / Zpos my)) by lia.
    apply Z.pow_lt_mono_r_iff in H1; try lia.
    pose proof (Zdigits2_pos _ H). lia. }
  destruct (binary_round_aux_spec num (Zpos my) (num / Zpos my) (ex - ey - 53)
              (loc (num mod Zpos my) (Zpos my)))
    as [_ [HQ Hr]];
    [unfold num; lia | lia | reflexivity | reflexivity | lia | fold n; lia | ].
  fold n in HQ, Hr. fold D in HQ, Hr.
  split; [exact Hn|]. split; [exact HQ|].
  rewrite <- Hr.
  unfold SFdiv, SFdiv_core_binary.
  rewrite Hdx, Hdy, fexp_eq.
  replace (Z.min (Z.max (53 + ex - (53 + ey) - 53) (-1074)) (ex - ey))
    with (ex - ey - 53) by lia.
  replace (ex - ey - (ex - ey - 53)) with 53 by lia.
  rewrite Z.shiftl_mul_pow2 by lia. fold num.
  rewrite div_eucl_div_mod.
  rewrite new_location_loc; [reflexivity|lia|].
  apply Z.mod_pos_bound. lia.
Qed.


Lemma round_nearest_even_loc (Q R D : Z) :
  round_nearest_even Q (loc R D) = Q \/
  (round_nearest_even Q (loc R D) = Q + 1 /\ D <= 2 * R).
Proof.
  unfold loc. destruct (R =? 0); [left; reflexivity|].
  destruct (Z.compare_spec (2 * R) D); cbn [round_nearest_even].
  - destruct (Z.even Q); [left; reflexivity|right; split; [reflexivity|lia]].
  - left; reflexivity.
  - right; split; [reflexivity|lia].
Qed.

Lemma to_int_round_result (m_r E : Z) :
  2 ^ 52 <= m_r <= 2 ^ 53 -> E <= 0 -> (m_r = 2 ^ 53 -> E < 0) ->
  exists m e,
    round_result m_r E = S754_finite false m e /\
    to_int (S754_finite false m e) = Ok (m_r / 2 ^ (- E)) /\
    E <= e <= E + 1 /\
    2 ^ 52 <= Zpos m < 2 ^ 53.
Proof.
  intros Hm HE Hc. unfold round_result.
  destruct (Z.ltb_spec m_r (2 ^ 53)) as [Hlt|Hge].
  - destruct (Z.leb_spec E 971); try lia.
    exists (Z.to_pos m_r), E. split; [reflexivity|].
    rewrite Z2Pos.id by lia. split; [|lia].
    cbn [to_int]. rewrite Z2Pos.id by lia.
    rewrite Z.shiftl_div_pow2 by lia. reflexivity.
  - assert (m_r = 2 ^ 53) by lia. specialize (Hc H).
    destruct (Z.leb_spec (E + 1) 971); try lia.
    exists (Z.to_pos (2 ^ 52)), (E + 1). split; [reflexivity|].
    split; [|split; [lia|split; [reflexivity|reflexivity]]].
    cbn [to_int]. rewrite Z2Pos.id by reflexivity.
    rewrite Z.shiftl_div_pow2 by lia. subst m_r.
    replace (- E) with (1 + - (E + 1)) by lia.
    rewrite Z.pow_add_r by lia. change (2 ^ 53) with (2 ^ 1 * 2 ^ 52).
    assert (0 < 2 ^ (- (E + 1))) by (apply Z.pow_pos_nonneg; lia).
    rewrite Z.div_mul_cancel_l by lia. reflexivity.
Qed.

(** Rounding the quotient to nearest never reaches the next integer:
    the floor of the rounded mantissa is the floor of [a / b]. *)
Lemma floor_of_rounded (a b K num D N : Z) :
  0 <= a -> 0 < b -> 0 < K -> 0 < D -> 0 < N ->
  num = a * K -> D * N = b * K -> b < 2 * N ->
  let m_r := round_nearest_even (num / D) (loc (num mod D) D) in
  m_r / N = a / b /\ (m_r = num / D + 1 -> 2 <= N).
Proof.
  intros Ha Hb HK HD HN Hnum HDN HbN m_r.
  pose proof (Z.div_mod num D ltac:(lia)) as E1.
  pose proof (Z.mod_pos_bound num D HD) as B1.
  set (Q := num / D) in *. set (R := num mod D) in *.
  assert (HQ : Q / N = a / b).
  { unfold Q. rewrite Z.div_div by lia. rewrite HDN, Hnum.
    rewrite (Z.mul_comm a K), (Z.mul_comm b K).
    apply Z.div_mul_cancel_l; lia. }
  assert (HQ0 : 0 <= Q) by (apply Z.div_pos; nia).
  pose proof (Z.div_mod a b ltac:(lia)) as E2.
  pose proof (Z.mod_pos_bound a b Hb) as B2.
  pose proof (Z.div_mod Q N ltac:(lia)) as E3.
  pose proof (Z.mod_pos_bound Q N HN) as B3.
  rewrite HQ in E3.
  set (t := a / b) in *. set (u := Q mod N) in *. set (v := a mod b) in *.
  assert (Hup : D <= 2 * R -> u + 1 < N).
  { intros Hhalf.
    destruct (Z.lt_ge_cases (u + 1) N) as [|Hge]; [assumption|exfalso].
    assert (Hu : Q + 1 = (t + 1) * N) by lia.
    assert (H1 : (Q + 1) * D = (t + 1) * (b * K)).
    { rewrite Hu, <- HDN. ring. }
    assert (H2 : (a + 1) * K <= (t + 1) * (b * K)).
    { replace ((t + 1) * (b * K)) with (((t + 1) * b) * K) by ring.
      apply Z.mul_le_mono_nonneg_r; lia. }
    assert (H3 : 2 * K <= D) by nia.
    assert (H4 : D * N < 2 * K * N) by nia.
    nia. }
  destruct (round_nearest_even_loc Q R D) as [Hr|[Hr Hhalf]]; fold m_r in Hr.
  - split; [rewrite Hr; exact HQ|]. intros Hc. lia.
  - specialize (Hup Hhalf). split.
    + rewrite Hr. symmetry.
      apply (Z.div_unique_pos (Q + 1) N t (u + 1)); lia.
    + intros _. lia.
Qed.

(** For operands below [2^53], [int(a / b)] is the floor quotient. *)
Theorem int_truediv_exact (a b : Z) :
  0 <= a < 2 ^ 53 -> 0 < b < 2 ^ 53 ->
  int_truediv a b = Ok (a / b).
Proof.
  intros Ha Hb. unfold int_truediv, truediv.
  destruct (Z.eqb_spec b 0) as [|_]; [lia|].
  destruct (of_int_normal b Hb) as [mb [eb [Hob [Heb [Hmb Bb]]]]].
  destruct (Z.eq_dec a 0) as [->|Ha0].
  { rewrite Hob. cbn. reflexivity. }
  destruct (of_int_normal a ltac:(lia)) as [ma [ea [Hoa [Hea [Hma Ba]]]]].
  rewrite Hoa, Hob. cbn [bind].
  pose proof (Zdigits2_pos a ltac:(lia)) as Da0.
  pose proof (Zdigits2_le a 53 ltac:(lia) (proj2 Ha)) as Da1.
  pose proof (Zdigits2_pos b ltac:(lia)) as Db0.
  pose proof (Zdigits2_le b 53 ltac:(lia) (proj2 Hb)) as Db1.
  pose proof (Zdigits2_bounds b ltac:(lia)) as Db2.
  set (da := Zdigits2 a) in *. set (db := Zdigits2 b) in *.
  destruct (SFdiv_normal ma mb ea eb Ba Bb ltac:(lia)) as [Hn [HQ Hdiv]].
  rewrite Hdiv. clear Hdiv.
  set (num := Zpos ma * 2 ^ 53) in *.
  set (n := Zdigits2 (num / Zpos mb) - 53) in *.
  set (D := Zpos mb * 2 ^ n) in *.
  set (E := ea - eb - 53 + n).
  assert (HE : E <= 0) by (unfold E; lia).
  assert (PN : 0 < 2 ^ (- E)) by (apply Z.pow_pos_nonneg; lia).
  assert (PK : 0 < 2 ^ (106 - da)) by (apply Z.pow_pos_nonneg; lia).
  assert (Pn : 0 < 2 ^ n) by (apply Z.pow_pos_nonneg; lia).
  assert (Hnum : num = a * 2 ^ (106 - da)).
  { unfold num. rewrite Hma, <- Z.mul_assoc, <- Z.pow_add_r by lia.
    f_equal. f_equal. lia. }
  assert (HDN : D * 2 ^ (- E) = b * 2 ^ (106 - da)).
  { unfold D. rewrite Hmb, <- !Z.mul_assoc, <- !Z.pow_add_r by lia.
    f_equal. f_equal. unfold E. lia. }
  assert (HbN : b < 2 * 2 ^ (- E)).
  { change 2 with (2 ^ 1) at 1. rewrite <- Z.pow_add_r by lia.
    apply Z.lt_le_trans with (2 ^ db); [lia|].
    apply Z.pow_le_mono_r; unfold E; lia. }
  destruct (floor_of_rounded a b (2 ^ (106 - da)) num D (2 ^ (- E)))
    as [Hfl Hcarry]; try lia.
  set (m_r := round_nearest_even (num / D) (loc (num mod D) D)) in *.
  pose proof (round_nearest_even_bounds (num / D) (loc (num mod D) D)) as Hr.
  fold m_r in Hr.
  destruct (to_int_round_result m_r E) as [m [e [Hrr [Hti _]]]]; try lia.
  { intros Hc. assert (m_r = num / D + 1) by lia.
    specialize (Hcarry H).
    destruct (Z.eq_dec E 0) as [E0|]; [|lia].
    rewrite E0 in Hcarry. change (2 ^ (- 0)) with 1 in Hcarry. lia. }
  fold E. rewrite Hrr. cbn [bind]. rewrite Hti, Hfl. reflexivity.
Qed.

(** [num / D] brackets [a * N / b] when [num / D] and [a * N / b] are the
    same fraction. *)
Lemma quotient_bracket (a b K num D N : Z) :
  0 < K -> 0 < D -> 0 < N ->
  num = a * K -> D * N = b * K ->
  num / D * b <= a * N < (num / D + 1) * b.
Proof.
  intros HK HD HN Hnum HDN.
  pose proof (Z.mul_div_le num D HD) as L.
  pose proof (Z.mul_succ_div_gt num D HD) as U.
  set (Q := num / D) in *.
  assert (E1 : forall x, x * b * K = D * x * N).
  { intros x. replace (x * b * K) with (x * (b * K)) by ring.
    rewrite <- HDN. ring. }
  assert (E2 : a * N * K = num * N) by (rewrite Hnum; ring).
  assert (L1 : Q * b * K <= a * N * K).
  { rewrite E1, E2. apply Z.mul_le_mono_nonneg_r; lia. }
  assert (U1 : a * N * K < (Q + 1) * b * K).
  { rewrite E1, E2. apply Z.mul_lt_mono_pos_r; lia. }
  split.
  - apply Z.mul_le_mono_pos_r in L1; assumption.
  - apply Z.mul_lt_mono_pos_r in U1; assumption.
Qed.

(** The float [a / b] of two positive integers below [2^53] is a normal
    number [m * 2^e] whose exponent is fixed by the sizes of [a] and [b],
    and whose mantissa is within one unit of the exact quotient. *)
Lemma truediv_normal (a b : Z) :
  0 < a < 2 ^ 53 -> 0 < b < 2 ^ 53 ->
  exists m e,
    truediv a b = Ok (S754_finite false m e) /\
    2 ^ 52 <= Zpos m < 2 ^ 53 /\
    Zdigits2 a - Zdigits2 b - 53 <= e <= Zdigits2 a - Zdigits2 b - 51 /\
    (e <= 0 -> (Zpos m - 1) * b <= a * 2 ^ (- e) <= (Zpos m + 1) * b).
Proof.
  intros Ha Hb. unfold truediv.
  destruct (Z.eqb_spec b 0) as [|_]; [lia|].
  destruct (of_int_normal b Hb) as [mb [eb [Hob [Heb [Hmb Bb]]]]].
  destruct (of_int_normal a Ha) as [ma [ea [Hoa [Hea [Hma Ba]]]]].
  rewrite Hoa, Hob. cbn [bind].
  pose proof (Zdigits2_pos a ltac:(lia)) as Da0.
  pose proof (Zdigits2_le a 53 ltac:(lia) (proj2 Ha)) as Da1.
  pose proof (Zdigits2_pos b ltac:(lia)) as Db0.
  pose proof (Zdigits2_le b 53 ltac:(lia) (proj2 Hb)) as Db1.
  set (da := Zdigits2 a) in *. set (db := Zdigits2 b) in *.
  destruct (SFdiv_normal ma mb ea eb Ba Bb ltac:(lia)) as [Hn [HQ Hdiv]].
  rewrite Hdiv. clear Hdiv.
  set (num := Zpos ma * 2 ^ 53) in *.
  set (n := Zdigits2 (num / Zpos mb) - 53) in *.
  set (D := Zpos mb * 2 ^ n) in *.
  set (m_r := round_nearest_even (num / D) (loc (num mod D) D)).
  pose proof (round_nearest_even_bounds (num / D) (loc (num mod D) D)) as Hr.
  fold m_r in Hr.
  set (E := ea - eb - 53 + n).
  assert (HE : E <= 0) by (unfold E; lia).
  assert (PN : 0 < 2 ^ (- E)) by (apply Z.pow_pos_nonneg; lia).
  assert (PK : 0 < 2 ^ (106 - da)) by (apply Z.pow_pos_nonneg; lia).
  assert (Pn : 0 < 2 ^ n) by (apply Z.pow_pos_nonneg; lia).
  assert (Hnum : num = a * 2 ^ (106 - da)).
  { unfold num. rewrite Hma, <- Z.mul_assoc, <- Z.pow_add_r by lia.
    f_equal. f_equal. lia. }
  assert (HDN : D * 2 ^ (- E) = b * 2 ^ (106 - da)).
  { unfold D. rewrite Hmb, <- !Z.mul_assoc, <- !Z.pow_add_r by lia.
    f_equal. f_equal. unfold E. lia. }
  pose proof (quotient_bracket a b _ num D _ PK ltac:(lia) PN Hnum HDN) as Hbr.
  set (Q := num / D) in *.
  unfold round_result. fold E.
  destruct (Z.ltb_spec m_r (2 ^ 53)) as [Hlt|Hge].
  - destruct (Z.leb_spec E 971); try lia.
    exists (Z.to_pos m_r), E.
    rewrite Z2Pos.id by lia.
    split; [reflexivity|]. split; [lia|]. split; [unfold E; lia|].
    intros _. nia.
  - destruct (Z.leb_spec (E + 1) 971); try lia.
    exists (Z.to_pos (2 ^ 52)), (E + 1).
    split; [reflexivity|]. split; [split; reflexivity|].
    split; [unfold E; lia|].
    intros He1. rewrite Z2Pos.id by reflexivity.
    assert (Hm : m_r = 2 ^ 53) by lia.
    assert (HQ53 : Q = 2 ^ 53 - 1) by lia.
    assert (HN2 : 2 ^ (- E) = 2 * 2 ^ (- (E + 1))).
    { change 2 with (2 ^ 1) at 2. rewrite <- Z.pow_add_r by lia.
      f_equal. lia. }
    assert (0 < 2 ^ (- (E + 1))) by (apply Z.pow_pos_nonneg; lia).
    rewrite HN2, HQ53 in Hbr.
    change (2 ^ 53 - 1 + 1) with (2 * 2 ^ 52) in Hbr.
    change (2 ^ 53 - 1) with (2 * 2 ^ 52 - 1) in Hbr.
    nia.
Qed.

Lemma product_digits (x y : Z) :
  2 ^ 52 <= x < 2 ^ 53 -> 2 ^ 52 <= y < 2 ^ 53 ->
  52 <= Zdigits2 (x * y) - 53 <= 53.
Proof.
  intros Hx Hy.
  assert (L : 2 ^ 104 <= x * y) by (change (2 ^ 104) with (2 ^ 52 * 2 ^ 52); nia).
  assert (U : x * y < 2 ^ 106) by (change (2 ^ 106) with (2 ^ 53 * 2 ^ 53); nia).
  assert (P : 0 < x * y) by (assert (0 < 2 ^ 104) by reflexivity; lia).
  pose proof (Zdigits2_le (x * y) 106 P U).
  pose proof (Zdigits2_bounds (x * y) P) as [_ B].
  assert (H1 : 2 ^ 104 < 2 ^ Zdigits2 (x * y)) by lia.
  pose proof (Zdigits2_pos _ P).
  apply Z.pow_lt_mono_r_iff in H1; lia.
Qed.

(** [int(a * x)] for a positive integer [a] below [2^53] and a positive
    normal float [x = mx * 2^ex] whose product with [a] stays below
    [2^52]: the floor of the exact product, or one more. *)
Lemma int_mul_bounds (a : Z) (mx : positive) (ex : Z) :
  0 < a < 2 ^ 53 -> 2 ^ 52 <= Zpos mx < 2 ^ 53 ->
  -900 <= ex -> Zdigits2 a + ex < 0 ->
  exists k,
    int_mul a (S754_finite false mx ex) = Ok k /\
    a * Zpos mx / 2 ^ (- ex) <= k <= a * Zpos mx / 2 ^ (- ex) + 1 /\
    k * 2 ^ (- ex) <= a * Zpos mx + 2 ^ Zdigits2 a.
Proof.
  intros Ha Hx Hex Hsmall. unfold int_mul, mul_int.
  destruct (of_int_normal a Ha) as [ma [ea [Hoa [Hea [Hma Ba]]]]].
  rewrite Hoa. cbn [bind].
  pose proof (Zdigits2_pos a ltac:(lia)) as Da0.
  pose proof (Zdigits2_le a 53 ltac:(lia) (proj2 Ha)) as Da1.
  set (da := Zdigits2 a) in *.
  change (SFmul prec emax (S754_finite false ma ea) (S754_finite false mx ex))
    with (binary_round_aux prec emax false (Zpos (ma * mx)) (ea + ex) loc_Exact).
  rewrite Pos2Z.inj_mul.
  set (P := Zpos ma * Zpos mx).
  pose proof (product_digits _ _ Ba Hx) as Hn. fold P in Hn.
  assert (HP : 2 ^ 104 <= P)
    by (unfold P; change (2 ^ 104) with (2 ^ 52 * 2 ^ 52); nia).
  destruct (binary_round_aux_spec P 1 P (ea + ex) loc_Exact)
    as [_ [HQ Hr]];
    [lia | lia | rewrite Z.div_1_r; reflexivity
     | rewrite Z.mod_1_r; reflexivity
     | assert (2 ^ 52 < 2 ^ 104) by reflexivity; lia | lia | ].
  rewrite Hr. clear Hr.
  set (n := Zdigits2 P - 53) in *.
  rewrite Z.mul_1_l in *.
  set (m_r := round_nearest_even (P / 2 ^ n) (loc (P mod 2 ^ n) (2 ^ n))).
  pose proof (round_nearest_even_bounds (P / 2 ^ n) (loc (P mod 2 ^ n) (2 ^ n))) as Hb.
  fold m_r in Hb.
  set (E := ea + ex + n).
  assert (HE : E < 0) by (unfold E; lia).
  destruct (to_int_round_result m_r E) as [m [e [Hrr [Hti _]]]]; try lia.
  rewrite Hrr, Hti. eexists. split; [reflexivity|].
  assert (PN : 0 < 2 ^ (- E)) by (apply Z.pow_pos_nonneg; lia).
  assert (Pn : 0 < 2 ^ n) by (apply Z.pow_pos_nonneg; lia).
  assert (Pe : 0 < 2 ^ (- ea)) by (apply Z.pow_pos_nonneg; lia).
  assert (Px : 0 < 2 ^ (- ex)) by (apply Z.pow_pos_nonneg; lia).
  assert (Hfloor : P / 2 ^ n / 2 ^ (- E) = a * Zpos mx / 2 ^ (- ex)).
  { rewrite Z.div_div by lia. rewrite <- Z.pow_add_r by lia.
    replace (n + - E) with (- ea + - ex) by (unfold E; lia).
    rewrite Z.pow_add_r by lia. unfold P. rewrite Hma.
    replace (a * 2 ^ (- ea) * Zpos mx) with (2 ^ (- ea) * (a * Zpos mx)) by ring.
    apply Z.div_mul_cancel_l; lia. }
  rewrite <- Hfloor. split; [split|].
  - apply Z.div_le_mono; lia.
  - apply Z.le_trans with ((P / 2 ^ n + 1) / 2 ^ (- E)).
    + apply Z.div_le_mono; lia.
    + apply Z.div_le_upper_bound; [lia|].
      pose proof (Z.mul_succ_div_gt (P / 2 ^ n) (2 ^ (- E)) PN). nia.
  - pose proof (Z.mul_div_le m_r (2 ^ (- E)) PN) as H1.
    pose proof (Z.mul_div_le P (2 ^ n) Pn) as H2.
    set (k := m_r / 2 ^ (- E)) in *. set (Q := P / 2 ^ n) in *.
    assert (H3 : k * (2 ^ (- E) * 2 ^ n) <= P + 2 ^ n) by nia.
    rewrite <- Z.pow_add_r in H3 by lia.
    replace (- E + n) with (- ea + - ex) in H3 by (unfold E; lia).
    rewrite Z.pow_add_r in H3 by lia.
    assert (Hn2 : 2 ^ n <= 2 ^ (- ea) * 2 ^ da).
    { rewrite <- Z.pow_add_r by lia. apply Z.pow_le_mono_r; lia. }
    unfold P in H3. rewrite Hma in H3.
    assert (H4 : 2 ^ (- ea) * (k * 2 ^ (- ex))
                 <= 2 ^ (- ea) * (a * Zpos mx + 2 ^ da)) by nia.
    apply Z.mul_le_mono_pos_l in H4; assumption.
Qed.

End FloatFacts.

(** * The sampler *)

Section SamplerFacts.

Context {Row : Type}.
Implicit Types df : DataFrame Row.

Lemma concat_repeat_length df (q : nat) :
  List.length (List.concat (repeat df q)) = (q * List.length df)%nat.
Proof.
  induction q as [|q IH]; cbn [repeat List.concat]; [reflexivity|].
  rewrite length_app, IH. lia.
Qed.

(** Row [i] of [q] copies of a frame is row [i mod row_count]. *)
Lemma nth_error_concat_repeat df (q i : nat) :
  (i < q * List.length df)%nat ->
  nth_error (List.concat (repeat df q)) i =
    nth_error df (i mod List.length df).
Proof.
  revert i. induction q as [|q IH]; intros i Hi; [lia|].
  cbn [repeat List.concat].
  assert (Hlen : (0 < List.length df)%nat) by lia.
  destruct (Nat.lt_ge_cases i (List.length df)) as [Hlt|Hge].
  - rewrite nth_error_app1 by assumption.
    rewrite Nat.mod_small by assumption. reflexivity.
  - rewrite nth_error_app2 by assumption.
    rewrite IH by lia.
    replace i with ((i - List.length df) + 1 * List.length df)%nat at 2 by lia.
    rewrite Nat.Div0.mod_add. reflexivity.
Qed.

Lemma head_nonneg df (n : Z) :
  0 <= n -> head df n = firstn (Z.to_nat n) df.
Proof.
  intros Hn. unfold head. destruct (Z.leb_spec 0 n); [reflexivity|lia].
Qed.

Lemma shape0_firstn df (n : Z) :
  0 <= n <= shape0 df -> shape0 (firstn (Z.to_nat n) df) = n.
Proof.
  unfold shape0. intros H. rewrite length_firstn. lia.
Qed.

(** The closed form of [_get_samples_df] on a frame with at least one row,
    for a row count below [2^53]. *)
Lemma _get_samples_df_eq df (n : Z) :
  df <> [] -> 0 <= n < 2 ^ 53 ->
  _get_samples_df df n =
    Ok (if n <=? shape0 df then firstn (Z.to_nat n) df
        else (List.concat (repeat df (Z.to_nat (n / shape0 df)))
              ++ firstn (Z.to_nat (n mod shape0 df)) df)%list).
Proof.
  intros Hdf Hn. unfold _get_samples_df.
  assert (Hrows : 0 < shape0 df).
  { unfold shape0. destruct df; [congruence|cbn [List.length]; lia]. }
  destruct (Z.geb_spec (shape0 df) n) as [Hge|Hlt];
    destruct (Z.leb_spec n (shape0 df)); try lia.
  - rewrite head_nonneg by lia. reflexivity.
  - rewrite int_truediv_exact by lia. cbn [bind].
    assert (Hq : 1 <= n / shape0 df)
      by (apply Z.div_le_lower_bound; lia).
    destruct (Z.to_nat (n / shape0 df)) as [|q] eqn:Eq; [lia|].
    cbn [repeat pd_concat bind].
    pose proof (Z.mod_pos_bound n (shape0 df) Hrows).
    rewrite head_nonneg by lia. reflexivity.
Qed.

End SamplerFacts.

(** * The planner *)

Section PlannerFacts.

Context {Row : Type}.
Implicit Types file : CsvFile Row.


(** The 50MB row estimate is returned, and it is small: at least one and
    at most [2^28 + 1]. *)
Lemma approx_samples_bounds file :
  well_sized file ->
  exists k,
    _get_approximate_samples_in_csv_size file (50 * 1048576) = Ok (k + 1) /\
    0 <= k <= 2 ^ 28.
Proof.
  intros [[Hrows Hle] Hfs].
  unfold _get_approximate_samples_in_csv_size, pd_read_csv.
  change (50 * 1048576) with 52428800.
  set (rows := shape0 (csv_rows file)) in *.
  set (fs := st_size file) in *.
  destruct (truediv_normal 52428800 fs) as [m [e [Hq [Hm [He _]]]]];
    [split; reflexivity | lia |].
  rewrite Hq. cbn [bind].
  change (Zdigits2 52428800) with 26 in He.
  pose proof (Zdigits2_mono rows fs Hrows Hle) as Hd.
  pose proof (Zdigits2_pos rows Hrows) as Hd0.
  pose proof (Zdigits2_le fs 53 ltac:(lia) Hfs) as Hd1.
  pose proof (Zdigits2_bounds rows Hrows) as [_ Hr].
  destruct (int_mul_bounds rows m e) as [k [Hk [[Hlo Hhi] _]]]; try lia.
  rewrite Hk. cbn [bind]. exists k. split; [reflexivity|].
  assert (PN : 0 < 2 ^ (- e)) by (apply Z.pow_pos_nonneg; lia).
  split.
  - assert (0 <= rows * Zpos m / 2 ^ (- e)) by (apply Z.div_pos; nia). lia.
  - assert (rows * Zpos m / 2 ^ (- e) < 2 ^ 28); [|lia].
    apply Z.div_lt_upper_bound; [lia|].
    rewrite <- Z.pow_add_r by lia.
    apply Z.lt_le_trans with (2 ^ Zdigits2 rows * 2 ^ 53); [nia|].
    rewrite <- Z.pow_add_r by lia.
    apply Z.pow_le_mono_r; lia.
Qed.

(** For fewer than [2^24] rows the two roundings of the estimate cost at
    most one row: it is the floor of [rows * 50MiB / file_size] plus one,
    or that floor itself. *)
Lemma approx_samples_tight file :
  well_sized file -> shape0 (csv_rows file) < 2 ^ 24 ->
  exists est,
    _get_approximate_samples_in_csv_size file (50 * 1048576) = Ok est /\
    shape0 (csv_rows file) * 52428800 / st_size file <= est
      <= shape0 (csv_rows file) * 52428800 / st_size file + 1.
Proof.
  intros [[Hrows Hle] Hfs] Hsmall.
  unfold _get_approximate_samples_in_csv_size, pd_read_csv.
  change (50 * 1048576) with 52428800.
  set (rows := shape0 (csv_rows file)) in *.
  set (fs := st_size file) in *.
  destruct (truediv_normal 52428800 fs) as [m [e [Hq [Hm [He Hval]]]]];
    [split; reflexivity | lia |].
  rewrite Hq. cbn [bind].
  change (Zdigits2 52428800) with 26 in He.
  pose proof (Zdigits2_mono rows fs Hrows Hle) as Hd.
  pose proof (Zdigits2_pos rows Hrows) as Hd0.
  pose proof (Zdigits2_le fs 53 ltac:(lia) Hfs) as Hd1.
  pose proof (Zdigits2_le rows 24 Hrows Hsmall) as Hd2.
  pose proof (Zdigits2_bounds rows Hrows) as [_ Hr].
  pose proof (Zdigits2_bounds fs ltac:(lia)) as [_ Hf].
  destruct (int_mul_bounds rows m e) as [k [Hk [[Hlo _] Hup]]]; try lia.
  rewrite Hk. cbn [bind]. exists (k + 1). split; [reflexivity|].
  specialize (Hval ltac:(lia)).
  set (dr := Zdigits2 rows) in *. set (df := Zdigits2 fs) in *.
  assert (PN : 0 < 2 ^ (- e)) by (apply Z.pow_pos_nonneg; lia).
  assert (HN : 2 ^ (25 + df) <= 2 ^ (- e)) by (apply Z.pow_le_mono_r; lia).
  assert (Hdf : 2 ^ (25 + df) = 2 ^ 25 * 2 ^ df) by (apply Z.pow_add_r; lia).
  assert (Hdr : 2 ^ dr <= 2 ^ 24) by (apply Z.pow_le_mono_r; lia).
  assert (Hdrf : 2 ^ dr <= 2 ^ df) by (apply Z.pow_le_mono_r; lia).
  assert (P25 : 2 ^ 25 = 33554432) by reflexivity.
  assert (P24 : 2 ^ 24 = 16777216) by reflexivity.
  pose proof (Z.mul_succ_div_gt (rows * Zpos m) (2 ^ (- e)) PN) as Hlo'.
  pose proof (Z.mul_div_le (rows * 52428800) fs ltac:(lia)) as F1.
  pose proof (Z.mul_succ_div_gt (rows * 52428800) fs ltac:(lia)) as F2.
  set (FP := rows * 52428800 / fs) in *.
  set (N := 2 ^ (- e)) in *. set (M := Zpos m) in *.
  set (TN := 52428800 * N) in *.
  destruct Hval as [V1 V2].
  split.
  - destruct (Z.le_gt_cases FP (k + 1)) as [|Hc]; [assumption|exfalso].
    assert (A1 : rows * M < (k + 1) * N) by nia.
    assert (A2 : fs * (k + 2) <= rows * 52428800) by nia.
    assert (A3 : fs * (k + 2) * N <= rows * TN).
    { unfold TN. replace (rows * (52428800 * N)) with (rows * 52428800 * N) by ring.
      apply Z.mul_le_mono_nonneg_r; lia. }
    assert (A4 : rows * TN <= rows * ((M + 1) * fs))
      by (apply Z.mul_le_mono_nonneg_l; lia).
    assert (A5 : rows * M * fs < (k + 1) * N * fs)
      by (apply Z.mul_lt_mono_pos_r; lia).
    assert (A6 : fs * N < rows * fs) by nia.
    assert (A7 : N < rows) by nia.
    lia.
  - assert (k <= FP); [|lia].
    destruct (Z.le_gt_cases k FP) as [|Hc]; [assumption|exfalso].
    assert (B1 : rows * 52428800 + 1 <= fs * k) by nia.
    assert (B2 : (rows * 52428800 + 1) * N <= fs * k * N)
      by (apply Z.mul_le_mono_nonneg_r; lia).
    assert (B3 : k * N * fs <= (rows * M + 2 ^ dr) * fs)
      by (apply Z.mul_le_mono_nonneg_r; lia).
    assert (B4 : rows * ((M - 1) * fs) <= rows * TN)
      by (apply Z.mul_le_mono_nonneg_l; lia).
    assert (B5 : N <= fs * (rows + 2 ^ dr)) by (unfold TN in *; nia).
    assert (B6 : fs * (rows + 2 ^ dr) < 2 ^ df * 2 ^ 25).
    { apply Z.le_lt_trans with (fs * 2 ^ 25).
      - apply Z.mul_le_mono_nonneg_l; lia.
      - apply Z.mul_lt_mono_pos_r; lia. }
    nia.
Qed.

Lemma _get_size_and_units_total (size : Z) :
  size < 2 ^ 53 ->
  exists su, _get_size_and_units size = Ok su.
Proof.
  intros H. unfold _get_size_and_units.
  destruct (Z.ltb_spec size 1024); [eexists; reflexivity|].
  rewrite int_truediv_exact by lia. eexists; reflexivity.
Qed.

Lemma sample_size_exact file :
  well_sized file ->
  PyFloat.int_truediv (st_size file) (shape0 (csv_rows file)) =
    Ok (st_size file / shape0 (csv_rows file)) /\
  0 <= st_size file / shape0 (csv_rows file) < 2 ^ 53.
Proof.
  intros [[Hrows Hle] Hfs]. split.
  - apply int_truediv_exact; lia.
  - split; [apply Z.div_pos; lia|].
    apply Z.div_lt_upper_bound; nia.
Qed.


(** The default plan, in closed form. *)
Lemma default_plan file (options : Options) :
  well_sized file ->
  opt_iterations options = None -> opt_samples options = None ->
  exists est label df_50mb,
    _get_approximate_samples_in_csv_size file (50 * 1048576) = Ok est /\
    1 <= est <= 2 ^ 28 + 1 /\
    _get_samples_df (csv_rows file) est = Ok df_50mb /\
    shape0 df_50mb = est /\
    _prepare_test_cases file options =
      Ok ([ PerfTestCase.mk (Some label) 1 100;
            PerfTestCase.mk (Some "0.1MB"%string) (est / 500) 50;
            PerfTestCase.mk (Some "10MB"%string) (est / 5) 5;
            PerfTestCase.mk (Some "50MB"%string) est 1 ],
          df_50mb).
Proof.
  intros Hw Hi Hs.
  destruct (approx_samples_bounds file Hw) as [k [Hest Hk]].
  destruct (sample_size_exact file Hw) as [Hss Hssb].
  destruct (_get_size_and_units_total _ (proj2 Hssb)) as [su Hsu].
  assert (Hne : csv_rows file <> []).
  { destruct Hw as [[Hrows _] _]. unfold shape0 in Hrows.
    destruct (csv_rows file); [cbn in Hrows; lia|congruence]. }
  assert (Hb : 0 <= k + 1 < 2 ^ 53)
    by (assert (2 ^ 28 + 1 < 2 ^ 53) by reflexivity; lia).
  pose proof (_get_samples_df_eq (csv_rows file) (k + 1) Hne Hb) as Hdf.
  set (df_50mb := if k + 1 <=? shape0 (csv_rows file) then _ else _) in Hdf.
  exists (k + 1), (format_size su), df_50mb.
  split; [exact Hest|]. split; [lia|]. split; [exact Hdf|].
  split.
  - unfold df_50mb. destruct Hw as [[Hrows _] _].
    destruct (Z.leb_spec (k + 1) (shape0 (csv_rows file))).
    + apply shape0_firstn. lia.
    + unfold shape0 at 1. rewrite length_app, concat_repeat_length, length_firstn.
      pose proof (Z.div_mod (k + 1) (shape0 (csv_rows file)) ltac:(lia)) as E.
      pose proof (Z.mod_pos_bound (k + 1) (shape0 (csv_rows file)) Hrows) as B.
      assert (0 <= (k + 1) / shape0 (csv_rows file)) by (apply Z.div_pos; lia).
      unfold shape0 in *. nia.
  - unfold _prepare_test_cases, pd_read_csv.
    rewrite Hss, Hi, Hs. cbn [bind]. rewrite Hest. cbn [bind].
    rewrite Hdf. cbn [bind]. rewrite Hsu. cbn [bind].
    rewrite !int_truediv_exact by lia. cbn [bind]. reflexivity.
Qed.

(** The plan when an override is given, in closed form: for a file with
    at least one row, whose row count, size and case size binary64 holds
    exactly. *)
Lemma override_plan file (options : Options) :
  0 < shape0 (csv_rows file) < 2 ^ 53 ->
  0 <= st_size file < 2 ^ 53 ->
  (opt_iterations options <> None \/ opt_samples options <> None) ->
  let samples :=
    match opt_samples options with
    | None => shape0 (csv_rows file)
    | Some s => s
    end in
  let iters :=
    match opt_iterations options with None => 1 | Some i => i end in
  samples * (st_size file / shape0 (csv_rows file)) < 2 ^ 53 ->
  exists label,
    _prepare_test_cases file options =
      Ok ([ PerfTestCase.mk (Some label) samples iters ], csv_rows file).
Proof.
  intros Hrows Hfs Hov samples iters Hsize.
  pose proof (int_truediv_exact (st_size file) (shape0 (csv_rows file))
                Hfs Hrows) as Hss.
  destruct (_get_size_and_units_total _ Hsize) as [su Hsu].
  exists (format_size su).
  unfold _prepare_test_cases, pd_read_csv. rewrite Hss. cbn [bind].
  fold samples iters.
  destruct (opt_iterations options) as [i|] eqn:Ei;
    destruct (opt_samples options) as [s|] eqn:Es;
    try (destruct Hov; congruence);
    subst samples iters; cbv zeta; rewrite Hsu; reflexivity.
Qed.

End PlannerFacts.

Lemma shape0_file_of (rows size : Z) :
  0 <= rows -> shape0 (csv_rows (file_of rows size)) = rows.
Proof.
  intros H. unfold shape0, file_of. cbn [csv_rows].
  rewrite repeat_length. lia.
Qed.

Lemma well_sized_file_of (rows size : Z) :
  0 < rows <= size -> size < 2 ^ 53 -> well_sized (file_of rows size).
Proof.
  intros H1 H2. unfold well_sized. rewrite shape0_file_of by lia.
  cbn [st_size file_of]. lia.
Qed.

(** A case that asks for no more rows than the working sample has is
    served by its first rows. *)
Lemma head_sample {R : Type} (df : DataFrame R) (s : Z) :
  0 <= s <= shape0 df ->
  _get_samples_df df s = Ok (firstn (Z.to_nat s) df).
Proof.
  intros H. unfold _get_samples_df.
  destruct (Z.geb_spec (shape0 df) s); [|lia].
  rewrite head_nonneg by lia. reflexivity.
Qed.

Lemma estimate_million_rows :
  _get_approximate_samples_in_csv_size million_rows_file (50 * 1048576)
  = Ok 524289.
Proof.
  unfold _get_approximate_samples_in_csv_size, pd_read_csv, million_rows_file.
  rewrite shape0_file_of by lia. cbn [st_size file_of].
  vm_compute. reflexivity.
Qed.

(** * The runner *)

Lemma modify_last_app {A : Type} (f : A -> A) (l : list A) (x : A) :
  modify_last f (l ++ [x]) = l ++ [f x].
Proof.
  induction l as [|y l IH]; [reflexivity|].
  cbn [app modify_last]. rewrite IH.
  destruct (l ++ [x]) eqn:E; [destruct l; discriminate|reflexivity].
Qed.

Section RunnerFacts.

Context {Row : Type}.
Variable World : Type.
Variable requests_post_predict : string -> World -> Event Response * World.
Variable requests_get_stats : World -> Event Response * World.
Variable signal_alarm : Z -> World -> World.
Variable len_predictions : string -> result Z.
Variable to_csv : DataFrame Row -> string.

Local Abbreviation loop := (predict_loop World requests_post_predict len_predictions).
Local Abbreviation run_case :=
  (_run_test_case World requests_post_predict requests_get_stats
     len_predictions to_csv).
Local Abbreviation run :=
  (run_cases World requests_post_predict requests_get_stats signal_alarm
     len_predictions to_csv).


Lemma update_keeps_results prev r (f : TestCaseResults.t -> TestCaseResults.t)
  (st : RunState World) :
  results st = prev ++ [r] ->
  results (update_tc_results f st) = prev ++ [f r].
Proof.
  intros H. unfold update_tc_results. cbn [results]. rewrite H.
  apply modify_last_app.
Qed.

Lemma got_response_snoc log c :
  got_response (log ++ [c]) = got_response log || got_response [c].
Proof. unfold got_response. apply existsb_app. Qed.

Lemma got_not_ok_snoc log c :
  got_not_ok (log ++ [c]) = got_not_ok log || got_not_ok [c].
Proof. unfold got_not_ok. apply existsb_app. Qed.

(** The loop keeps the result in place, and leaves its flag set only
    when a response arrived and none was a failure.  While the loop runs
    no failure response has been seen. *)
Lemma predict_loop_inv (n : nat) (df_csv : string) (nrows : Z) :
  forall prev key (st : RunState World),
    case_inv prev key st ->
    got_not_ok (calls st) = false ->
    case_inv prev key (snd (loop n df_csv nrows st)) /\
    (fst (loop n df_csv nrows st) = Ok false ->
     got_not_ok (calls (snd (loop n df_csv nrows st))) = false).
Proof.
  induction n as [|n IH]; intros prev key st Hinv Hno.
  - cbn [predict_loop fst snd]. split; [exact Hinv|intros _; exact Hno].
  - destruct Hinv as [r [Hres [Hkey Hflag]]].
    cbn [predict_loop].
    set (st1 := update_tc_results (TestCaseResults.stats_call (Mark "start"))
                  (update_tc_results (TestCaseResults.stats_call Enable) st)).
    assert (H1 : results st1 =
                 prev ++ [TestCaseResults.stats_call (Mark "start")
                            (TestCaseResults.stats_call Enable r)]).
    { unfold st1. apply update_keeps_results, update_keeps_results, Hres. }
    assert (C1 : calls st1 = calls st) by reflexivity.
    assert (W1 : world st1 = world st) by reflexivity.
    rewrite W1.
    destruct (requests_post_predict df_csv (world st)) as [ev w].
    set (st2 := record_call (CallPredict df_csv ev) w st1).
    assert (H2 : results st2 = results st1) by reflexivity.
    assert (C2 : calls st2 = calls st ++ [CallPredict df_csv ev])
      by (unfold st2, record_call; cbn [calls]; rewrite C1; reflexivity).
    destruct ev as [response|e].
    + set (st3 := update_tc_results (TestCaseResults.stats_call (Mark "end")) st2).
      assert (H3 : results st3 =
                   prev ++ [TestCaseResults.stats_call (Mark "end")
                              (TestCaseResults.stats_call (Mark "start")
                                 (TestCaseResults.stats_call Enable r))]).
      { unfold st3. apply update_keeps_results. rewrite H2. exact H1. }
      assert (C3 : calls st3 = calls st ++ [CallPredict df_csv (Returns response)])
        by exact C2.
      destruct (ok response) eqn:Eok.
      * set (st4 := update_tc_results (TestCaseResults.set_prediction_ok true) st3).
        assert (H4 : exists r4, results st4 = prev ++ [r4] /\ res_key r4 = key).
        { eexists. split; [apply update_keeps_results, H3|exact Hkey]. }
        assert (C4 : calls st4 = calls st ++ [CallPredict df_csv (Returns response)])
          by exact C3.
        assert (G4 : got_response (calls st4) = true /\ got_not_ok (calls st4) = false).
        { rewrite C4, got_response_snoc, got_not_ok_snoc, Hno.
          cbn. rewrite Eok. split; [apply orb_true_r|reflexivity]. }
        assert (I4 : case_inv prev key st4).
        { destruct H4 as [r4 [Hr4 Hk4]]. exists r4. repeat split; try assumption;
            apply G4. }
        destruct (len_predictions (text response)) as [actual|e].
        -- destruct (negb (actual =? nrows)).
           ++ cbn [fst snd]. split; [exact I4|discriminate].
           ++ apply IH.
              ** destruct I4 as [r4 [Hr4 [Hk4 Hf4]]].
                 eexists. split; [apply update_keeps_results, Hr4|].
                 split; [exact Hk4|]. intros _. exact G4.
              ** exact (proj2 G4).
        -- cbn [fst snd]. split; [exact I4|discriminate].
      * cbn [fst snd]. split; [|discriminate].
        eexists. split.
        { apply update_keeps_results, update_keeps_results, H3. }
        split; [exact Hkey|]. cbn. discriminate.
    + cbn [fst snd]. split; [|discriminate].
      exists (TestCaseResults.stats_call (Mark "start")
                (TestCaseResults.stats_call Enable r)).
      split; [rewrite H2; exact H1|]. split; [exact Hkey|].
      intros Hok. rewrite C2, got_response_snoc, got_not_ok_snoc, Hno.
      cbn. rewrite orb_false_r. split; [|reflexivity].
      apply Hflag. exact Hok.
Qed.

(** A test case appends exactly one result, for that case, whatever
    happens in it. *)
Lemma run_test_case_inv (df : DataFrame Row) (tc : PerfTestCase.t)
  (st : RunState World) :
  calls st = [] ->
  case_inv (results st) (tc_key tc) (snd (run_case df tc st)).
Proof.
  intros Hcalls. unfold _run_test_case.
  set (r0 := TestCaseResults.init _ _ _ _).
  set (st0 := {| results := results st ++ [r0]; world := world st;
                 calls := calls st |}).
  assert (I0 : case_inv (results st) (tc_key tc) st0).
  { exists r0. split; [reflexivity|]. split; [reflexivity|]. discriminate. }
  assert (N0 : got_not_ok (calls st0) = false)
    by (unfold st0; cbn [calls]; rewrite Hcalls; reflexivity).
  destruct (_get_samples_df df (PerfTestCase.samples tc)) as [test_df|e];
    [|exact I0].
  pose proof (predict_loop_inv
                (Z.to_nat (PerfTestCase.iterations tc)) (to_csv test_df)
                (shape0 test_df) _ _ st0 I0 N0) as [I1 N1].
  destruct (loop (Z.to_nat (PerfTestCase.iterations tc)) (to_csv test_df)
              (shape0 test_df) st0) as [[[|]|e] st1];
    cbn [fst snd] in *; try exact I1.
  specialize (N1 eq_refl).
  destruct (requests_get_stats (world st1)) as [ev w].
  destruct I1 as [r1 [Hr1 [Hk1 Hf1]]].
  assert (I2 : case_inv (results st) (tc_key tc)
                 (record_call (CallStats ev) w st1)).
  { exists r1. split; [exact Hr1|]. split; [exact Hk1|].
    intros Hok. cbn [record_call calls].
    rewrite got_response_snoc, got_not_ok_snoc.
    destruct (Hf1 Hok) as [G1 G2]. rewrite G1, G2.
    destruct ev; split; reflexivity. }
  destruct ev as [response|e]; [|exact I2].
  destruct (ok response); [|exact I2].
  destruct I2 as [r2 [Hr2 [Hk2 Hf2]]].
  eexists. split; [apply update_keeps_results, Hr2|].
  split; [exact Hk2|exact Hf2].
Qed.


Lemma run_cases_spec (df : DataFrame Row) (timeout : Z)
  (cases : list PerfTestCase.t) :
  forall (acc : list TestCaseResults.t) (w : World),
  exists new,
    fst (fst (run df timeout cases acc w)) = acc ++ new /\
    map res_key new = map tc_key cases /\
    Forall2 flag_sound new (snd (run df timeout cases acc w)).
Proof.
  induction cases as [|tc rest IH]; intros acc w.
  - exists []. cbn. rewrite app_nil_r. repeat split. constructor.
  - cbn [run_cases].
    set (st0 := {| results := acc; world := signal_alarm timeout w;
                   calls := [] |}).
    pose proof (run_test_case_inv df tc st0 eq_refl) as [r [Hr [Hk Hf]]].
    destruct (run_case df tc st0) as [outcome st1]. cbn [snd] in *.
    set (st2 := match outcome with
                | Ok _ => st1
                | Raise DrumPerfTestTimeout => st1
                | Raise _ => st1
                end).
    assert (E2 : st2 = st1) by (unfold st2; destruct outcome as [|[]]; reflexivity).
    rewrite E2. clear st2 E2.
    destruct (IH (results st1) (world st1)) as [new [Hres [Hkeys Hflags]]].
    destruct (run df timeout rest (results st1) (world st1)) as [[res w'] logs].
    cbn [fst snd] in *.
    exists (r :: new). split.
    + rewrite Hres, Hr. cbn [results st0]. rewrite <- app_assoc. reflexivity.
    + split; [cbn [map]; rewrite Hk, Hkeys; reflexivity|].
      constructor; [exact Hf|exact Hflags].
Qed.

(** Whatever the server is, a first response that is a success with the
    wrong number of predictions ends the case with [AssertionError] after
    that one request, and leaves the success flag of the result set. *)
Lemma first_response_mismatch (df test_df : DataFrame Row)
  (tc : PerfTestCase.t) (st : RunState World) (response : Response)
  (w : World) (k : Z) :
  _get_samples_df df (PerfTestCase.samples tc) = Ok test_df ->
  0 < PerfTestCase.iterations tc ->
  requests_post_predict (to_csv test_df) (world st) = (Returns response, w) ->
  ok response = true ->
  len_predictions (text response) = Ok k -> k <> shape0 test_df ->
  fst (run_case df tc st) = Raise AssertionError /\
  calls (snd (run_case df tc st)) =
    calls st ++ [CallPredict (to_csv test_df) (Returns response)] /\
  exists r,
    results (snd (run_case df tc st)) = results st ++ [r] /\
    TestCaseResults.prediction_ok r = true /\
    TestCaseResults.prediction_error r = None.
Proof.
  intros Hdf Hit Hpost Hok Hlen Hk. unfold _run_test_case. rewrite Hdf.
  destruct (Z.to_nat (PerfTestCase.iterations tc)) as [|n] eqn:En; [lia|].
  cbn [predict_loop update_tc_results world results calls].
  rewrite Hpost. cbn [record_call update_tc_results world results calls].
  rewrite Hok, Hlen.
  destruct (Z.eqb_spec k (shape0 test_df)) as [|_]; [contradiction|].
  cbn [negb fst snd results calls]. split; [reflexivity|].
  split; [reflexivity|].
  unfold update_tc_results, record_call. cbn [results world calls].
  rewrite !modify_last_app. eexists. split; [reflexivity|].
  split; reflexivity.
Qed.

(** Whatever the server is, a first response that is a failure ends the
    case after that one request: the statistics are not asked for. *)
Lemma failed_request_skips_stats (df test_df : DataFrame Row)
  (tc : PerfTestCase.t) (st : RunState World) (response : Response)
  (w : World) :
  _get_samples_df df (PerfTestCase.samples tc) = Ok test_df ->
  0 < PerfTestCase.iterations tc ->
  requests_post_predict (to_csv test_df) (world st) = (Returns response, w) ->
  ok response = false ->
  fst (run_case df tc st) = Ok tt /\
  calls (snd (run_case df tc st)) =
    calls st ++ [CallPredict (to_csv test_df) (Returns response)] /\
  exists r,
    results (snd (run_case df tc st)) = results st ++ [r] /\
    TestCaseResults.prediction_ok r = false /\
    TestCaseResults.prediction_error r = Some (text response) /\
    TestCaseResults.server_stats r = None.
Proof.
  intros Hdf Hit Hpost Hok. unfold _run_test_case. rewrite Hdf.
  destruct (Z.to_nat (PerfTestCase.iterations tc)) as [|n] eqn:En; [lia|].
  cbn [predict_loop update_tc_results world results calls].
  rewrite Hpost. cbn [record_call update_tc_results world results calls].
  rewrite Hok.
  cbn [fst snd results calls update_tc_results]. split; [reflexivity|].
  split; [reflexivity|].
  unfold update_tc_results, record_call. cbn [results world calls].
  rewrite !modify_last_app. eexists. split; [reflexivity|].
  repeat split.
Qed.

End RunnerFacts.

(** * The null value imputation check *)











Lemma remove_passed_all_failed (results : list (string * ValidationTestResult))
  (fs : FileSystem) :
  Forall (fun kv => retcode (snd kv) <> 0) results ->
  remove_passed results fs = fs.
Proof.
  unfold remove_passed. revert fs.
  induction results as [|kv r IH]; intros fs H; [reflexivity|].
  inversion H as [|? ? Hkv Hr]; subst. cbn [fold_left].
  destruct (Z.eqb_spec (retcode (snd kv)) 0); [contradiction|].
  apply IH. exact Hr.
Qed.

Section ValidationFacts.

Variable score_subprocess : string -> FileSystem -> Z.




End ValidationFacts.



(** * The sample of the side-effects check *)

(** Below [2^50] rows, [int(n * 0.1)] is the integer tenth: the literal
    [0.1] exceeds one tenth by too little for the product to reach the
    next integer. *)
Lemma int_mul_one_tenth (n : Z) :
  0 <= n < 2 ^ 50 ->
  PyFloat.int_mul n PyFloat.one_tenth = Ok (n / 10).
Proof.
  intros Hn. destruct (Z.eq_dec n 0) as [->|Hn0]; [reflexivity|].
  unfold PyFloat.one_tenth.
  assert (Hn53 : n < 2 ^ 53) by (assert (2 ^ 50 < 2 ^ 53) by reflexivity; lia).
  pose proof (Zdigits2_le n 53 ltac:(lia) Hn53) as Hd.
  pose proof (Zdigits2_bounds n ltac:(lia)) as [Hlow _].
  destruct (int_mul_bounds n 7205759403792794 (-56)) as [k [Hk [[Hlo _] Hup]]];
    [lia | lia | lia | lia |].
  rewrite Hk. f_equal.
  change (2 ^ (- -56)) with 72057594037927936 in *.
  assert (H2 : 2 ^ Zdigits2 n <= 2 * n).
  { replace (Zdigits2 n) with (1 + (Zdigits2 n - 1)) by lia.
    pose proof (Zdigits2_pos n ltac:(lia)).
    rewrite Z.pow_add_r by lia. change (2 ^ 1) with 2. lia. }
  change (2 ^ 50) with 1125899906842624 in Hn.
  pose proof (Z.div_mod n 10 ltac:(lia)) as E.
  pose proof (Z.mod_pos_bound n 10 ltac:(lia)) as B.
  set (q := n / 10) in *. set (r := n mod 10) in *.
  assert (L : q <= n * 7205759403792794 / 72057594037927936).
  { apply Z.div_le_lower_bound; [reflexivity|]. lia. }
  assert (U : k <= q).
  { destruct (Z.le_gt_cases k q) as [|Hc]; [assumption|exfalso].
    assert (H1 : (q + 1) * 72057594037927936 <= k * 72057594037927936) by lia.
    lia. }
  lia.
Qed.

Lemma samplesize_small (n : Z) :
  0 <= n < 2 ^ 50 ->
  samplesize n = Ok (Z.min 1000 (Z.max (n / 10) 10)).
Proof.
  intros Hn. unfold samplesize. rewrite int_mul_one_tenth by assumption.
  reflexivity.
Qed.

Lemma samplesize_large (n : Z) :
  10000 <= n < 2 ^ 53 -> samplesize n = Ok 1000.
Proof.
  intros Hn. unfold samplesize, PyFloat.one_tenth.
  pose proof (Zdigits2_le n 53 ltac:(lia) (proj2 Hn)) as Hd.
  destruct (int_mul_bounds n 7205759403792794 (-56)) as [k [Hk [[Hlo _] _]]];
    [lia | lia | lia | lia |].
  rewrite Hk. cbn [bind]. f_equal.
  assert (1000 <= n * 7205759403792794 / 2 ^ (- -56)).
  { apply Z.div_le_lower_bound; [reflexivity|].
    change (2 ^ (- -56)) with 72057594037927936. lia. }
  lia.
Qed.

(** The size of the subset is [min(1000, max(n // 10, 10))]. *)
Lemma samplesize_spec (n : Z) :
  0 <= n < 2 ^ 53 ->
  samplesize n = Ok (Z.min 1000 (Z.max (n / 10) 10)).
Proof.
  intros Hn. destruct (Z.lt_ge_cases n 10000) as [Hlt|Hge].
  - apply samplesize_small. assert (10000 < 2 ^ 50) by reflexivity. lia.
  - rewrite samplesize_large by lia. f_equal.
    assert (1000 <= n / 10) by (apply Z.div_le_lower_bound; lia).
    lia.
Qed.

Section SideEffectsFacts.

Context {Row : Type}.

Lemma iloc_length (df : DataFrame Row) (positions : list nat) :
  Forall (fun i => (i < List.length df)%nat) positions ->
  List.length (iloc df positions) = List.length positions.
Proof.
  induction positions as [|i ps IH]; intros H; [reflexivity|].
  inversion H as [|? ? Hi Hps]; subst.
  cbn [iloc flat_map]. fold (iloc df ps). rewrite length_app, IH by assumption.
  destruct (nth_error df i) eqn:E; [reflexivity|].
  apply nth_error_None in E. lia.
Qed.

End SideEffectsFacts.

(** * The claims *)

(** ** Sampler *)

(** The example of the specification: a 3-row data set sampled to 7
    rows. *)
Example sample_3_rows_to_7 :
  _get_samples_df three_rows 7 = Ok [0; 1; 2; 0; 1; 2; 0]%nat.
Proof. vm_compute. reflexivity. Qed.

(** C2: for a data set with at least one row and [0 <= n < 2^53],
    [sample(dataset, n)] returns a data set of exactly [n] rows in which
    row [i] is source row [i mod row_count]: the first [n] rows when
    [n <= row_count], whole copies of the data set followed by a prefix
    when [n > row_count], and the empty data set for [n = 0]. *)
Theorem sample_is_cyclic {Row : Type} (df : DataFrame Row) (n : Z) :
  df <> [] -> 0 <= n < 2 ^ 53 ->
  exists out, _get_samples_df df n = Ok out /\ cyclic_sample df n out.
Proof.
  intros Hdf Hn. rewrite (_get_samples_df_eq df n Hdf Hn).
  eexists. split; [reflexivity|].
  assert (Hrows : 0 < shape0 df).
  { unfold shape0. destruct df; [congruence|cbn [List.length]; lia]. }
  assert (Hlen : (0 < List.length df)%nat) by (unfold shape0 in Hrows; lia).
  unfold cyclic_sample.
  destruct (Z.leb_spec n (shape0 df)) as [Hle|Hgt].
  - split; [apply shape0_firstn; lia|].
    split.
    { intros i Hi. rewrite nth_error_firstn.
      destruct (Nat.ltb_spec i (Z.to_nat n)); [|lia].
      rewrite Nat.mod_small; [reflexivity|]. unfold shape0 in Hle. lia. }
    split; [reflexivity|]. split; [lia|].
    intros ->. reflexivity.
  - pose proof (Z.div_mod n (shape0 df) ltac:(lia)) as E.
    pose proof (Z.mod_pos_bound n (shape0 df) Hrows) as B.
    assert (Hq : 0 <= n / shape0 df) by (apply Z.div_pos; lia).
    set (q := Z.to_nat (n / shape0 df)) in *.
    set (r := Z.to_nat (n mod shape0 df)) in *.
    assert (Hn' : Z.to_nat n = (q * List.length df + r)%nat).
    { unfold q, r, shape0 in *. nia. }
    assert (Hr : (r < List.length df)%nat) by (unfold r, shape0 in *; lia).
    split.
    { unfold shape0 at 1.
      rewrite length_app, concat_repeat_length, length_firstn. lia. }
    split.
    { intros i Hi.
      destruct (Nat.lt_ge_cases i (q * List.length df)) as [Hlt|Hge].
      - rewrite nth_error_app1 by (rewrite concat_repeat_length; assumption).
        apply nth_error_concat_repeat. assumption.
      - rewrite nth_error_app2 by (rewrite concat_repeat_length; assumption).
        rewrite concat_repeat_length, nth_error_firstn.
        destruct (Nat.ltb_spec (i - q * List.length df) r); [|lia].
        replace i with ((i - q * List.length df) + q * List.length df)%nat
          at 2 by lia.
        rewrite Nat.Div0.mod_add, Nat.mod_small by lia. reflexivity. }
    split; [lia|]. split; [reflexivity|]. lia.
Qed.

Lemma sample_is_cyclic_witness :
  three_rows <> [] /\ 0 <= 7 < 2 ^ 53 /\
  exists out,
    _get_samples_df three_rows 7 = Ok out /\ cyclic_sample three_rows 7 out.
Proof.
  split; [discriminate|]. split; [lia|].
  apply (sample_is_cyclic three_rows 7); [discriminate|lia].
Defined.

(** ** Planner *)

(** C3 (counterexample): for 100 rows of one mebibyte each the estimate
    is 51 rows, and the default plan asks for 1, 0, 10 and 51 samples:
    the sample counts go down from the first case to the second. *)
Lemma default_plan_not_monotone :
  exists cases df,
    _prepare_test_cases wide_rows_file (default_options 600) = Ok (cases, df) /\
    map PerfTestCase.iterations cases = [100; 50; 5; 1] /\
    map PerfTestCase.samples cases = [1; 0; 10; 51] /\
    non_decreasing (map PerfTestCase.samples cases) = false.
Proof.
  eexists. eexists. split; [vm_compute; reflexivity|].
  repeat split.
Qed.

(** C3 (as amended): in default mode, for a file of at least one row, one
    byte per row at least and less than [2^53] bytes, the planner
    produces exactly 4 test cases whose iteration counts are 100, 50, 5, 1
    in that order and whose sample counts are 1, estimate/500, estimate/5
    and estimate (integer division); the last three never decrease, and
    the four are non-decreasing exactly when the estimate is at least
    500. *)
Theorem default_plan_ladder {Row : Type} (file : CsvFile Row)
  (options : Options) :
  well_sized file ->
  opt_iterations options = None -> opt_samples options = None ->
  exists est cases df,
    _get_approximate_samples_in_csv_size file (50 * 1048576) = Ok est /\
    _prepare_test_cases file options = Ok (cases, df) /\
    List.length cases = 4%nat /\
    map PerfTestCase.iterations cases = [100; 50; 5; 1] /\
    map PerfTestCase.samples cases = [1; est / 500; est / 5; est] /\
    0 <= est / 500 <= est / 5 /\ est / 5 <= est /\
    (non_decreasing (map PerfTestCase.samples cases) = true <-> 500 <= est).
Proof.
  intros Hw Hi Hs.
  destruct (default_plan file options Hw Hi Hs)
    as [est [label [df [Hest [Hb [_ [_ Hplan]]]]]]].
  exists est. eexists. exists df.
  split; [exact Hest|]. split; [exact Hplan|].
  split; [reflexivity|]. split; [reflexivity|]. split; [reflexivity|].
  assert (H500 : 0 <= est / 500) by (apply Z.div_pos; lia).
  assert (H5 : est / 500 <= est / 5).
  { apply Z.div_le_lower_bound; [lia|].
    pose proof (Z.mul_div_le est 500 ltac:(lia)). lia. }
  assert (Hle : est / 5 <= est).
  { apply Z.div_le_upper_bound; lia. }
  split; [lia|]. split; [exact Hle|].
  cbn [map PerfTestCase.samples non_decreasing].
  destruct (Z.leb_spec (est / 500) (est / 5)) as [_|]; [|lia].
  destruct (Z.leb_spec (est / 5) est) as [_|]; [|lia].
  rewrite !andb_true_r. rewrite Z.leb_le.
  split; intros H.
  - destruct (Z.le_gt_cases 500 est) as [|Hc]; [assumption|].
    rewrite Z.div_small in H by lia. lia.
  - apply Z.div_le_lower_bound; lia.
Qed.

Lemma default_plan_ladder_witness :
  well_sized rows_10_file /\
  opt_iterations (default_options 600) = None /\
  opt_samples (default_options 600) = None /\
  exists est cases df,
    _get_approximate_samples_in_csv_size rows_10_file (50 * 1048576) = Ok est /\
    _prepare_test_cases rows_10_file (default_options 600) = Ok (cases, df) /\
    List.length cases = 4%nat /\
    map PerfTestCase.iterations cases = [100; 50; 5; 1] /\
    map PerfTestCase.samples cases = [1; est / 500; est / 5; est] /\
    0 <= est / 500 <= est / 5 /\ est / 5 <= est /\
    (non_decreasing (map PerfTestCase.samples cases) = true <-> 500 <= est).
Proof.
  assert (Hw : well_sized rows_10_file)
    by (apply well_sized_file_of; [lia|reflexivity]).
  split; [exact Hw|]. split; [reflexivity|]. split; [reflexivity|].
  exact (default_plan_ladder rows_10_file (default_options 600) Hw
           eq_refl eq_refl).
Defined.

(** C4 (counterexample): for 49 rows in 4900 bytes the quotient
    [52428800 / 4900] is rounded down, the product with 49 falls just
    short of 524288, and the estimate is 524288, not
    [floor(49 * 52428800 / 4900) + 1 = 524289]. *)
Lemma estimate_49_rows_is_not_floor_plus_one :
  _get_approximate_samples_in_csv_size rows_49_file (50 * 1048576)
    = Ok 524288 /\
  49 * 52428800 / 4900 + 1 = 524289.
Proof. split; vm_compute; reflexivity. Qed.

(** C4 (as amended): in default mode the 50MB row estimate is
    [int(row_count * (52428800 / file_size)) + 1] in binary64
    arithmetic; for fewer than [2^24] rows (in a file of one byte per row
    at least and less than [2^53] bytes) it is
    [floor(row_count * 52428800 / file_size) + 1] or one less, and the
    "10MB" case has 5 iterations and estimate/5 samples.  For 1,000,000
    rows in 100,000,000 bytes the estimate is 524,289 and the "10MB" case
    has 5 iterations and 104,857 samples. *)
Theorem estimate_is_floor_plus_one_or_floor :
  (forall (Row : Type) (file : CsvFile Row) (options : Options),
      well_sized file -> shape0 (csv_rows file) < 2 ^ 24 ->
      opt_iterations options = None -> opt_samples options = None ->
      exists est label df,
        _get_approximate_samples_in_csv_size file (50 * 1048576) = Ok est /\
        shape0 (csv_rows file) * 52428800 / st_size file <= est
          <= shape0 (csv_rows file) * 52428800 / st_size file + 1 /\
        _prepare_test_cases file options =
          Ok ([ PerfTestCase.mk (Some label) 1 100;
                PerfTestCase.mk (Some "0.1MB"%string) (est / 500) 50;
                PerfTestCase.mk (Some "10MB"%string) (est / 5) 5;
                PerfTestCase.mk (Some "50MB"%string) est 1 ], df)) /\
  _get_approximate_samples_in_csv_size million_rows_file (50 * 1048576)
    = Ok 524289 /\
  (exists label df,
      _prepare_test_cases million_rows_file (default_options 600) =
        Ok ([ PerfTestCase.mk (Some label) 1 100;
              PerfTestCase.mk (Some "0.1MB"%string) 1048 50;
              PerfTestCase.mk (Some "10MB"%string) 104857 5;
              PerfTestCase.mk (Some "50MB"%string) 524289 1 ], df)).
Proof.
  split; [|split].
  - intros Row file options Hw Hsmall Hi Hs.
    destruct (default_plan file options Hw Hi Hs)
      as [est [label [df [Hest [_ [_ [_ Hplan]]]]]]].
    destruct (approx_samples_tight file Hw Hsmall) as [est' [Hest' Hb]].
    assert (est' = est) by congruence. subst est'.
    exists est, label, df. repeat split; try assumption; apply Hb.
  - exact estimate_million_rows.
  - assert (Hw : well_sized million_rows_file)
      by (apply well_sized_file_of; [lia|reflexivity]).
    destruct (default_plan million_rows_file (default_options 600) Hw
                eq_refl eq_refl)
      as [est [label [df [Hest [_ [_ [_ Hplan]]]]]]].
    rewrite estimate_million_rows in Hest. injection Hest as <-.
    exists label, df. exact Hplan.
Qed.

Lemma estimate_is_floor_plus_one_or_floor_witness :
  well_sized rows_10_file /\
  shape0 (csv_rows rows_10_file) < 2 ^ 24 /\
  exists est label df,
    _get_approximate_samples_in_csv_size rows_10_file (50 * 1048576) = Ok est /\
    shape0 (csv_rows rows_10_file) * 52428800 / st_size rows_10_file <= est
      <= shape0 (csv_rows rows_10_file) * 52428800 / st_size rows_10_file + 1 /\
    _prepare_test_cases rows_10_file (default_options 600) =
      Ok ([ PerfTestCase.mk (Some label) 1 100;
            PerfTestCase.mk (Some "0.1MB"%string) (est / 500) 50;
            PerfTestCase.mk (Some "10MB"%string) (est / 5) 5;
            PerfTestCase.mk (Some "50MB"%string) est 1 ], df).
Proof.
  assert (Hw : well_sized rows_10_file)
    by (apply well_sized_file_of; [lia|reflexivity]).
  assert (Hs : shape0 (csv_rows rows_10_file) < 2 ^ 24) by reflexivity.
  split; [exact Hw|]. split; [exact Hs|].
  exact (proj1 estimate_is_floor_plus_one_or_floor unit rows_10_file
           (default_options 600) Hw Hs eq_refl eq_refl).
Defined.

(** C9 (counterexample): on a file of 17 bytes that holds no data row (a
    header only), with explicit samples and explicit iterations, the
    planner raises [ZeroDivisionError]: no test case is produced. *)
Lemma override_plan_fails_without_rows :
  _prepare_test_cases (file_of 0 17)
    {| opt_iterations := Some 3; opt_samples := Some 5;
       opt_timeout := 600; opt_verbose := false |}
  = Raise ZeroDivisionError.
Proof. reflexivity. Qed.

(** C9 (as amended): for a file with at least one data row (row count,
    size in bytes and size of the case, sample count times average row
    size, all below [2^53], which binary64 holds exactly), when explicit
    samples or explicit iterations are given the planner produces
    exactly 1 test case, whose sample count is the explicit sample count
    (the row count of the data set when unset) and whose iteration count
    is the explicit iteration count (1 when unset), and the working
    sample is the entire input data set. *)
Theorem override_plan_single_case {Row : Type} (file : CsvFile Row)
  (options : Options) :
  0 < shape0 (csv_rows file) < 2 ^ 53 ->
  0 <= st_size file < 2 ^ 53 ->
  (opt_iterations options <> None \/ opt_samples options <> None) ->
  let samples :=
    match opt_samples options with
    | None => shape0 (csv_rows file)
    | Some s => s
    end in
  let iters :=
    match opt_iterations options with None => 1 | Some i => i end in
  samples * (st_size file / shape0 (csv_rows file)) < 2 ^ 53 ->
  exists label,
    _prepare_test_cases file options =
      Ok ([ PerfTestCase.mk (Some label) samples iters ], csv_rows file).
Proof. exact (override_plan file options). Qed.

Lemma override_plan_single_case_witness :
  let options := {| opt_iterations := None; opt_samples := Some 5;
                    opt_timeout := 600; opt_verbose := false |} in
  let file := file_of 1000 200 in
  0 < shape0 (csv_rows file) < 2 ^ 53 /\
  0 <= st_size file < 2 ^ 53 /\
  (opt_iterations options <> None \/ opt_samples options <> None) /\
  5 * (st_size file / shape0 (csv_rows file)) < 2 ^ 53 /\
  exists label,
    _prepare_test_cases file options =
      Ok ([ PerfTestCase.mk (Some label) 5 1 ], csv_rows file).
Proof.
  intros options file.
  assert (Hr : 0 < shape0 (csv_rows file) < 2 ^ 53)
    by (split; reflexivity).
  assert (Hf : 0 <= st_size file < 2 ^ 53)
    by (split; [discriminate|reflexivity]).
  assert (Ho : opt_iterations options <> None \/ opt_samples options <> None)
    by (right; discriminate).
  assert (Hs : 5 * (st_size file / shape0 (csv_rows file)) < 2 ^ 53)
    by reflexivity.
  split; [exact Hr|]. split; [exact Hf|]. split; [exact Ho|].
  split; [exact Hs|].
  exact (override_plan_single_case file options Hr Hf Ho Hs).
Defined.

(** C10 (counterexample): a file of 17 bytes that holds no data row (a
    header only) has a positive size and its 50MB row estimate is 1, but
    the working sample of that one row cannot be built: the sampler
    raises [ZeroDivisionError] on the empty data set, and so does the
    planner, which plans no test case. *)
Lemma default_plan_fails_without_rows :
  _get_approximate_samples_in_csv_size (file_of 0 17) (50 * 1048576) = Ok 1 /\
  _get_samples_df (csv_rows (file_of 0 17)) 1 = Raise ZeroDivisionError /\
  _prepare_test_cases (file_of 0 17) (default_options 600)
  = Raise ZeroDivisionError.
Proof. split; [vm_compute; reflexivity|]. split; reflexivity. Qed.

(** C10 (as amended): in default mode, for a file of at least one data
    row, one byte per row at least and less than [2^53] bytes, the 50MB
    row estimate is at least 1, the working sample built from it has
    exactly that many rows, and each of the four planned test cases asks
    for no more rows than the working sample has, so the sampler serves
    each case with the first rows of the working sample. *)
Theorem default_cases_fit_working_sample {Row : Type} (file : CsvFile Row)
  (options : Options) :
  well_sized file ->
  opt_iterations options = None -> opt_samples options = None ->
  exists est cases df_50mb,
    _get_approximate_samples_in_csv_size file (50 * 1048576) = Ok est /\
    1 <= est /\
    _prepare_test_cases file options = Ok (cases, df_50mb) /\
    _get_samples_df (csv_rows file) est = Ok df_50mb /\
    shape0 df_50mb = est /\
    List.length cases = 4%nat /\
    Forall (fun tc =>
              0 <= PerfTestCase.samples tc <= shape0 df_50mb /\
              _get_samples_df df_50mb (PerfTestCase.samples tc) =
                Ok (firstn (Z.to_nat (PerfTestCase.samples tc)) df_50mb))
           cases.
Proof.
  intros Hw Hi Hs.
  destruct (default_plan file options Hw Hi Hs)
    as [est [label [df [Hest [Hb [Hdf [Hshape Hplan]]]]]]].
  exists est. eexists. exists df.
  split; [exact Hest|]. split; [lia|]. split; [exact Hplan|].
  split; [exact Hdf|]. split; [exact Hshape|]. split; [reflexivity|].
  assert (H500 : 0 <= est / 500) by (apply Z.div_pos; lia).
  assert (H500' : est / 500 <= est) by (apply Z.div_le_upper_bound; lia).
  assert (H5 : 0 <= est / 5) by (apply Z.div_pos; lia).
  assert (H5' : est / 5 <= est) by (apply Z.div_le_upper_bound; lia).
  repeat constructor; cbn [PerfTestCase.samples];
    try (apply head_sample); lia.
Qed.

Lemma default_cases_fit_working_sample_witness :
  well_sized rows_10_file /\
  opt_iterations (default_options 600) = None /\
  opt_samples (default_options 600) = None /\
  exists est cases df_50mb,
    _get_approximate_samples_in_csv_size rows_10_file (50 * 1048576) = Ok est /\
    1 <= est /\
    _prepare_test_cases rows_10_file (default_options 600)
      = Ok (cases, df_50mb) /\
    _get_samples_df (csv_rows rows_10_file) est = Ok df_50mb /\
    shape0 df_50mb = est /\
    List.length cases = 4%nat /\
    Forall (fun tc =>
              0 <= PerfTestCase.samples tc <= shape0 df_50mb /\
              _get_samples_df df_50mb (PerfTestCase.samples tc) =
                Ok (firstn (Z.to_nat (PerfTestCase.samples tc)) df_50mb))
           cases.
Proof.
  assert (Hw : well_sized rows_10_file)
    by (apply well_sized_file_of; [lia|reflexivity]).
  split; [exact Hw|]. split; [reflexivity|]. split; [reflexivity|].
  exact (default_cases_fit_working_sample rows_10_file (default_options 600)
           Hw eq_refl eq_refl).
Defined.

(** ** Runner *)

(** C1 (the code at the failing input): a case of three iterations whose
    first request is answered with a success and whose second request is
    cut by the alarm.  The run returns the result of the case and raises
    nothing, but the case that timed out after one iteration out of
    three is not recorded as failed: its success flag, set when the
    first response arrived, stays set, and it has no error text. *)
Lemma timed_out_case_reported_as_success :
  exists r log,
    Script.run_all three_rows [two_rows_three_times] (default_options 600)
      [Script.ok_with "ab"; Throws DrumPerfTestTimeout]
    = ([r], [], [log]) /\
    timed_out log = true /\
    predict_requests log = 2%nat /\
    TestCaseResults.prediction_ok r = true /\
    TestCaseResults.prediction_error r = None.
Proof.
  eexists. eexists. split; [vm_compute; reflexivity|].
  repeat split.
Qed.


(** A run that shows the three ways a case can end without a response
    that counts: a failure response, a timeout and an error in the first
    request.  Each case has its result, in order, with the flag false. *)
Example failed_cases_are_contained :
  let cases := [ PerfTestCase.mk (Some "a"%string) 1 2;
                 PerfTestCase.mk (Some "b"%string) 2 2;
                 PerfTestCase.mk None 3 1 ] in
  let out := Script.run_all three_rows cases (default_options 600)
               [ Script.failed_with "model error";
                 Throws DrumPerfTestTimeout;
                 Throws (RequestException "Connection reset") ] in
  map res_key (fst (fst out)) =
    [ ("a", 1, 2); ("b", 2, 2); ("Test case", 3, 1) ]%string /\
  map TestCaseResults.prediction_ok (fst (fst out)) = [false; false; false] /\
  map TestCaseResults.prediction_error (fst (fst out)) =
    [Some "model error"%string; None; None].
Proof. vm_compute. repeat split. Qed.

(** C5 (the code at the failing input): the first response is a success
    that carries one prediction for two rows.  The case stops there, with
    [AssertionError], after one request out of three; the run swallows
    the exception; and the result still says [prediction_ok = True], with
    no error text. *)
Theorem count_mismatch_reported_as_success :
  let script := [ Script.ok_with "a"; Script.ok_with "ab"; Script.ok_with "ab" ] in
  fst (Script.run_test_case three_rows two_rows_three_times
         {| results := []; world := script; calls := [] |})
    = Raise AssertionError /\
  exists r log w,
    Script.run_all three_rows [two_rows_three_times] (default_options 600) script
      = ([r], w, [log]) /\
    predict_requests log = 1%nat /\
    TestCaseResults.prediction_ok r = true /\
    TestCaseResults.prediction_error r = None.
Proof.
  cbv zeta. split; [vm_compute; reflexivity|].
  eexists. eexists. eexists. split; [vm_compute; reflexivity|].
  repeat split.
Qed.

(** C6 (the code at the failing input): when the first request of a case
    comes back as a failure the case returns at once: no request for the
    server statistics is made and none are attached.  When every request
    succeeds the statistics are fetched once and attached as received. *)
Theorem no_stats_fetch_after_failed_request :
  (exists r log w,
     Script.run_all three_rows [two_rows_three_times] (default_options 600)
       [ Script.failed_with "model error"; Script.ok_with "{stats}" ]
       = ([r], w, [log]) /\
     predict_requests log = 1%nat /\
     stats_fetches log = 0%nat /\
     TestCaseResults.prediction_ok r = false /\
     TestCaseResults.server_stats r = None) /\
  (exists r log w,
     Script.run_all three_rows [two_rows_three_times] (default_options 600)
       [ Script.ok_with "ab"; Script.ok_with "ab"; Script.ok_with "ab";
         Script.ok_with "{stats}" ]
       = ([r], w, [log]) /\
     predict_requests log = 3%nat /\
     stats_fetches log = 1%nat /\
     TestCaseResults.prediction_ok r = true /\
     TestCaseResults.server_stats r = Some "{stats}"%string).
Proof.
  split; eexists; eexists; eexists;
    (split; [vm_compute; reflexivity|repeat split]).
Qed.

(** ** Validation checks *)




(** The same frame with a failing second column: the check fails, the
    file of the failing variant is reported and kept. *)
Example failing_variant_is_reported :
  exists report st,
    validation_test
      (fails_on (os_path_join checks_dir "null_value_imputation_column1"))
      checks_dir two_columns [] = Ok (report, st) /\
    status report = "FAILED"%string /\
    failed_features report =
      [("b", "/tmp/drum_validation_checks_0/null_value_imputation_column1")]%string /\
    exists_file "/tmp/drum_validation_checks_0/null_value_imputation_column1"
      (disk st) = true.
Proof.
  eexists. eexists. split; [vm_compute; reflexivity|]. repeat split.
Qed.

(** ** Side-effects check *)

(** C8 (counterexample): for 50 rows the subset has 10 rows; that is
    neither a tenth of the rows capped at 1000 (5 rows) nor the larger of
    a tenth and 1000 capped at 1000 (1000 rows). *)
Lemma subset_of_50_rows_has_10_rows :
  samplesize 50 = Ok 10 /\
  10 <> Z.min 1000 (50 / 10) /\
  10 <> Z.min 1000 (Z.max (50 / 10) 1000).
Proof. split; [vm_compute; reflexivity|]. split; discriminate. Qed.

(** C8 (as amended): for an input of [n] rows ([n < 2^53]) the
    side-effects check asks for [min(1000, max(n // 10, 10))] rows, which
    is at least 10 and at most 1000; the rows are drawn by a generator
    seeded with 42, so that two runs on the same input draw the same
    rows whatever the state of the global generator; and an input of at
    least 10 rows yields a subset of exactly that size. *)
Theorem side_effects_subset {Row : Type} (RngState : Type)
  (RandomState : Z -> RngState)
  (choice : RngState -> nat -> nat -> list nat)
  (df : DataFrame Row) (global1 global2 : RngState) :
  (forall g n k, (k <= n)%nat ->
                 List.length (choice g n k) = k /\
                 Forall (fun i => (i < n)%nat) (choice g n k)) ->
  shape0 df < 2 ^ 53 ->
  let size := Z.min 1000 (Z.max (shape0 df / 10) 10) in
  samplesize (shape0 df) = Ok size /\
  10 <= size <= 1000 /\
  data_subset RngState RandomState choice df global1 =
    data_subset RngState RandomState choice df global2 /\
  (10 <= shape0 df ->
   exists subset,
     data_subset RngState RandomState choice df global1 = Ok subset /\
     Z.of_nat (List.length subset) = size).
Proof.
  intros Hchoice Hn size.
  assert (H0 : 0 <= shape0 df) by (unfold shape0; lia).
  pose proof (samplesize_spec (shape0 df) ltac:(lia)) as Hs. fold size in Hs.
  split; [exact Hs|]. split; [unfold size; lia|].
  split; [reflexivity|].
  intros H10. unfold data_subset. rewrite Hs. cbn [bind]. unfold df_sample.
  assert (Hle : size <= shape0 df).
  { assert (shape0 df / 10 <= shape0 df)
      by (apply Z.div_le_upper_bound; lia).
    unfold size. lia. }
  destruct (Z.ltb_spec size 0); [unfold size in *; lia|].
  destruct (Z.ltb_spec (shape0 df) size); [lia|].
  cbn [orb]. eexists. split; [reflexivity|].
  destruct (Hchoice (RandomState 42) (List.length df) (Z.to_nat size))
    as [Hlen Hpos]; [unfold shape0 in Hle; lia|].
  rewrite iloc_length by exact Hpos. rewrite Hlen. lia.
Qed.

Lemma side_effects_subset_witness :
  let df : DataFrame unit := repeat tt 50 in
  (forall (g : unit) n k, (k <= n)%nat ->
                 List.length (first_positions g n k) = k /\
                 Forall (fun i => (i < n)%nat) (first_positions g n k)) /\
  shape0 df < 2 ^ 53 /\
  samplesize (shape0 df) = Ok (Z.min 1000 (Z.max (shape0 df / 10) 10)) /\
  10 <= Z.min 1000 (Z.max (shape0 df / 10) 10) <= 1000 /\
  data_subset unit (fun _ => tt) first_positions df tt =
    data_subset unit (fun _ => tt) first_positions df tt /\
  (10 <= shape0 df ->
   exists subset,
     data_subset unit (fun _ => tt) first_positions df tt = Ok subset /\
     Z.of_nat (List.length subset) = Z.min 1000 (Z.max (shape0 df / 10) 10)).
Proof.
  intros df.
  assert (Hc : forall (g : unit) n k, (k <= n)%nat ->
                 List.length (first_positions g n k) = k /\
                 Forall (fun i => (i < n)%nat) (first_positions g n k)).
  { intros g n k Hk. unfold first_positions. split; [apply length_seq|].
    apply Forall_forall. intros i Hi. apply in_seq in Hi. lia. }
  assert (Hn : shape0 df < 2 ^ 53) by reflexivity.
  split; [exact Hc|]. split; [exact Hn|].
  exact (side_effects_subset unit (fun _ => tt) first_positions df tt tt Hc Hn).
Defined.

(** * More about the sampler, the planner and the runner *)

Section MoreSamplerFacts.

Context {Row : Type}.
Implicit Types df : DataFrame Row.

Lemma nonempty_shape0 df : df <> [] -> 0 < shape0 df.
Proof.
  intros H. unfold shape0. destruct df; [congruence|cbn [List.length]; lia].
Qed.

(** The rows of a sample, by position. *)
Lemma sample_rows df (n : Z) (out : DataFrame Row) :
  df <> [] -> 0 <= n < 2 ^ 53 ->
  _get_samples_df df n = Ok out ->
  List.length out = Z.to_nat n /\
  forall i, (i < Z.to_nat n)%nat ->
            nth_error out i = nth_error df (i mod List.length df).
Proof.
  intros Hdf Hn Hout. rewrite (_get_samples_df_eq df n Hdf Hn) in Hout.
  injection Hout as <-.
  pose proof (nonempty_shape0 df Hdf) as Hrows.
  assert (Hlen : (0 < List.length df)%nat) by (unfold shape0 in Hrows; lia).
  destruct (Z.leb_spec n (shape0 df)) as [Hle|Hgt].
  - split; [rewrite length_firstn; unfold shape0 in Hle; lia|].
    intros i Hi. rewrite nth_error_firstn.
    destruct (Nat.ltb_spec i (Z.to_nat n)); [|lia].
    rewrite Nat.mod_small; [reflexivity|]. unfold shape0 in Hle. lia.
  - pose proof (Z.div_mod n (shape0 df) ltac:(lia)) as E.
    pose proof (Z.mod_pos_bound n (shape0 df) Hrows) as B.
    assert (Hq : 0 <= n / shape0 df) by (apply Z.div_pos; lia).
    set (q := Z.to_nat (n / shape0 df)) in *.
    set (r := Z.to_nat (n mod shape0 df)) in *.
    assert (Hn' : Z.to_nat n = (q * List.length df + r)%nat).
    { unfold q, r, shape0 in *. nia. }
    assert (Hr : (r < List.length df)%nat) by (unfold r, shape0 in *; lia).
    split.
    { rewrite length_app, concat_repeat_length, length_firstn. lia. }
    intros i Hi.
    destruct (Nat.lt_ge_cases i (q * List.length df)) as [Hlt|Hge].
    + rewrite nth_error_app1 by (rewrite concat_repeat_length; assumption).
      apply nth_error_concat_repeat. assumption.
    + rewrite nth_error_app2 by (rewrite concat_repeat_length; assumption).
      rewrite concat_repeat_length, nth_error_firstn.
      destruct (Nat.ltb_spec (i - q * List.length df) r); [|lia].
      replace i with ((i - q * List.length df) + q * List.length df)%nat
        at 2 by lia.
      rewrite Nat.Div0.mod_add, Nat.mod_small by lia. reflexivity.
Qed.

Lemma sample_returns df (n : Z) :
  df <> [] -> 0 <= n < 2 ^ 53 ->
  exists out, _get_samples_df df n = Ok out /\ shape0 out = n.
Proof.
  intros Hdf Hn. pose proof (_get_samples_df_eq df n Hdf Hn) as E.
  set (o := if n <=? shape0 df then _ else _) in E.
  exists o. split; [exact E|].
  destruct (sample_rows df n o Hdf Hn E) as [Hlen _].
  unfold shape0. rewrite Hlen. lia.
Qed.

Lemma sample_again df (w : DataFrame Row) (n m : Z) :
  df <> [] -> 0 <= m <= n -> n < 2 ^ 53 ->
  _get_samples_df df n = Ok w ->
  _get_samples_df w m = _get_samples_df df m.
Proof.
  intros Hdf Hm Hn Hw.
  destruct (sample_rows df n w Hdf ltac:(lia) Hw) as [Hlen Hnth].
  destruct (sample_returns df m Hdf ltac:(lia)) as [out [Hout Hshape]].
  destruct (sample_rows df m out Hdf ltac:(lia) Hout) as [Hlen' Hnth'].
  rewrite Hout, head_sample by (unfold shape0; lia).
  f_equal. apply nth_error_ext. intros i.
  rewrite nth_error_firstn.
  destruct (Nat.ltb_spec i (Z.to_nat m)) as [Hi|Hi].
  - rewrite Hnth by lia. rewrite Hnth' by lia. reflexivity.
  - symmetry. apply nth_error_None. lia.
Qed.

End MoreSamplerFacts.

Section MoreRunnerFacts.

Context {Row : Type}.
Variable World : Type.
Variable requests_post_predict : string -> World -> Event Response * World.
Variable requests_get_stats : World -> Event Response * World.
Variable signal_alarm : Z -> World -> World.
Variable len_predictions : string -> result Z.
Variable to_csv : DataFrame Row -> string.

Local Abbreviation loop :=
  (predict_loop World requests_post_predict len_predictions).
Local Abbreviation run_case :=
  (_run_test_case World requests_post_predict requests_get_stats
     len_predictions to_csv).
Local Abbreviation run :=
  (run_cases World requests_post_predict requests_get_stats signal_alarm
     len_predictions to_csv).

(** The calls the loop adds: prediction requests only, all with the one
    payload, at most one per iteration; and when the loop runs to its end,
    one per iteration, each answered with a success. *)
Lemma predict_loop_calls (n : nat) (df_csv : string) (nrows : Z) :
  forall st : RunState World,
  exists seg,
    calls (snd (loop n df_csv nrows st)) = calls st ++ seg /\
    sent_only df_csv seg /\
    stats_fetches seg = 0%nat /\
    predict_requests seg = List.length seg /\
    (List.length seg <= n)%nat /\
    (fst (loop n df_csv nrows st) = Ok false ->
     List.length seg = n /\ all_ok seg = true).
Proof.
  induction n as [|n IH]; intros st.
  - exists []. cbn [predict_loop fst snd]. rewrite app_nil_r.
    repeat split; try reflexivity; try constructor.
  - cbn [predict_loop].
    set (st1 := update_tc_results (TestCaseResults.stats_call (Mark "start"))
                  (update_tc_results (TestCaseResults.stats_call Enable) st)).
    assert (C1 : calls st1 = calls st) by reflexivity.
    assert (W1 : world st1 = world st) by reflexivity.
    rewrite W1.
    destruct (requests_post_predict df_csv (world st)) as [ev w].
    set (c := CallPredict df_csv ev).
    set (st2 := record_call c w st1).
    assert (C2 : calls st2 = calls st ++ [c])
      by (unfold st2, record_call; cbn [calls]; rewrite C1; reflexivity).
    assert (Hone : sent_only df_csv [c] /\ stats_fetches [c] = 0%nat /\
                   predict_requests [c] = 1%nat).
    { repeat split. constructor; [reflexivity|constructor]. }
    destruct ev as [response|e].
    + destruct (ok response) eqn:Eok.
      * destruct (len_predictions (text response)) as [actual|e].
        -- destruct (negb (actual =? nrows)).
           ++ exists [c]. cbn [fst snd]. split; [exact C2|].
              repeat split; try apply Hone; cbn [List.length]; try lia;
                discriminate.
           ++ match goal with
              | |- context [loop n df_csv nrows ?s] =>
                  destruct (IH s) as [seg [Hc [Hs [Hf [Hp [Hl Hend]]]]]];
                  assert (C5 : calls s = calls st ++ [c]) by exact C2
              end.
              exists (c :: seg). rewrite Hc, C5, <- app_assoc.
              split; [reflexivity|].
              split; [constructor; [reflexivity|exact Hs]|].
              split; [exact Hf|].
              split; [cbn [predict_requests filter List.length] in *;
                      unfold c; cbn; unfold predict_requests in Hp;
                      rewrite Hp; reflexivity|].
              split; [cbn [List.length]; lia|].
              intros Hok. destruct (Hend Hok) as [Hlen Hall].
              split; [cbn [List.length]; lia|].
              unfold c. cbn [all_ok forallb]. rewrite Eok.
              exact Hall.
        -- exists [c]. cbn [fst snd]. split; [exact C2|].
           repeat split; try apply Hone; cbn [List.length]; try lia;
             discriminate.
      * exists [c]. cbn [fst snd]. split; [exact C2|].
        repeat split; try apply Hone; cbn [List.length]; try lia;
          discriminate.
    + exists [c]. cbn [fst snd]. split; [exact C2|].
      repeat split; try apply Hone; cbn [List.length]; try lia;
        discriminate.
Qed.

Lemma stats_fetches_app (l1 l2 : list Call) :
  stats_fetches (l1 ++ l2) = (stats_fetches l1 + stats_fetches l2)%nat.
Proof. unfold stats_fetches. rewrite filter_app, length_app. reflexivity. Qed.

Lemma predict_requests_app (l1 l2 : list Call) :
  predict_requests (l1 ++ l2)
  = (predict_requests l1 + predict_requests l2)%nat.
Proof. unfold predict_requests. rewrite filter_app, length_app. reflexivity. Qed.

Lemma all_ok_app (l1 l2 : list Call) :
  all_ok (l1 ++ l2) = all_ok l1 && all_ok l2.
Proof. unfold all_ok. apply forallb_app. Qed.

(** The calls of a whole case. *)
Lemma run_case_calls (df test_df : DataFrame Row) (tc : PerfTestCase.t)
  (st : RunState World) :
  calls st = [] ->
  _get_samples_df df (PerfTestCase.samples tc) = Ok test_df ->
  let log := calls (snd (run_case df tc st)) in
  sent_only (to_csv test_df) log /\
  (predict_requests log <= Z.to_nat (PerfTestCase.iterations tc))%nat /\
  (stats_fetches log <= 1)%nat /\
  (stats_fetches log = 1%nat ->
   predict_requests log = Z.to_nat (PerfTestCase.iterations tc) /\
   all_ok log = true /\
   exists ev, log = removelast log ++ [CallStats ev]).
Proof.
  intros Hcalls Hdf. unfold _run_test_case. rewrite Hdf.
  set (st0 := {| results := _; world := world st; calls := calls st |}).
  destruct (predict_loop_calls (Z.to_nat (PerfTestCase.iterations tc))
              (to_csv test_df) (shape0 test_df) st0)
    as [seg [Hc [Hs [Hf [Hp [Hl Hend]]]]]].
  assert (C0 : calls st0 = []) by exact Hcalls.
  rewrite C0 in Hc. cbn [app] in Hc.
  destruct (loop (Z.to_nat (PerfTestCase.iterations tc)) (to_csv test_df)
              (shape0 test_df) st0) as [[[|]|e] st1];
    cbn [fst snd] in *.
  - cbv zeta. rewrite Hc. repeat split; try assumption; lia.
  - specialize (Hend eq_refl). destruct Hend as [Hlen Hall].
    destruct (requests_get_stats (world st1)) as [ev w].
    assert (Hlog : forall st' : RunState World,
               calls st' = calls (record_call (CallStats ev) w st1) ->
               let log := calls st' in
               sent_only (to_csv test_df) log /\
               (predict_requests log
                <= Z.to_nat (PerfTestCase.iterations tc))%nat /\
               (stats_fetches log <= 1)%nat /\
               (stats_fetches log = 1%nat ->
                predict_requests log
                = Z.to_nat (PerfTestCase.iterations tc) /\
                all_ok log = true /\
                exists ev, log = removelast log ++ [CallStats ev])).
    { intros st' E. cbv zeta. rewrite E. cbn [record_call calls].
      rewrite Hc, predict_requests_app, stats_fetches_app, all_ok_app.
      rewrite Hp, Hf, Hall, Hlen.
      split.
      { apply Forall_app. split; [exact Hs|].
        constructor; [exact I|constructor]. }
      cbn. split; [lia|]. split; [lia|]. intros _.
      split; [lia|]. split; [reflexivity|].
      exists ev. rewrite removelast_last. reflexivity. }
    destruct ev as [response|e]; [|apply Hlog; reflexivity].
    destruct (ok response); apply Hlog; reflexivity.
  - cbv zeta. rewrite Hc. repeat split; try assumption; lia.
Qed.

(** On a server that answers every prediction request with a success of
    the right size, the loop runs all its iterations. *)
Lemma healthy_loop (df_csv : string) (nrows : Z) :
  (forall w, exists r w',
      requests_post_predict df_csv w = (Returns r, w') /\
      ok r = true /\ len_predictions (text r) = Ok nrows) ->
  forall (n : nat) (st : RunState World) prev r0,
    results st = prev ++ [r0] ->
    fst (loop n df_csv nrows st) = Ok false /\
    results (snd (loop n df_csv nrows st))
    = prev ++ [after_iterations n r0].
Proof.
  intros Hpost. induction n as [|n IH]; intros st prev r0 Hres.
  - cbn [predict_loop fst snd]. split; [reflexivity|].
    rewrite Hres. f_equal. f_equal. destruct r0. unfold after_iterations.
    cbn. rewrite app_nil_r. reflexivity.
  - cbn [predict_loop].
    set (st1 := update_tc_results (TestCaseResults.stats_call (Mark "start"))
                  (update_tc_results (TestCaseResults.stats_call Enable) st)).
    assert (W1 : world st1 = world st) by reflexivity.
    rewrite W1.
    destruct (Hpost (world st)) as [r [w' [Hp [Hok Hlen]]]].
    rewrite Hp, Hok, Hlen. rewrite Z.eqb_refl. cbn [negb].
    match goal with
    | |- context [loop n df_csv nrows ?s] =>
        destruct (IH s prev
                    (TestCaseResults.stats_call Disable
                       (TestCaseResults.set_prediction_ok true
                          (TestCaseResults.stats_call (Mark "end")
                             (TestCaseResults.stats_call (Mark "start")
                                (TestCaseResults.stats_call Enable r0))))))
          as [Hfst Hsnd]
    end.
    { unfold update_tc_results, record_call, st1.
      cbn [results world calls update_tc_results].
      rewrite Hres, !modify_last_app. reflexivity. }
    split; [exact Hfst|]. rewrite Hsnd. f_equal. f_equal.
    unfold after_iterations, timed_iterations. destruct r0.
    cbn [TestCaseResults.stats_call TestCaseResults.set_prediction_ok
         TestCaseResults.name TestCaseResults.iterations
         TestCaseResults.samples TestCaseResults.stats_obj
         TestCaseResults.prediction_ok TestCaseResults.prediction_error
         TestCaseResults.server_stats repeat List.concat].
    rewrite <- !app_assoc. cbn [app].
    destruct n; reflexivity.
Qed.

(** Cases run one after the other: the run of two lists of cases in a row
    is the run of the second from where the run of the first ended. *)
Lemma run_cases_app (df : DataFrame Row) (timeout : Z)
  (cases1 cases2 : list PerfTestCase.t) :
  forall (acc : list TestCaseResults.t) (w : World),
    run df timeout (cases1 ++ cases2) acc w =
    (fst (fst (run df timeout cases2
                 (fst (fst (run df timeout cases1 acc w)))
                 (snd (fst (run df timeout cases1 acc w))))),
     snd (fst (run df timeout cases2
                 (fst (fst (run df timeout cases1 acc w)))
                 (snd (fst (run df timeout cases1 acc w))))),
     snd (run df timeout cases1 acc w)
     ++ snd (run df timeout cases2
               (fst (fst (run df timeout cases1 acc w)))
               (snd (fst (run df timeout cases1 acc w))))).
Proof.
  induction cases1 as [|tc rest IH]; intros acc w.
  - cbn [app run_cases fst snd].
    destruct (run df timeout cases2 acc w) as [[r w'] l]. reflexivity.
  - cbn [app run_cases].
    destruct (run_case df tc _) as [outcome st1].
    set (st2 := match outcome with
                | Ok _ => st1
                | Raise DrumPerfTestTimeout => st1
                | Raise _ => st1
                end).
    rewrite (IH (results st2) (world st2)).
    destruct (run df timeout rest (results st2) (world st2)) as [[r1 w1] l1].
    cbn [fst snd].
    destruct (run df timeout cases2 r1 w1) as [[r2 w2] l2].
    reflexivity.
Qed.

(** A property of the calls of every case holds of every log of a run. *)
Lemma run_cases_logs (P : PerfTestCase.t -> list Call -> Prop)
  (df : DataFrame Row) (timeout : Z) :
  (forall tc (st : RunState World),
      calls st = [] -> P tc (calls (snd (run_case df tc st)))) ->
  forall (cases : list PerfTestCase.t) (acc : list TestCaseResults.t)
         (w : World),
    Forall2 P cases (snd (run df timeout cases acc w)).
Proof.
  intros HP. induction cases as [|tc rest IH]; intros acc w.
  - constructor.
  - cbn [run_cases].
    set (st0 := {| results := acc; world := signal_alarm timeout w;
                   calls := [] |}).
    pose proof (HP tc st0 eq_refl) as Htc.
    destruct (run_case df tc st0) as [outcome st1]. cbn [snd] in Htc.
    set (st2 := match outcome with
                | Ok _ => st1
                | Raise DrumPerfTestTimeout => st1
                | Raise _ => st1
                end).
    assert (E2 : st2 = st1)
      by (unfold st2; destruct outcome as [|[]]; reflexivity).
    rewrite E2. clear st2 E2.
    specialize (IH (results st1) (world st1)).
    destruct (run df timeout rest (results st1) (world st1))
      as [[res w'] logs].
    cbn [snd] in *. constructor; [exact Htc|exact IH].
Qed.

(** A property of the result of every case and of its calls holds of
    every result of a run with its log. *)
Lemma run_cases_each
  (P : PerfTestCase.t -> TestCaseResults.t -> list Call -> Prop)
  (df : DataFrame Row) (timeout : Z) :
  (forall tc (st : RunState World),
      calls st = [] ->
      exists r, results (snd (run_case df tc st)) = results st ++ [r] /\
                P tc r (calls (snd (run_case df tc st)))) ->
  forall (cases : list PerfTestCase.t) (acc : list TestCaseResults.t)
         (w : World),
  exists new,
    fst (fst (run df timeout cases acc w)) = acc ++ new /\
    List.length new = List.length cases /\
    List.length (snd (run df timeout cases acc w)) = List.length cases /\
    forall i tc r log,
      nth_error cases i = Some tc ->
      nth_error new i = Some r ->
      nth_error (snd (run df timeout cases acc w)) i = Some log ->
      P tc r log.
Proof.
  intros HP. induction cases as [|tc rest IH]; intros acc w.
  - exists []. cbn. rewrite app_nil_r. repeat split.
    intros i tc r log H. destruct i; discriminate.
  - cbn [run_cases].
    set (st0 := {| results := acc; world := signal_alarm timeout w;
                   calls := [] |}).
    destruct (HP tc st0 eq_refl) as [r [Hr Htc]].
    destruct (run_case df tc st0) as [outcome st1]. cbn [snd] in Hr, Htc.
    set (st2 := match outcome with
                | Ok _ => st1
                | Raise DrumPerfTestTimeout => st1
                | Raise _ => st1
                end).
    assert (E2 : st2 = st1)
      by (unfold st2; destruct outcome as [|[]]; reflexivity).
    rewrite E2. clear st2 E2.
    destruct (IH (results st1) (world st1)) as [new [Hres [Hl1 [Hl2 Hall]]]].
    destruct (run df timeout rest (results st1) (world st1))
      as [[res w'] logs].
    cbn [fst snd] in *.
    exists (r :: new). split.
    { rewrite Hres, Hr. cbn [results st0]. rewrite <- app_assoc.
      reflexivity. }
    split; [cbn [List.length]; lia|]. split; [cbn [List.length]; lia|].
    intros i tc' r' log Hc Hn Hlog. destruct i as [|i].
    + cbn in Hc, Hn, Hlog. injection Hc as <-. injection Hn as <-.
      injection Hlog as <-. exact Htc.
    + cbn in Hc, Hn, Hlog. exact (Hall i tc' r' log Hc Hn Hlog).
Qed.

(** The loop leaves the statistics of the result unset, and sets the
    error text only when it stops on a failure response, to the text of
    that response. *)
Lemma predict_loop_report (n : nat) (df_csv : string) (nrows : Z) :
  forall prev r (st : RunState World),
    results st = prev ++ [r] ->
    TestCaseResults.prediction_error r = None ->
    TestCaseResults.server_stats r = None ->
    exists r',
      results (snd (loop n df_csv nrows st)) = prev ++ [r'] /\
      TestCaseResults.server_stats r' = None /\
      match fst (loop n df_csv nrows st) with
      | Ok true =>
          exists response l,
            calls (snd (loop n df_csv nrows st))
            = l ++ [CallPredict df_csv (Returns response)] /\
            ok response = false /\
            TestCaseResults.prediction_error r' = Some (text response) /\
            TestCaseResults.prediction_ok r' = false
      | _ => TestCaseResults.prediction_error r' = None
      end.
Proof.
  induction n as [|n IH]; intros prev r st Hres He Hs.
  - cbn [predict_loop fst snd]. exists r. auto.
  - cbn [predict_loop].
    set (st1 := update_tc_results (TestCaseResults.stats_call (Mark "start"))
                  (update_tc_results (TestCaseResults.stats_call Enable) st)).
    assert (H1 : results st1 =
                 prev ++ [TestCaseResults.stats_call (Mark "start")
                            (TestCaseResults.stats_call Enable r)]).
    { unfold st1. apply update_keeps_results, update_keeps_results, Hres. }
    assert (W1 : world st1 = world st) by reflexivity.
    rewrite W1.
    destruct (requests_post_predict df_csv (world st)) as [ev w].
    set (st2 := record_call (CallPredict df_csv ev) w st1).
    assert (H2 : results st2 = results st1) by reflexivity.
    destruct ev as [response|e].
    + set (st3 := update_tc_results (TestCaseResults.stats_call (Mark "end"))
                    st2).
      assert (H3 : results st3 =
                   prev ++ [TestCaseResults.stats_call (Mark "end")
                              (TestCaseResults.stats_call (Mark "start")
                                 (TestCaseResults.stats_call Enable r))]).
      { unfold st3. apply update_keeps_results. rewrite H2. exact H1. }
      destruct (ok response) eqn:Eok.
      * set (st4 := update_tc_results
                      (TestCaseResults.set_prediction_ok true) st3).
        assert (H4 : results st4 =
                     prev ++ [TestCaseResults.set_prediction_ok true
                                (TestCaseResults.stats_call (Mark "end")
                                   (TestCaseResults.stats_call (Mark "start")
                                      (TestCaseResults.stats_call Enable r)))])
          by (unfold st4; apply update_keeps_results, H3).
        destruct (len_predictions (text response)) as [actual|e].
        -- destruct (negb (actual =? nrows)).
           ++ cbn [fst snd]. eexists. split; [exact H4|]. split; assumption.
           ++ apply (IH prev _ _ (update_keeps_results _ _ _ _ _ H4));
                assumption.
        -- cbn [fst snd]. eexists. split; [exact H4|]. split; assumption.
      * cbn [fst snd]. eexists. split.
        { apply update_keeps_results, update_keeps_results, H3. }
        split; [exact Hs|].
        exists response. eexists. split; [reflexivity|].
        split; [exact Eok|]. split; reflexivity.
    + cbn [fst snd]. eexists. split; [rewrite H2; exact H1|].
      split; assumption.
Qed.

Lemma run_case_report (df : DataFrame Row) (tc : PerfTestCase.t)
  (st : RunState World) :
  exists r,
    results (snd (run_case df tc st)) = results st ++ [r] /\
    report_sound r (calls (snd (run_case df tc st))).
Proof.
  unfold _run_test_case.
  set (r0 := TestCaseResults.init _ _ _ _).
  set (st0 := {| results := results st ++ [r0]; world := world st;
                 calls := calls st |}).
  destruct (_get_samples_df df (PerfTestCase.samples tc)) as [test_df|e].
  2:{ exists r0. split; [reflexivity|]. split; intros x Hx; discriminate. }
  destruct (predict_loop_report
              (Z.to_nat (PerfTestCase.iterations tc)) (to_csv test_df)
              (shape0 test_df) (results st) r0 st0 eq_refl eq_refl eq_refl)
    as [r1 [Hr1 [Hs1 Hend]]].
  destruct (loop (Z.to_nat (PerfTestCase.iterations tc)) (to_csv test_df)
              (shape0 test_df) st0) as [[[|]|e] st1];
    cbn [fst snd] in *.
  - exists r1. split; [exact Hr1|]. split.
    + destruct Hend as [response [l [Hc [Hok [He Hflag]]]]].
      intros e' He'. rewrite He in He'. injection He' as <-.
      split; [exact Hflag|]. exists (to_csv test_df), response, l. auto.
    + intros s Hs. rewrite Hs1 in Hs. discriminate.
  - destruct (requests_get_stats (world st1)) as [ev w].
    assert (Hno : forall st' : RunState World,
               results st' = results st1 ->
               exists r, results st' = results st ++ [r] /\
                         report_sound r (calls st')).
    { intros st' E. exists r1. split; [rewrite E; exact Hr1|].
      split; intros x Hx; [rewrite Hend in Hx|rewrite Hs1 in Hx];
        discriminate. }
    destruct ev as [response|e]; [|apply Hno; reflexivity].
    destruct (ok response) eqn:Eok; [|apply Hno; reflexivity].
    eexists. split.
    { apply update_keeps_results. cbn [record_call results]. exact Hr1. }
    split.
    + intros x Hx. cbn in Hx. rewrite Hend in Hx. discriminate.
    + intros s Hs. cbn in Hs. injection Hs as <-.
      exists response, (calls st1). cbn [update_tc_results record_call calls].
      auto.
  - exists r1. split; [exact Hr1|].
    split; intros x Hx; [rewrite Hend in Hx|rewrite Hs1 in Hx];
      discriminate.
Qed.

(** A case on a server that answers every request with a success, every
    prediction request with the right number of predictions. *)
Lemma healthy_case (df test_df : DataFrame Row) (tc : PerfTestCase.t)
  (st : RunState World) (server_stats : string) :
  calls st = [] ->
  _get_samples_df df (PerfTestCase.samples tc) = Ok test_df ->
  (forall w, exists r w',
      requests_post_predict (to_csv test_df) w = (Returns r, w') /\
      ok r = true /\ len_predictions (text r) = Ok (shape0 test_df)) ->
  (forall w, exists w',
      requests_get_stats w
      = (Returns {| ok := true; text := server_stats |}, w')) ->
  let n := Z.to_nat (PerfTestCase.iterations tc) in
  let out := run_case df tc st in
  fst out = Ok tt /\
  predict_requests (calls (snd out)) = n /\
  stats_fetches (calls (snd out)) = 1%nat /\
  results (snd out)
  = results st ++
    [ TestCaseResults.mk
        (match PerfTestCase.name tc with
         | Some name => name
         | None => "Test case"%string
         end)
        (PerfTestCase.iterations tc) (PerfTestCase.samples tc)
        (RegisterReport REPORT_NAME "end" "SUB" "start" :: timed_iterations n)
        (0 <? PerfTestCase.iterations tc) None (Some server_stats) ].
Proof.
  intros Hcalls Hdf Hpost Hstats n out.
  pose proof (run_case_calls df test_df tc st Hcalls Hdf) as Hcount.
  cbv zeta in Hcount. fold out in Hcount.
  destruct Hcount as [_ [Hle [Hone Hfull]]].
  revert Hle Hone Hfull. unfold out, _run_test_case. rewrite Hdf.
  set (r0 := TestCaseResults.init _ _ _ _).
  set (st0 := {| results := results st ++ [r0]; world := world st;
                 calls := calls st |}).
  destruct (healthy_loop (to_csv test_df) (shape0 test_df) Hpost n st0
              (results st) r0 eq_refl) as [Hfst Hsnd].
  fold n.
  destruct (loop n (to_csv test_df) (shape0 test_df) st0) as [o st1].
  cbn [fst snd] in Hfst, Hsnd. subst o.
  destruct (Hstats (world st1)) as [w' Hw]. rewrite Hw.
  cbn [ok text fst snd]. intros Hle Hone Hfull.
  assert (F1 : stats_fetches
                 (calls (update_tc_results
                           (TestCaseResults.set_server_stats server_stats)
                           (record_call
                              (CallStats
                                 (Returns {| ok := true;
                                             text := server_stats |}))
                              w' st1))) = 1%nat).
  { cbn [update_tc_results record_call calls] in *.
    rewrite stats_fetches_app in *. cbn in *. lia. }
  split; [reflexivity|].
  split; [apply Hfull; exact F1|]. split; [exact F1|].
  cbn [update_tc_results record_call results]. rewrite Hsnd.
  rewrite modify_last_app. f_equal. f_equal.
  unfold after_iterations, r0, TestCaseResults.init,
    TestCaseResults.set_server_stats.
  cbn [TestCaseResults.name TestCaseResults.iterations
       TestCaseResults.samples TestCaseResults.stats_obj
       TestCaseResults.prediction_ok TestCaseResults.prediction_error
       TestCaseResults.server_stats app].
  f_equal. unfold n.
  destruct (Z.ltb_spec 0 (PerfTestCase.iterations tc)) as [Hp|Hp].
  - destruct (Z.to_nat (PerfTestCase.iterations tc)) eqn:E; [lia|reflexivity].
  - replace (Z.to_nat (PerfTestCase.iterations tc)) with 0%nat by lia.
    reflexivity.
Qed.

Lemma modify_last_nonempty {A : Type} (f : A -> A) (l : list A) :
  l <> [] -> modify_last f l <> [].
Proof.
  destruct l as [|x [|y l]]; cbn; [congruence|discriminate|discriminate].
Qed.

Lemma modify_last_prefix {A : Type} (f : A -> A) (l1 l2 : list A) :
  l2 <> [] -> modify_last f (l1 ++ l2) = l1 ++ modify_last f l2.
Proof.
  intros H. induction l1 as [|x l1 IH]; [reflexivity|].
  cbn [app modify_last]. rewrite IH.
  destruct (l1 ++ l2) eqn:E; [|reflexivity].
  apply app_eq_nil in E. destruct E; contradiction.
Qed.

Lemma update_prefixed (f : TestCaseResults.t -> TestCaseResults.t)
  (acc : list TestCaseResults.t) (st : RunState World) :
  results st <> [] ->
  update_tc_results f (prefixed acc st)
  = prefixed acc (update_tc_results f st).
Proof.
  intros H. unfold update_tc_results, prefixed. cbn [results world calls].
  rewrite modify_last_prefix by exact H. reflexivity.
Qed.

Lemma update_nonempty (f : TestCaseResults.t -> TestCaseResults.t)
  (st : RunState World) :
  results st <> [] -> results (update_tc_results f st) <> [].
Proof. intros H. cbn. apply modify_last_nonempty, H. Qed.

Ltac nonempty_by H :=
  first [exact H | apply update_nonempty; nonempty_by H].

(** Earlier results take no part in the loop. *)
Lemma predict_loop_prefixed (n : nat) (df_csv : string) (nrows : Z)
  (acc : list TestCaseResults.t) :
  forall st : RunState World,
    results st <> [] ->
    loop n df_csv nrows (prefixed acc st)
    = (fst (loop n df_csv nrows st),
       prefixed acc (snd (loop n df_csv nrows st))).
Proof.
  induction n as [|n IH]; intros st Hne; [reflexivity|].
  cbn [predict_loop].
  rewrite !update_prefixed by (nonempty_by Hne).
  set (st1 := update_tc_results (TestCaseResults.stats_call (Mark "start"))
                (update_tc_results (TestCaseResults.stats_call Enable) st)).
  assert (N1 : results st1 <> [])
    by (nonempty_by Hne).
  change (world (prefixed acc st1)) with (world st1).
  destruct (requests_post_predict df_csv (world st1)) as [ev w].
  change (record_call (CallPredict df_csv ev) w (prefixed acc st1))
    with (prefixed acc (record_call (CallPredict df_csv ev) w st1)).
  set (st2 := record_call (CallPredict df_csv ev) w st1).
  assert (N2 : results st2 <> []) by exact N1.
  destruct ev as [response|e]; [|reflexivity].
  rewrite !update_prefixed by (nonempty_by N2).
  destruct (ok response); [|reflexivity].
  destruct (len_predictions (text response)) as [actual|e]; [|reflexivity].
  destruct (negb (actual =? nrows)); [reflexivity|].
  apply IH. nonempty_by N2.
Qed.

Lemma predict_loop_nonempty (n : nat) (df_csv : string) (nrows : Z) :
  forall st : RunState World,
    results st <> [] -> results (snd (loop n df_csv nrows st)) <> [].
Proof.
  induction n as [|n IH]; intros st Hne; [exact Hne|].
  cbn [predict_loop].
  set (st1 := update_tc_results (TestCaseResults.stats_call (Mark "start"))
                (update_tc_results (TestCaseResults.stats_call Enable) st)).
  assert (N1 : results st1 <> [])
    by (nonempty_by Hne).
  destruct (requests_post_predict df_csv (world st1)) as [ev w].
  set (st2 := record_call (CallPredict df_csv ev) w st1).
  assert (N2 : results st2 <> []) by exact N1.
  destruct ev as [response|e]; [|exact N2].
  destruct (ok response).
  - destruct (len_predictions (text response)) as [actual|e].
    + destruct (negb (actual =? nrows)).
      * cbn [snd]. nonempty_by N2.
      * apply IH. nonempty_by N2.
    + cbn [snd]. nonempty_by N2.
  - cbn [snd]. nonempty_by N2.
Qed.

Lemma run_case_prefixed (df : DataFrame Row) (tc : PerfTestCase.t)
  (acc : list TestCaseResults.t) (st : RunState World) :
  run_case df tc (prefixed acc st)
  = (fst (run_case df tc st), prefixed acc (snd (run_case df tc st))).
Proof.
  unfold _run_test_case.
  set (r0 := TestCaseResults.init _ _ _ _).
  change {| results := results (prefixed acc st) ++ [r0];
            world := world (prefixed acc st);
            calls := calls (prefixed acc st) |}
    with {| results := (acc ++ results st) ++ [r0];
            world := world st; calls := calls st |}.
  rewrite <- app_assoc.
  set (st0 := {| results := results st ++ [r0]; world := world st;
                 calls := calls st |}).
  change {| results := acc ++ results st ++ [r0];
            world := world st; calls := calls st |}
    with (prefixed acc st0).
  assert (N0 : results st0 <> [])
    by (unfold st0; cbn [results]; destruct (results st); discriminate).
  destruct (_get_samples_df df (PerfTestCase.samples tc)) as [test_df|e];
    [|reflexivity].
  rewrite predict_loop_prefixed by exact N0.
  pose proof (predict_loop_nonempty
                (Z.to_nat (PerfTestCase.iterations tc)) (to_csv test_df)
                (shape0 test_df) st0 N0) as N1.
  destruct (loop (Z.to_nat (PerfTestCase.iterations tc)) (to_csv test_df)
              (shape0 test_df) st0) as [[[|]|e] st1];
    cbn [fst snd] in *; try reflexivity.
  change (world (prefixed acc st1)) with (world st1).
  destruct (requests_get_stats (world st1)) as [ev w].
  destruct ev as [response|e]; [|reflexivity].
  destruct (ok response); [|reflexivity].
  cbn [fst snd].
  change (record_call (CallStats (Returns response)) w (prefixed acc st1))
    with (prefixed acc (record_call (CallStats (Returns response)) w st1)).
  rewrite update_prefixed; [reflexivity|exact N1].
Qed.

(** The results a run starts from take no part in it: they come back in
    front of the results of the same run started from nothing. *)
Lemma run_cases_frame (df : DataFrame Row) (timeout : Z)
  (cases : list PerfTestCase.t) :
  forall (acc : list TestCaseResults.t) (w : World),
    run df timeout cases acc w
    = (acc ++ fst (fst (run df timeout cases [] w)),
       snd (fst (run df timeout cases [] w)),
       snd (run df timeout cases [] w)).
Proof.
  induction cases as [|tc rest IH]; intros acc w.
  - cbn [run_cases fst snd]. rewrite app_nil_r. reflexivity.
  - cbn [run_cases].
    set (st0 := {| results := []; world := signal_alarm timeout w;
                   calls := [] |}).
    change {| results := acc; world := signal_alarm timeout w; calls := [] |}
      with {| results := acc; world := world st0; calls := calls st0 |}.
    replace {| results := acc; world := world st0; calls := calls st0 |}
      with (prefixed acc st0)
      by (unfold prefixed; cbn [results st0]; rewrite app_nil_r; reflexivity).
    rewrite run_case_prefixed.
    destruct (run_case df tc st0) as [outcome st1]. cbn [fst snd].
    assert (E : forall st' : RunState World,
               match outcome with
               | Ok _ => st'
               | Raise DrumPerfTestTimeout => st'
               | Raise _ => st'
               end = st')
      by (intros st'; destruct outcome as [|[]]; reflexivity).
    rewrite !E.
    rewrite (IH (results (prefixed acc st1)) (world (prefixed acc st1))).
    rewrite (IH (results st1) (world st1)).
    cbn [prefixed results world].
    destruct (run df timeout rest [] (world st1)) as [[r1 w1] l1].
    cbn [fst snd]. rewrite app_assoc. reflexivity.
Qed.

Lemma run_case_budget (df : DataFrame Row) (tc : PerfTestCase.t)
  (st : RunState World) :
  calls st = [] ->
  within_budget tc (calls (snd (run_case df tc st))) /\
  sends_its_sample to_csv df tc (calls (snd (run_case df tc st))).
Proof.
  intros Hcalls. unfold sends_its_sample.
  destruct (_get_samples_df df (PerfTestCase.samples tc)) as [test_df|e]
    eqn:Hdf.
  - destruct (run_case_calls df test_df tc st Hcalls Hdf)
      as [Hs [Hp [Hf Hfull]]].
    split; [|exact Hs]. split; [exact Hp|]. split; [exact Hf|exact Hfull].
  - unfold _run_test_case. rewrite Hdf. cbn [snd calls]. rewrite Hcalls.
    split; [|reflexivity]. split; [cbn; lia|]. split; [cbn; lia|].
    cbn. discriminate.
Qed.

(** The flag is set as soon as a response has arrived, unless a failure
    response has. *)
Lemma predict_loop_flag (n : nat) (df_csv : string) (nrows : Z) :
  forall prev r (st : RunState World),
    results st = prev ++ [r] ->
    (got_response (calls st) = true ->
     TestCaseResults.prediction_ok r = true) ->
    exists r',
      results (snd (loop n df_csv nrows st)) = prev ++ [r'] /\
      (got_response (calls (snd (loop n df_csv nrows st))) = true ->
       got_not_ok (calls (snd (loop n df_csv nrows st))) = false ->
       TestCaseResults.prediction_ok r' = true).
Proof.
  induction n as [|n IH]; intros prev r st Hres Hflag.
  - cbn [predict_loop fst snd]. exists r. auto.
  - cbn [predict_loop].
    set (st1 := update_tc_results (TestCaseResults.stats_call (Mark "start"))
                  (update_tc_results (TestCaseResults.stats_call Enable) st)).
    assert (H1 : results st1 =
                 prev ++ [TestCaseResults.stats_call (Mark "start")
                            (TestCaseResults.stats_call Enable r)]).
    { unfold st1. apply update_keeps_results, update_keeps_results, Hres. }
    assert (C1 : calls st1 = calls st) by reflexivity.
    assert (W1 : world st1 = world st) by reflexivity.
    rewrite W1.
    destruct (requests_post_predict df_csv (world st)) as [ev w].
    set (st2 := record_call (CallPredict df_csv ev) w st1).
    assert (H2 : results st2 = results st1) by reflexivity.
    assert (C2 : calls st2 = calls st ++ [CallPredict df_csv ev])
      by (unfold st2, record_call; cbn [calls]; rewrite C1; reflexivity).
    destruct ev as [response|e].
    + set (st3 := update_tc_results (TestCaseResults.stats_call (Mark "end"))
                    st2).
      assert (H3 : results st3 =
                   prev ++ [TestCaseResults.stats_call (Mark "end")
                              (TestCaseResults.stats_call (Mark "start")
                                 (TestCaseResults.stats_call Enable r))]).
      { unfold st3. apply update_keeps_results. rewrite H2. exact H1. }
      destruct (ok response) eqn:Eok.
      * set (st4 := update_tc_results
                      (TestCaseResults.set_prediction_ok true) st3).
        assert (H4 : results st4 =
                     prev ++ [TestCaseResults.set_prediction_ok true
                                (TestCaseResults.stats_call (Mark "end")
                                   (TestCaseResults.stats_call (Mark "start")
                                      (TestCaseResults.stats_call Enable r)))])
          by (unfold st4; apply update_keeps_results, H3).
        destruct (len_predictions (text response)) as [actual|e].
        -- destruct (negb (actual =? nrows)).
           ++ cbn [fst snd]. eexists. split; [exact H4|]. reflexivity.
           ++ apply (IH prev _ _ (update_keeps_results _ _ _ _ _ H4)).
              reflexivity.
        -- cbn [fst snd]. eexists. split; [exact H4|]. reflexivity.
      * cbn [fst snd]. eexists. split.
        { apply update_keeps_results, update_keeps_results, H3. }
        intros _ Hno. exfalso.
        cbn [update_tc_results calls] in Hno.
        change (calls st3) with (calls st2) in Hno.
        rewrite C2, got_not_ok_snoc in Hno. cbn in Hno.
        rewrite Eok in Hno. cbn in Hno. rewrite orb_true_r in Hno.
        discriminate.
    + cbn [fst snd]. eexists. split; [rewrite H2; exact H1|].
      intros Hgot _. rewrite C2, got_response_snoc in Hgot. cbn in Hgot.
      rewrite orb_false_r in Hgot. cbn. exact (Hflag Hgot).
Qed.

Lemma run_case_flag (df : DataFrame Row) (tc : PerfTestCase.t)
  (st : RunState World) :
  calls st = [] ->
  exists r,
    results (snd (run_case df tc st)) = results st ++ [r] /\
    flag_exact r (calls (snd (run_case df tc st))).
Proof.
  intros Hcalls.
  destruct (run_test_case_inv World requests_post_predict requests_get_stats
              len_predictions to_csv df tc st Hcalls)
    as [r [Hr [_ Hsound]]].
  exists r. split; [exact Hr|]. split; [exact Hsound|].
  revert Hr. clear Hsound. unfold _run_test_case.
  set (r0 := TestCaseResults.init _ _ _ _).
  set (st0 := {| results := results st ++ [r0]; world := world st;
                 calls := calls st |}).
  destruct (_get_samples_df df (PerfTestCase.samples tc)) as [test_df|e].
  2:{ unfold st0. cbn [snd calls]. rewrite Hcalls. intros _ [H _].
      discriminate. }
  destruct (predict_loop_flag
              (Z.to_nat (PerfTestCase.iterations tc)) (to_csv test_df)
              (shape0 test_df) (results st) r0 st0 eq_refl)
    as [r1 [Hr1 Hf1]].
  { unfold st0. cbn [calls]. rewrite Hcalls. discriminate. }
  destruct (loop (Z.to_nat (PerfTestCase.iterations tc)) (to_csv test_df)
              (shape0 test_df) st0) as [[[|]|e] st1];
    cbn [fst snd] in *.
  - intros Hr. rewrite Hr1 in Hr. apply app_inj_tail in Hr.
    destruct Hr as [_ <-]. intros [H1 H2]. auto.
  - destruct (requests_get_stats (world st1)) as [ev w].
    assert (Hkeep : forall c : Call,
               got_response (calls st1 ++ [CallStats ev]) = true /\
               got_not_ok (calls st1 ++ [CallStats ev]) = false ->
               TestCaseResults.prediction_ok r1 = true).
    { intros _ [H1 H2].
      rewrite got_response_snoc in H1. rewrite got_not_ok_snoc in H2.
      apply orb_false_elim in H2. destruct H2 as [H2 _].
      assert (G : got_response [CallStats ev] = false)
        by (destruct ev; reflexivity).
      rewrite G, orb_false_r in H1. auto. }
    specialize (Hkeep (CallStats ev)).
    destruct ev as [response|e].
    + destruct (ok response); cbn [snd update_tc_results record_call
                                   results calls].
      * rewrite Hr1, modify_last_app. intros Hr.
        apply app_inj_tail in Hr. destruct Hr as [_ <-].
        intros H. cbn. exact (Hkeep H).
      * rewrite Hr1. intros Hr. apply app_inj_tail in Hr.
        destruct Hr as [_ <-]. exact Hkeep.
    + cbn [snd record_call results calls]. rewrite Hr1. intros Hr.
      apply app_inj_tail in Hr. destruct Hr as [_ <-]. exact Hkeep.
  - intros Hr. rewrite Hr1 in Hr. apply app_inj_tail in Hr.
    destruct Hr as [_ <-]. intros [H1 H2]. auto.
Qed.

End MoreRunnerFacts.

Section MorePlannerFacts.

Context {Row : Type}.
Implicit Types file : CsvFile Row.

Lemma size_and_units_exact (size : Z) :
  size < 2 ^ 53 ->
  _get_size_and_units size
  = Ok (if size <? 1024 then (size, "bytes"%string)
        else (size / 1024, "KB"%string)).
Proof.
  intros H. unfold _get_size_and_units.
  destruct (Z.ltb_spec size 1024); [reflexivity|].
  rewrite int_truediv_exact by lia. reflexivity.
Qed.

Lemma default_plan_labels file (options : Options) :
  well_sized file ->
  opt_iterations options = None -> opt_samples options = None ->
  exists cases df,
    _prepare_test_cases file options = Ok (cases, df) /\
    map PerfTestCase.name cases
    = [ Some (size_label (st_size file / shape0 (csv_rows file)));
        Some "0.1MB"%string; Some "10MB"%string; Some "50MB"%string ].
Proof.
  intros Hw Hi Hs.
  destruct (default_plan file options Hw Hi Hs)
    as [est [label [df [Hest [Hb [Hdf [_ _]]]]]]].
  destruct (sample_size_exact file Hw) as [Hss Hssb].
  unfold _prepare_test_cases, pd_read_csv.
  rewrite Hss, Hi, Hs. cbn [bind]. rewrite Hest. cbn [bind].
  rewrite Hdf. cbn [bind].
  rewrite size_and_units_exact by lia. cbn [bind].
  assert (2 ^ 28 + 1 < 2 ^ 53) by reflexivity.
  rewrite !int_truediv_exact by lia. cbn [bind].
  eexists. eexists. split; reflexivity.
Qed.

Lemma override_plan_label file (options : Options) :
  well_sized file ->
  (opt_iterations options <> None \/ opt_samples options <> None) ->
  let samples :=
    match opt_samples options with
    | None => shape0 (csv_rows file)
    | Some s => s
    end in
  let iters :=
    match opt_iterations options with None => 1 | Some i => i end in
  samples * (st_size file / shape0 (csv_rows file)) < 2 ^ 53 ->
  _prepare_test_cases file options =
    Ok ([ PerfTestCase.mk
            (Some (size_label
                     (samples * (st_size file / shape0 (csv_rows file)))))
            samples iters ],
        csv_rows file).
Proof.
  intros Hw Hov samples iters Hsize.
  destruct (sample_size_exact file Hw) as [Hss Hssb].
  pose proof (size_and_units_exact _ Hsize) as Hsu.
  unfold _prepare_test_cases, pd_read_csv. rewrite Hss. cbn [bind].
  fold samples iters.
  destruct (opt_iterations options) as [i|] eqn:Ei;
    destruct (opt_samples options) as [s|] eqn:Es;
    try (destruct Hov; congruence);
    subst samples iters; cbv zeta; rewrite Hsu; reflexivity.
Qed.

Lemma plan_on_empty_data file (options : Options) :
  csv_rows file = [] ->
  _prepare_test_cases file options = Raise ZeroDivisionError.
Proof.
  intros H. unfold _prepare_test_cases, pd_read_csv. rewrite H.
  reflexivity.
Qed.

End MorePlannerFacts.

Section MoreSideEffectsFacts.

Context {Row : Type}.
Variable RngState : Type.
Variable RandomState : Z -> RngState.
Variable choice : RngState -> nat -> nat -> list nat.

Lemma data_subset_small (df : DataFrame Row) (global : RngState) :
  shape0 df < 2 ^ 53 ->
  (data_subset RngState RandomState choice df global = Raise ValueError
   <-> shape0 df < 10).
Proof.
  intros Hn.
  assert (H0 : 0 <= shape0 df) by (unfold shape0; lia).
  unfold data_subset. rewrite samplesize_spec by lia. cbn [bind].
  unfold df_sample.
  set (size := Z.min 1000 (Z.max (shape0 df / 10) 10)).
  assert (Hsize : 10 <= size <= 1000) by (unfold size; lia).
  destruct (Z.ltb_spec size 0) as [|_]; [lia|]. cbn [orb].
  destruct (Z.ltb_spec (shape0 df) size) as [Hlt|Hge].
  - split; [|reflexivity]. intros _.
    destruct (Z.lt_ge_cases (shape0 df) 10) as [|H10]; [assumption|].
    assert (shape0 df / 10 <= shape0 df)
      by (apply Z.div_le_upper_bound; lia).
    unfold size in Hlt. lia.
  - split; [discriminate|lia].
Qed.

End MoreSideEffectsFacts.

(** ** The files of the null value imputation check *)

Lemma str_of_int_inj (a b : Z) : str_of_int a = str_of_int b -> a = b.
Proof.
  unfold str_of_int. intros H.
  assert (Hnn : forall z, Z.to_int z <> Decimal.Pos Decimal.Nil /\
                          Z.to_int z <> Decimal.Neg Decimal.Nil).
  { intros z. split; intros E; pose proof (DecimalZ.of_to z) as F;
      rewrite E in F; cbn in F; subst z; discriminate. }
  assert (E : Some (Z.to_int a) = Some (Z.to_int b)).
  { rewrite <- (NilZero.isi (Z.to_int a)) by apply Hnn.
    rewrite <- (NilZero.isi (Z.to_int b)) by apply Hnn.
    rewrite H. reflexivity. }
  injection E as E.
  rewrite <- (DecimalZ.of_to a), <- (DecimalZ.of_to b), E. reflexivity.
Qed.

Lemma string_append_cancel (a b c : string) :
  (a ++ b = a ++ c)%string -> b = c.
Proof.
  induction a as [|x a IH]; cbn; [auto|].
  intros H. injection H as H. exact (IH H).
Qed.

Lemma variant_path_inj (dir : string) (i j : nat) :
  variant_path dir i = variant_path dir j -> i = j.
Proof.
  unfold variant_path, os_path_join. intros H.
  apply string_append_cancel in H. apply string_append_cancel in H.
  apply string_append_cancel in H. apply str_of_int_inj in H. lia.
Qed.

Lemma read_file_written (p : string) (df : Frame) (fs : FileSystem) :
  read_file p (to_csv_file p df fs) = Some df.
Proof.
  unfold read_file, to_csv_file. cbn [find fst]. rewrite String.eqb_refl.
  reflexivity.
Qed.

Lemma read_file_os_remove (p q : string) (fs : FileSystem) :
  p <> q -> read_file p (os_remove q fs) = read_file p fs.
Proof.
  intros Hne. unfold read_file, os_remove.
  induction fs as [|f fs IH]; [reflexivity|].
  cbn [filter find].
  destruct (String.eqb_spec (fst f) q) as [Hq|Hq]; cbn [negb find].
  - destruct (String.eqb_spec (fst f) p) as [Hp|Hp]; [congruence|exact IH].
  - destruct (String.eqb_spec (fst f) p); [reflexivity|exact IH].
Qed.

Lemma read_file_other (p q : string) (df : Frame) (fs : FileSystem) :
  p <> q -> read_file p (to_csv_file q df fs) = read_file p fs.
Proof.
  intros Hne. unfold to_csv_file.
  transitivity (read_file p (os_remove q fs)).
  - unfold read_file at 1. cbn [find fst].
    destruct (String.eqb_spec q p); [congruence|reflexivity].
  - apply read_file_os_remove. exact Hne.
Qed.

Lemma dict_set_forall {V : Type} (P : string * V -> Prop) (k : string)
  (v : V) (d : list (string * V)) :
  (forall k', P (k', v)) -> Forall P d -> Forall P (dict_set k v d).
Proof.
  intros Hv. induction 1 as [|[k0 v0] d H0 Hd IH]; cbn.
  - constructor; [apply Hv|constructor].
  - destruct (String.eqb k0 k); constructor; auto.
Qed.

Section MoreValidationFacts.

Variable score_subprocess : string -> FileSystem -> Z.

Lemma null_loop_files (dir : string) (df : Frame) (cols : list string) :
  forall (i : nat) (st : ValidationState),
    let st' := null_loop score_subprocess dir df cols i st in
    map launch_input (launches st')
    = (map launch_input (launches st)
       ++ map (variant_path dir) (seq i (List.length cols)))%list /\
    (forall k col,
        nth_error cols k = Some col ->
        read_file (variant_path dir (i + k)) (disk st')
        = Some (null_column col df)) /\
    (forall p,
        (forall k, (k < List.length cols)%nat ->
                   p <> variant_path dir (i + k)) ->
        read_file p (disk st') = read_file p (disk st)) /\
    (Forall (fun kv => retcode (snd kv) <> 0) (check_results st) ->
     Forall (fun kv => retcode (snd kv) <> 0) (check_results st')).
Proof.
  induction cols as [|col rest IH]; intros i st.
  - cbn [null_loop List.length seq map]. rewrite app_nil_r.
    split; [reflexivity|]. split; [intros k c H; destruct k; discriminate|].
    split; auto.
  - cbn [null_loop]. fold (variant_path dir i).
    set (fs1 := to_csv_file (variant_path dir i) (null_column col df)
                  (disk st)).
    set (rc := score_subprocess (variant_path dir i) fs1).
    match goal with
    | |- context [null_loop _ _ _ _ _ ?s] => set (st1 := s)
    end.
    destruct (IH (S i) st1) as [Hl [Hnew [Hold Hfail]]].
    cbv zeta. split; [|split; [|split]].
    + rewrite Hl. unfold st1. cbn [launches]. rewrite map_app.
      cbn [map launch_input List.length seq]. rewrite <- app_assoc.
      reflexivity.
    + intros k c Hk. destruct k as [|k].
      * cbn in Hk. injection Hk as <-. rewrite Nat.add_0_r.
        rewrite Hold.
        -- unfold st1. cbn [disk]. apply read_file_written.
        -- intros k _ E. apply variant_path_inj in E. lia.
      * cbn in Hk. replace (i + S k)%nat with (S i + k)%nat by lia.
        apply Hnew. exact Hk.
    + intros p Hp. rewrite Hold.
      * unfold st1. cbn [disk]. apply read_file_other.
        specialize (Hp 0%nat ltac:(cbn; lia)).
        rewrite Nat.add_0_r in Hp. exact Hp.
      * intros k Hk. specialize (Hp (S k) ltac:(cbn; lia)).
        replace (i + S k)%nat with (S i + k)%nat in Hp by lia. exact Hp.
    + intros H. apply Hfail. unfold st1. cbn [check_results].
      destruct (Z.eqb_spec rc 0) as [|Hrc]; cbn [negb]; [exact H|].
      apply dict_set_forall; [|exact H]. intros k'. exact Hrc.
Qed.

(** The check, file by file. *)
Lemma validation_files (dir : string) (df : Frame) (fs : FileSystem)
  (columns : list string) :
  column_names df = Ok columns ->
  exists report st,
    validation_test score_subprocess dir df fs = Ok (report, st) /\
    map launch_input (launches st)
    = map (variant_path dir) (seq 0 (List.length columns)) /\
    (status report = "FAILED"%string ->
     (forall i col,
         nth_error columns i = Some col ->
         read_file (variant_path dir i) (disk st)
         = Some (null_column col df)) /\
     (forall p,
         (forall i, (i < List.length columns)%nat ->
                    p <> variant_path dir i) ->
         read_file p (disk st) = read_file p fs)).
Proof.
  intros Hcols. unfold validation_test. rewrite Hcols. cbn [bind].
  destruct (null_loop_files dir df columns 0
              {| disk := fs; check_results := []; launches := [] |})
    as [Hl [Hnew [Hold Hfail]]].
  set (st := null_loop score_subprocess dir df columns 0
               {| disk := fs; check_results := []; launches := [] |}) in *.
  cbn [launches map app disk check_results] in Hl, Hold, Hfail.
  specialize (Hfail (Forall_nil _)).
  destruct (List.length (check_results st) =? 0)%nat.
  - eexists. eexists. split; [reflexivity|].
    cbn [launches status]. split; [exact Hl|]. discriminate.
  - eexists. eexists. split; [reflexivity|].
    cbn [launches status disk]. split; [exact Hl|]. intros _.
    rewrite remove_passed_all_failed by exact Hfail.
    split; [exact Hnew|exact Hold].
Qed.

End MoreValidationFacts.

(** ** Waiting for the server *)

Section MoreServerFacts.

Variable World : Type.
Variable requests_get : World -> Event Response * World.
Variable time_sleep : Z -> World -> World.
Variable communicate : World -> option ((string * string) * World).

Local Abbreviation wait :=
  (_wait_for_server_to_start World requests_get time_sleep communicate).

Lemma wait_bounded :
  forall (n : nat) (st : WaitState World),
    _timeout st = Z.of_nat (S n) ->
    exists r,
      (forall fuel, (S n <= fuel)%nat -> wait fuel st = Some r) /\
      match r with
      | Ended (Done _) st' =>
          (probes st < probes st' <= probes st + S n)%nat /\
          _timeout st'
          = _timeout st - (Z.of_nat (probes st') - Z.of_nat (probes st) - 1) /\
          0 < _timeout st'
      | Ended (Fails e) st' =>
          probes st' = (probes st + S n)%nat /\
          _timeout st' = 0 /\
          exists w stdout stderr,
            communicate w = Some ((stdout, stderr), wait_world st') /\
            e = DrumCommonException (start_error_message stdout stderr)
      | Held st' =>
          probes st' = (probes st + S n)%nat /\
          _timeout st' = 0 /\
          communicate (wait_world st') = None
      end.
Proof.
  induction n as [|n IH]; intros st Ht.
  - destruct (requests_get (wait_world st)) as [ev w] eqn:Eget.
    destruct (match ev with
              | Returns response => ok response
              | Throws _ => false
              end) eqn:Estarted.
    + eexists. split.
      * intros fuel Hf. destruct fuel as [|fuel]; [lia|].
        cbn [_wait_for_server_to_start]. rewrite Eget, Estarted.
        reflexivity.
      * cbn [probes _timeout]. split; [lia|]. split; lia.
    + destruct (communicate (time_sleep 1 w)) as [[[stdout stderr] w']|]
        eqn:Ec.
      * eexists. split.
        -- intros fuel Hf. destruct fuel as [|fuel]; [lia|].
           cbn [_wait_for_server_to_start]. rewrite Eget, Estarted, Ht.
           cbn [Z.of_nat Pos.of_succ_nat Z.sub Z.add Z.opp Z.pos_sub Z.eqb].
           rewrite Ec. reflexivity.
        -- cbn [probes _timeout wait_world]. split; [lia|]. split; [lia|].
           exists (time_sleep 1 w), stdout, stderr. split; [exact Ec|].
           reflexivity.
      * eexists. split.
        -- intros fuel Hf. destruct fuel as [|fuel]; [lia|].
           cbn [_wait_for_server_to_start]. rewrite Eget, Estarted, Ht.
           cbn [Z.of_nat Pos.of_succ_nat Z.sub Z.add Z.opp Z.pos_sub Z.eqb].
           rewrite Ec. reflexivity.
        -- cbn [probes _timeout wait_world]. split; [lia|]. split; [lia|].
           exact Ec.
  - destruct (requests_get (wait_world st)) as [ev w] eqn:Eget.
    destruct (match ev with
              | Returns response => ok response
              | Throws _ => false
              end) eqn:Estarted.
    + eexists. split.
      * intros fuel Hf. destruct fuel as [|fuel]; [lia|].
        cbn [_wait_for_server_to_start]. rewrite Eget, Estarted.
        reflexivity.
      * cbn [probes _timeout]. split; [lia|]. split; lia.
    + set (st1 := {| _timeout := _timeout st - 1;
                     wait_world := time_sleep 1 w;
                     probes := S (probes st) |}).
      destruct (IH st1) as [r [Hrun Hr]];
        [unfold st1; cbn [_timeout]; lia|].
      exists r. split.
      * intros fuel Hf. destruct fuel as [|fuel]; [lia|].
        cbn [_wait_for_server_to_start]. rewrite Eget, Estarted.
        destruct (Z.eqb_spec (_timeout st - 1) 0) as [E|_]; [lia|].
        apply Hrun. lia.
      * unfold st1 in Hr. cbn [probes _timeout] in Hr.
        destruct r as [[u|e] st'|st'].
        -- destruct Hr as [H1 [H2 H3]]. split; [lia|]. split; lia.
        -- destruct Hr as [H1 [H2 H3]]. split; [lia|]. split; assumption.
        -- destruct Hr as [H1 [H2 H3]]. split; [lia|]. split; assumption.
Qed.

Lemma wait_without_budget :
  (forall w, probe_failed (fst (requests_get w)) = true) ->
  forall (fuel : nat) (st : WaitState World),
    _timeout st <= 0 -> wait fuel st = None.
Proof.
  intros Hdown. induction fuel as [|fuel IH]; intros st Ht; [reflexivity|].
  cbn [_wait_for_server_to_start].
  pose proof (Hdown (wait_world st)) as Hp.
  destruct (requests_get (wait_world st)) as [ev w]. cbn [fst] in Hp.
  assert (Es : match ev with
               | Returns response => ok response
               | Throws _ => false
               end = false).
  { destruct ev as [response|e]; [|reflexivity].
    cbn in Hp. destruct (ok response); [discriminate|reflexivity]. }
  rewrite Es.
  destruct (Z.eqb_spec (_timeout st - 1) 0) as [E|_]; [lia|].
  apply IH. cbn [_timeout]. lia.
Qed.

End MoreServerFacts.

(** ** The table of results *)

Section MoreReportFacts.

Import PerfTestResultsFormatter.

Variable json_loads : string -> outcome PyVal.
Variable dict_report : list StatsOp -> string -> outcome PyVal.

Local Abbreviation row_of := (result_row json_loads dict_report).
Local Abbreviation rows_of := (rows_loop json_loads dict_report).
Local Abbreviation table_of := (get_tbl_str json_loads dict_report).

Lemma init_table_lengths (self : t) :
  List.length (fst (fst (_init_table self))) = table_width self /\
  List.length (snd (fst (_init_table self))) = table_width self /\
  List.length (snd (_init_table self)) = table_width self.
Proof.
  unfold _init_table, table_width.
  destruct (_show_mem self), (_in_docker self), (_show_inside_server self);
    repeat split.
Qed.

Lemma add_mem_info_length (self : t) (row row' : list PyVal)
  (server_stats : PyVal) :
  _add_mem_info self row server_stats = Done row' ->
  List.length row'
  = (List.length row + (if _in_docker self then 4 else 2))%nat /\
  firstn (List.length row) row' = row.
Proof.
  unfold _add_mem_info, _same_value_list.
  assert (Hext : forall ext n, List.length ext = n ->
            List.length (row ++ ext) = (List.length row + n)%nat /\
            firstn (List.length row) (row ++ ext) = row).
  { intros ext n <-. rewrite length_app. split; [reflexivity|].
    rewrite firstn_app, Nat.sub_diag, firstn_all. cbn. apply app_nil_r. }
  destruct (if is_None server_stats then Done false
            else py_contains "mem_info" server_stats) as [[|]|e];
    cbn [and_then]; [| |discriminate].
  - destruct (py_getitem server_stats "mem_info") as [mem_info|e];
      cbn [and_then]; [|discriminate].
    destruct (_in_docker self).
    + destruct (if is_None (_memory_limit self) then _ else _) as [cl|e];
        cbn [and_then]; [|discriminate].
      destruct (py_contains "container_max_used" mem_info) as [hm|e];
        cbn [and_then]; [|discriminate].
      destruct (if hm then _ else _) as [mu|e];
        cbn [and_then]; [|discriminate].
      destruct (py_contains "container_used" mem_info) as [hu|e];
        cbn [and_then]; [|discriminate].
      destruct (if hu then _ else _) as [u|e];
        cbn [and_then]; [|discriminate].
      destruct (py_getitem mem_info "total") as [total|e];
        cbn [and_then]; [|discriminate].
      intros H. injection H as <-. apply Hext. reflexivity.
    + destruct (py_getitem mem_info "drum_rss") as [rss|e];
        cbn [and_then]; [|discriminate].
      destruct (py_getitem mem_info "total") as [total|e];
        cbn [and_then]; [|discriminate].
      intros H. injection H as <-. apply Hext. reflexivity.
  - intros H. injection H as <-. apply Hext. apply repeat_length.
Qed.

Lemma add_inside_server_info_length (self : t) (row row' : list PyVal)
  (server_stats : PyVal) :
  _add_inside_server_info self row server_stats = Done row' ->
  List.length row' = (List.length row + 1)%nat /\
  firstn (List.length row) row' = row.
Proof.
  unfold _add_inside_server_info.
  assert (Hext : forall x,
            List.length (row ++ [x]) = (List.length row + 1)%nat /\
            firstn (List.length row) (row ++ [x]) = row).
  { intros x. rewrite length_app. split; [reflexivity|].
    rewrite firstn_app, Nat.sub_diag, firstn_all. cbn. apply app_nil_r. }
  destruct (py_truthy server_stats).
  - destruct (py_getitem server_stats "time_info") as [ti|e];
      cbn [and_then]; [|discriminate].
    destruct (py_getitem ti "run_predictor_total") as [rpt|e];
      cbn [and_then]; [|discriminate].
    destruct (py_getitem rpt "avg") as [avg|e];
      cbn [and_then]; [|discriminate].
    intros H. injection H as <-. apply Hext.
  - intros H. injection H as <-. apply Hext.
Qed.

Lemma firstn_firstn_le {A : Type} (k n : nat) (l l' : list A) :
  firstn n l' = l -> (k <= n)%nat -> firstn k l' = firstn k l.
Proof.
  intros <- Hk. rewrite firstn_firstn. f_equal. lia.
Qed.

Lemma result_row_shape (self : t) (res : TestCaseResults.t)
  (row : list PyVal) :
  row_of self res = Done row ->
  List.length row = table_width self /\ firstn 3 row = row_key res.
Proof.
  unfold result_row, table_width.
  match goal with
  | |- and_then ?c _ = _ -> _ => destruct c as [[row1 ss]|e] eqn:E
  end; cbn [and_then]; [|discriminate].
  assert (H1 : List.length row1 = 6%nat /\ firstn 3 row1 = row_key res).
  { destruct (TestCaseResults.prediction_ok res).
    - destruct (dict_report (TestCaseResults.stats_obj res) REPORT_NAME)
        as [d|e]; cbn [and_then] in E; [|discriminate].
      destruct (py_getitem d "min") as [d_min|e]; cbn [and_then] in E;
        [|discriminate].
      destruct (py_getitem d "avg") as [d_avg|e]; cbn [and_then] in E;
        [|discriminate].
      destruct (py_getitem d "max") as [d_max|e]; cbn [and_then] in E;
        [|discriminate].
      destruct (match TestCaseResults.server_stats res with
                | Some s => _
                | None => _
                end) as [ss'|e]; cbn [and_then] in E; [|discriminate].
      injection E as <- <-. split; reflexivity.
    - injection E as <- <-. split; reflexivity. }
  destruct H1 as [Hl Hk]. clear E.
  destruct (_show_mem self).
  - destruct (_add_mem_info self row1 ss) as [row2|e] eqn:Em;
      cbn [and_then]; [|discriminate].
    destruct (add_mem_info_length _ _ _ _ Em) as [Hl2 Hf2].
    destruct (_show_inside_server self).
    + intros Ei.
      destruct (add_inside_server_info_length _ _ _ _ Ei) as [Hl3 Hf3].
      split; [lia|].
      rewrite <- Hk.
      rewrite (firstn_firstn_le 3 _ _ _ Hf3) by lia.
      apply (firstn_firstn_le 3 _ _ _ Hf2). lia.
    + intros H. injection H as <-. split; [lia|].
      rewrite <- Hk.
      apply (firstn_firstn_le 3 _ _ _ Hf2). lia.
  - cbn [and_then]. destruct (_show_inside_server self).
    + intros Ei.
      destruct (add_inside_server_info_length _ _ _ _ Ei) as [Hl3 Hf3].
      split; [lia|]. rewrite <- Hk.
      apply (firstn_firstn_le 3 _ _ _ Hf3). lia.
    + intros H. injection H as <-. split; [lia|exact Hk].
Qed.

Lemma rows_loop_spec (self : t) (results : list TestCaseResults.t) :
  forall rows out,
    rows_of self results rows = Done out ->
    exists new,
      out = rows ++ new /\
      Forall2 (fun res row => row_of self res = Done row) results new.
Proof.
  induction results as [|res rest IH]; intros rows out H.
  - cbn in H. injection H as <-. exists []. rewrite app_nil_r.
    split; [reflexivity|constructor].
  - cbn [rows_loop] in H.
    destruct (row_of self res) as [row|e] eqn:Er; cbn [and_then] in H;
      [|discriminate].
    destruct (IH _ _ H) as [new [Hout Hall]].
    exists (row :: new). split.
    + rewrite Hout, <- app_assoc. reflexivity.
    + constructor; [exact Er|exact Hall].
Qed.

Lemma table_shape (self : t) (table : Table) :
  table_of self = Done table ->
  List.length (cols_dtype table) = table_width self /\
  List.length (cols_align table) = table_width self /\
  Forall (fun row => List.length row = table_width self)
         (table_rows table) /\
  List.length (table_rows table) = S (List.length (_results self)) /\
  map (firstn 3) (tl (table_rows table)) = map row_key (_results self).
Proof.
  unfold get_tbl_str.
  destruct (init_table_lengths self) as [Hn [Ht Ha]].
  destruct (_init_table self) as [[hn ht] ca]. cbn [fst snd] in Hn, Ht, Ha.
  destruct (rows_of self (_results self) [map VStr hn]) as [rows|e] eqn:Er;
    cbn [and_then]; [|discriminate].
  intros H. injection H as <-. cbn [cols_dtype cols_align table_rows].
  destruct (rows_loop_spec _ _ _ _ Er) as [new [-> Hall]].
  split; [exact Ht|]. split; [exact Ha|].
  assert (Hshape : Forall2 (fun res row =>
                      List.length row = table_width self /\
                      firstn 3 row = row_key res) (_results self) new).
  { eapply Forall2_impl; [|exact Hall]. cbn beta.
    intros res row. apply result_row_shape. }
  clear Hall Er. cbn [app tl List.length].
  revert Hshape. generalize (_results self) as results.
  intros results Hshape.
  split; [|split].
  - constructor; [rewrite length_map; exact Hn|].
    induction Hshape as [|res row rs ns [Hl _] _ IH]; constructor; auto.
  - f_equal. symmetry. exact (Forall2_length Hshape).
  - induction Hshape as [|res row rs ns [_ Hk] _ IH]; [reflexivity|].
    cbn [map]. rewrite Hk, IH. reflexivity.
Qed.

Lemma add_mem_info_limit (results results' : list TestCaseResults.t)
  (in_docker show_mem show_inside : bool) (limit limit' : PyVal)
  (row : list PyVal) (server_stats : PyVal) :
  _add_mem_info (init results in_docker limit show_mem show_inside)
    row server_stats
  = _add_mem_info (init results' in_docker limit' show_mem show_inside)
      row server_stats.
Proof. reflexivity. Qed.

Lemma rows_loop_limit (results0 : list TestCaseResults.t)
  (in_docker show_mem show_inside : bool) (limit limit' : PyVal)
  (results : list TestCaseResults.t) :
  forall rows,
    rows_of (init results0 in_docker limit show_mem show_inside) results rows
    = rows_of (init results0 in_docker limit' show_mem show_inside)
        results rows.
Proof.
  induction results as [|res rest IH]; intros rows; [reflexivity|].
  cbn [rows_loop].
  replace (row_of (init results0 in_docker limit' show_mem show_inside) res)
    with (row_of (init results0 in_docker limit show_mem show_inside) res)
    by reflexivity.
  destruct (row_of _ res); cbn [and_then]; [apply IH|reflexivity].
Qed.

Lemma failed_result_row (self : t) (res : TestCaseResults.t) :
  TestCaseResults.prediction_ok res = false ->
  row_of self res = Done (failed_row self res).
Proof.
  intros H. unfold result_row, failed_row, row_key. rewrite H.
  cbn [and_then]. unfold _add_mem_info, _add_inside_server_info.
  cbn [is_None py_truthy and_then]. unfold _same_value_list.
  destruct (_show_mem self), (_in_docker self), (_show_inside_server self);
    cbn [and_then]; rewrite <- ?app_assoc; reflexivity.
Qed.

Lemma failed_rows_loop (self : t) (results : list TestCaseResults.t) :
  Forall (fun res => TestCaseResults.prediction_ok res = false) results ->
  forall rows,
    rows_of self results rows
    = Done (rows ++ map (failed_row self) results).
Proof.
  induction 1 as [|res rest Hres _ IH]; intros rows.
  - cbn. rewrite app_nil_r. reflexivity.
  - cbn [rows_loop map]. rewrite failed_result_row by exact Hres.
    cbn [and_then]. rewrite IH, <- app_assoc. reflexivity.
Qed.

End MoreReportFacts.

(** ** The table of failed features *)

Lemma dict_set_fresh {V : Type} (k : string) (v : V) (d : list (string * V)) :
  ~ In k (map fst d) -> dict_set k v d = (d ++ [(k, v)])%list.
Proof.
  induction d as [|[k0 v0] d IH]; intros H; [reflexivity|].
  cbn [dict_set app]. cbn [map fst In] in H.
  destruct (String.eqb_spec k0 k) as [->|_]; [tauto|].
  rewrite IH by tauto. reflexivity.
Qed.

Section MoreValidationReport.

Variable score_subprocess : string -> FileSystem -> Z.

Local Abbreviation entry :=
  (fun cl : string * Launch =>
     (fst cl, {| filename := launch_input (snd cl);
                 retcode := launch_retcode (snd cl) |})).
Local Abbreviation failing :=
  (fun cl : string * Launch => negb (launch_retcode (snd cl) =? 0)).

Lemma null_loop_results (dir : string) (df : Frame) (cols : list string) :
  forall (i : nat) (st : ValidationState),
    NoDup cols ->
    (forall c, In c cols -> ~ In c (map fst (check_results st))) ->
    let st' := null_loop score_subprocess dir df cols i st in
    exists new,
      launches st' = (launches st ++ new)%list /\
      List.length new = List.length cols /\
      check_results st'
      = (check_results st ++ map entry (filter failing (combine cols new)))%list.
Proof.
  induction cols as [|col rest IH]; intros i st Hnd Hfresh.
  - exists []. cbn. rewrite !app_nil_r. auto.
  - cbn [null_loop]. fold (variant_path dir i).
    set (fs1 := to_csv_file (variant_path dir i) (null_column col df)
                  (disk st)).
    set (rc := score_subprocess (variant_path dir i) fs1).
    set (l := {| launch_input := variant_path dir i;
                 launch_disk := map fst fs1;
                 launch_retcode := rc |}).
    match goal with
    | |- context [null_loop _ _ _ _ _ ?s] => set (st1 := s)
    end.
    inversion Hnd as [|? ? Hnotin Hnd']; subst.
    assert (E1 : check_results st1
                 = (check_results st
                    ++ map entry (filter failing [(col, l)]))%list).
    { unfold st1. cbn [check_results filter snd launch_retcode l].
      fold rc. destruct (negb (rc =? 0)).
      - rewrite dict_set_fresh by (apply Hfresh; left; reflexivity).
        reflexivity.
      - cbn. rewrite app_nil_r. reflexivity. }
    destruct (IH (S i) st1 Hnd') as [new [Hl [Hlen Hres]]].
    { intros c Hc. rewrite E1, map_app, in_app_iff.
      intros [H|H]; [exact (Hfresh c (or_intror Hc) H)|].
      cbn [filter snd launch_retcode l] in H.
      destruct (negb (rc =? 0)); cbn in H; [|exact H].
      destruct H as [H|[]]. subst c. contradiction. }
    exists (l :: new). cbv zeta. split; [|split].
    + rewrite Hl. unfold st1. cbn [launches]. rewrite <- app_assoc.
      reflexivity.
    + cbn [List.length]. lia.
    + rewrite Hres, E1, <- app_assoc. f_equal.
      rewrite <- map_app. f_equal.
      cbn [combine filter]. destruct (failing (col, l)); reflexivity.
Qed.

Lemma validation_report (dir : string) (df : Frame) (fs : FileSystem)
  (columns : list string) :
  column_names df = Ok columns -> NoDup columns ->
  exists report st,
    validation_test score_subprocess dir df fs = Ok (report, st) /\
    List.length (launches st) = List.length columns /\
    failed_features report = failing_columns columns (launches st) /\
    (status report = "PASSED"%string <-> failed_features report = []).
Proof.
  intros Hcols Hnd. unfold validation_test. rewrite Hcols. cbn [bind].
  destruct (null_loop_results dir df columns 0
              {| disk := fs; check_results := []; launches := [] |} Hnd)
    as [new [Hl [Hlen Hres]]]; [intros c _ []|].
  set (st := null_loop score_subprocess dir df columns 0
               {| disk := fs; check_results := []; launches := [] |}) in *.
  cbn [launches check_results app] in Hl, Hres.
  assert (Hrows : map (fun kv : string * ValidationTestResult =>
                         (fst kv, filename (snd kv)))
                      (filter (fun kv => negb (retcode (snd kv) =? 0))
                              (check_results st))
                  = failing_columns columns (launches st)).
  { rewrite Hres, Hl. unfold failing_columns.
    generalize (combine columns new) as l.
    induction l as [|cl l IH]; [reflexivity|].
    cbn [filter]. destruct (negb (launch_retcode (snd cl) =? 0)) eqn:E.
    - cbn [map filter snd retcode]. rewrite E. cbn [map fst snd filename].
      rewrite IH. reflexivity.
    - exact IH. }
  destruct (check_results st) as [|kv rest] eqn:Eres.
  - cbn [List.length Nat.eqb]. eexists. eexists. split; [reflexivity|].
    cbn [launches status failed_features].
    split; [rewrite Hl; exact Hlen|].
    split; [rewrite <- Hrows; reflexivity|]. split; reflexivity.
  - cbn [List.length Nat.eqb]. eexists. eexists. split; [reflexivity|].
    cbn [launches status failed_features].
    split; [rewrite Hl; exact Hlen|]. split; [exact Hrows|].
    split; [discriminate|].
    rewrite Hrows. intros H.
    assert (Hne : map (fun kv : string * ValidationTestResult =>
                         (fst kv, filename (snd kv)))
                      (filter (fun kv => negb (retcode (snd kv) =? 0))
                              (kv :: rest)) <> []).
    { rewrite Hres.
      destruct (filter failing (combine columns new)) as [|cl l] eqn:Ef;
        [symmetry in Hres; cbn in Hres; discriminate|].
      assert (Hcl : failing cl = true).
      { assert (Hin : In cl (filter failing (combine columns new)))
          by (rewrite Ef; left; reflexivity).
        apply filter_In in Hin. apply Hin. }
      cbn [map filter snd retcode]. cbn beta in Hcl. rewrite Hcl.
      discriminate. }
    rewrite Hrows in Hne. contradiction.
Qed.

End MoreValidationReport.

(** * Further properties *)

(** ** Sampler *)

(** X1: sampling a sample gives the sample of the source: for a data set
    with at least one row and [0 <= m <= n < 2^53], taking [m] rows from
    the [n]-row sample is the same as taking [m] rows  from the data
    set. *)
Theorem sample_of_sample {Row : Type} (df w : DataFrame Row) (n m : Z) :
  df <> [] -> 0 <= m <= n -> n < 2 ^ 53 ->
  _get_samples_df df n = Ok w ->
  _get_samples_df w m = _get_samples_df df m.
Proof. exact (sample_again df w n m). Qed.

Lemma sample_of_sample_witness :
  three_rows <> [] /\ 0 <= 5 <= 7 /\ 7 < 2 ^ 53 /\
  _get_samples_df three_rows 7 = Ok [0; 1; 2; 0; 1; 2; 0]%nat /\
  _get_samples_df [0; 1; 2; 0; 1; 2; 0]%nat 5 = _get_samples_df three_rows 5.
Proof.
  assert (H : _get_samples_df three_rows 7 = Ok [0; 1; 2; 0; 1; 2; 0]%nat)
    by (vm_compute; reflexivity).
  split; [discriminate|]. split; [lia|]. split; [lia|]. split; [exact H|].
  apply (sample_of_sample three_rows _ 7 5); [discriminate|lia|lia|exact H].
Defined.

(** X2: for a positive row count (below [2^53]) the sampler fails exactly
    on the data set without rows, with [ZeroDivisionError]; on any other
    data set it returns that many rows. *)
Theorem sample_fails_on_empty_only {Row : Type} (df : DataFrame Row) (n : Z) :
  0 < n < 2 ^ 53 ->
  (df = [] -> _get_samples_df df n = Raise ZeroDivisionError) /\
  (df <> [] -> exists out, _get_samples_df df n = Ok out /\ shape0 out = n).
Proof.
  intros Hn. split.
  - intros ->. unfold _get_samples_df. cbn [shape0 List.length Z.of_nat].
    destruct (Z.geb_spec 0 n); [lia|]. reflexivity.
  - intros Hdf. apply sample_returns; [exact Hdf|lia].
Qed.

Lemma sample_fails_on_empty_only_witness :
  0 < 7 < 2 ^ 53 /\
  (@nil nat = [] -> _get_samples_df (@nil nat) 7 = Raise ZeroDivisionError) /\
  (@nil nat <> [] ->
   exists out, _get_samples_df (@nil nat) 7 = Ok out /\ shape0 out = 7).
Proof.
  split; [lia|]. apply (sample_fails_on_empty_only (@nil nat) 7). lia.
Defined.

(** ** Runner *)

(** X3: whatever the server answers, every test case of a run stays
    within its budget of requests: at most one prediction request per
    iteration and at most one request for the server statistics; the
    statistics are asked for only after every iteration was answered with
    a success, and that request is the last call of the case. *)
Theorem requests_stay_within_budget {Row : Type} (World : Type)
  (requests_post_predict : string -> World -> Event Response * World)
  (requests_get_stats : World -> Event Response * World)
  (signal_alarm : Z -> World -> World)
  (len_predictions : string -> result Z)
  (to_csv : DataFrame Row -> string)
  (_df_for_test : DataFrame Row) (_test_cases_to_run : list PerfTestCase.t)
  (options : Options) (w : World) :
  Forall2 within_budget _test_cases_to_run
    (snd (_run_all_test_cases World requests_post_predict requests_get_stats
            signal_alarm len_predictions to_csv
            _df_for_test _test_cases_to_run options w)).
Proof.
  unfold _run_all_test_cases. apply run_cases_logs.
  intros tc st Hcalls. apply run_case_budget. exact Hcalls.
Qed.

(** X4: the payload of a test case is built once and reused: every
    prediction request of a case carries the serialised sample of that
    case (the working sample brought to the row count of the case), and a
    case whose sample cannot be taken sends no request at all. *)
Theorem every_request_carries_the_sample {Row : Type} (World : Type)
  (requests_post_predict : string -> World -> Event Response * World)
  (requests_get_stats : World -> Event Response * World)
  (signal_alarm : Z -> World -> World)
  (len_predictions : string -> result Z)
  (to_csv : DataFrame Row -> string)
  (_df_for_test : DataFrame Row) (_test_cases_to_run : list PerfTestCase.t)
  (options : Options) (w : World) :
  Forall2 (sends_its_sample to_csv _df_for_test) _test_cases_to_run
    (snd (_run_all_test_cases World requests_post_predict requests_get_stats
            signal_alarm len_predictions to_csv
            _df_for_test _test_cases_to_run options w)).
Proof.
  unfold _run_all_test_cases. apply run_cases_logs.
  intros tc st Hcalls. apply run_case_budget. exact Hcalls.
Qed.

(** X5: on a server that answers every prediction request with a success
    carrying one prediction per row sent, and every request for the
    statistics with a success, a test case sends exactly [iterations]
    prediction requests and then asks once for the statistics; its result
    carries the text of that answer, no error text, the timing calls of
    [iterations] complete iterations after the registration of the
    report, and a success flag that is set exactly when there was at
    least one iteration. *)
Theorem healthy_server_case {Row : Type} (World : Type)
  (requests_post_predict : string -> World -> Event Response * World)
  (requests_get_stats : World -> Event Response * World)
  (len_predictions : string -> result Z)
  (to_csv : DataFrame Row -> string)
  (df test_df : DataFrame Row) (tc : PerfTestCase.t)
  (st : RunState World) (server_stats : string) :
  calls st = [] ->
  _get_samples_df df (PerfTestCase.samples tc) = Ok test_df ->
  (forall w, exists r w',
      requests_post_predict (to_csv test_df) w = (Returns r, w') /\
      ok r = true /\ len_predictions (text r) = Ok (shape0 test_df)) ->
  (forall w, exists w',
      requests_get_stats w
      = (Returns {| ok := true; text := server_stats |}, w')) ->
  let n := Z.to_nat (PerfTestCase.iterations tc) in
  let out := _run_test_case World requests_post_predict requests_get_stats
               len_predictions to_csv df tc st in
  fst out = Ok tt /\
  predict_requests (calls (snd out)) = n /\
  stats_fetches (calls (snd out)) = 1%nat /\
  results (snd out)
  = results st ++
    [ TestCaseResults.mk
        (match PerfTestCase.name tc with
         | Some name => name
         | None => "Test case"%string
         end)
        (PerfTestCase.iterations tc) (PerfTestCase.samples tc)
        (RegisterReport REPORT_NAME "end" "SUB" "start" :: timed_iterations n)
        (0 <? PerfTestCase.iterations tc) None (Some server_stats) ].
Proof.
  intros Hcalls Hdf Hpost Hstats.
  exact (healthy_case World requests_post_predict requests_get_stats
           len_predictions to_csv df test_df tc st server_stats
           Hcalls Hdf Hpost Hstats).
Qed.

Lemma healthy_server_case_witness :
  let st : RunState Healthy.World :=
    {| results := []; world := tt; calls := [] |} in
  let out := Healthy.run_test_case three_rows two_rows_three_times st in
  fst out = Ok tt /\
  predict_requests (calls (snd out)) = 3%nat /\
  stats_fetches (calls (snd out)) = 1%nat /\
  results (snd out)
  = [ TestCaseResults.mk "2 rows" 3 2
        (RegisterReport REPORT_NAME "end" "SUB" "start" :: timed_iterations 3)
        true None (Some "{}"%string) ].
Proof.
  intros st.
  refine (healthy_server_case Healthy.World Healthy.post_predict
            Healthy.get_stats Script.len_predictions Script.to_csv
            three_rows [0; 1]%nat two_rows_three_times st "{}" _ _ _ _).
  - reflexivity.
  - vm_compute. reflexivity.
  - intros w. exists {| ok := true; text := "ab" |}, w.
    split; [reflexivity|]. split; reflexivity.
  - intros w. exists w. reflexivity.
Defined.

(** X6: the texts in a result come from the calls of its own case: in the
    results of a run, an error text is the text of a failure response to
    the last call of that case, a prediction request, and goes with a
    cleared success flag; server statistics are the text of a success
    response to the last call of that case, the request for them. *)
Theorem report_texts_come_from_the_case {Row : Type} (World : Type)
  (requests_post_predict : string -> World -> Event Response * World)
  (requests_get_stats : World -> Event Response * World)
  (signal_alarm : Z -> World -> World)
  (len_predictions : string -> result Z)
  (to_csv : DataFrame Row -> string)
  (_df_for_test : DataFrame Row) (_test_cases_to_run : list PerfTestCase.t)
  (options : Options) (w : World) :
  let out :=
    _run_all_test_cases World requests_post_predict requests_get_stats
      signal_alarm len_predictions to_csv
      _df_for_test _test_cases_to_run options w in
  List.length (fst (fst out)) = List.length (snd out) /\
  forall i r log,
    nth_error (fst (fst out)) i = Some r ->
    nth_error (snd out) i = Some log ->
    report_sound r log.
Proof.
  cbv zeta. unfold _run_all_test_cases.
  destruct (run_cases_each World requests_post_predict requests_get_stats
              signal_alarm len_predictions to_csv
              (fun _ r log => report_sound r log)
              _df_for_test (opt_timeout options))
    with (cases := _test_cases_to_run) (acc := @nil TestCaseResults.t)
         (w := w)
    as [new [Hres [Hl1 [Hl2 Hall]]]].
  - intros tc st _. apply run_case_report.
  - rewrite Hres. cbn [app]. split; [lia|].
    intros i r log Hr Hlog.
    destruct (nth_error _test_cases_to_run i) as [tc|] eqn:Etc.
    + exact (Hall i tc r log Etc Hr Hlog).
    + apply nth_error_None in Etc.
      assert (Hsome : nth_error new i <> None) by congruence.
      apply nth_error_Some in Hsome. lia.
Qed.

(** X7: test cases run strictly one after the other: a run over two lists
    of cases in a row is the run over the first list followed by the run
    over the second, started on the server as the first run left it; the
    results and the calls of the first part are those of the run of the
    first part alone, whatever comes after it. *)
Theorem run_splits_at_any_case {Row : Type} (World : Type)
  (requests_post_predict : string -> World -> Event Response * World)
  (requests_get_stats : World -> Event Response * World)
  (signal_alarm : Z -> World -> World)
  (len_predictions : string -> result Z)
  (to_csv : DataFrame Row -> string)
  (_df_for_test : DataFrame Row) (cases1 cases2 : list PerfTestCase.t)
  (options : Options) (w : World) :
  let run_all :=
    _run_all_test_cases World requests_post_predict requests_get_stats
      signal_alarm len_predictions to_csv _df_for_test in
  let first := run_all cases1 options w in
  let second := run_all cases2 options (snd (fst first)) in
  run_all (cases1 ++ cases2) options w
  = (fst (fst first) ++ fst (fst second),
     snd (fst second),
     snd first ++ snd second).
Proof.
  cbv zeta. unfold _run_all_test_cases.
  rewrite run_cases_app.
  rewrite (run_cases_frame World requests_post_predict requests_get_stats
             signal_alarm len_predictions to_csv _df_for_test
             (opt_timeout options) cases2
             (fst (fst (run_cases World requests_post_predict
                          requests_get_stats signal_alarm len_predictions
                          to_csv _df_for_test (opt_timeout options) cases1
                          [] w)))).
  reflexivity.
Qed.

(** ** Planner *)

(** X8: the labels of the default plan (for a file of at least one row,
    one byte per row at least and less than [2^53] bytes): the first case
    is labelled with the average size of a row, in bytes below 1024 and
    in whole kilobytes from there on (the division through binary64 gives
    the integer quotients), the others ["0.1MB"], ["10MB"] and
    ["50MB"]. *)
Theorem default_plan_case_labels {Row : Type} (file : CsvFile Row)
  (options : Options) :
  well_sized file ->
  opt_iterations options = None -> opt_samples options = None ->
  exists cases df,
    _prepare_test_cases file options = Ok (cases, df) /\
    map PerfTestCase.name cases
    = [ Some (size_label (st_size file / shape0 (csv_rows file)));
        Some "0.1MB"%string; Some "10MB"%string; Some "50MB"%string ].
Proof. exact (default_plan_labels file options). Qed.

Lemma default_plan_case_labels_witness :
  exists cases df,
    _prepare_test_cases wide_rows_file (default_options 600)
    = Ok (cases, df) /\
    map PerfTestCase.name cases
    = [ Some "1024 KB"%string;
        Some "0.1MB"%string; Some "10MB"%string; Some "50MB"%string ].
Proof.
  apply (default_plan_case_labels wide_rows_file (default_options 600)).
  - apply well_sized_file_of; [lia|reflexivity].
  - reflexivity.
  - reflexivity.
Defined.

(** X9: the plan when explicit samples or explicit iterations are given
    (same files, the size of the case below [2^53] bytes), in closed
    form: its one case is labelled with the sample count times the
    average size of a row (integer division of the file size by the row
    count), in bytes below 1024 and in whole kilobytes from there on. *)
Theorem override_plan_case_label {Row : Type} (file : CsvFile Row)
  (options : Options) :
  well_sized file ->
  (opt_iterations options <> None \/ opt_samples options <> None) ->
  let samples :=
    match opt_samples options with
    | None => shape0 (csv_rows file)
    | Some s => s
    end in
  let iters :=
    match opt_iterations options with None => 1 | Some i => i end in
  samples * (st_size file / shape0 (csv_rows file)) < 2 ^ 53 ->
  _prepare_test_cases file options =
    Ok ([ PerfTestCase.mk
            (Some (size_label
                     (samples * (st_size file / shape0 (csv_rows file)))))
            samples iters ],
        csv_rows file).
Proof. exact (override_plan_label file options). Qed.

Lemma override_plan_case_label_witness :
  _prepare_test_cases rows_10_file
    {| opt_iterations := Some 3; opt_samples := Some 25;
       opt_timeout := 600; opt_verbose := false |}
  = Ok ([ PerfTestCase.mk (Some "2 KB"%string) 25 3 ], csv_rows rows_10_file).
Proof.
  apply (override_plan_case_label rows_10_file
           {| opt_iterations := Some 3; opt_samples := Some 25;
              opt_timeout := 600; opt_verbose := false |}).
  - apply well_sized_file_of; [lia|reflexivity].
  - left. discriminate.
  - reflexivity.
Defined.

(** X10: on an input file without data rows the planner fails with
    [ZeroDivisionError], whatever the options and the size of the file:
    no test case is planned. *)
Theorem plan_fails_on_empty_data {Row : Type} (file : CsvFile Row)
  (options : Options) :
  csv_rows file = [] ->
  _prepare_test_cases file options = Raise ZeroDivisionError.
Proof. exact (plan_on_empty_data file options). Qed.

Lemma plan_fails_on_empty_data_witness :
  _prepare_test_cases (file_of 0 17) (default_options 600)
  = Raise ZeroDivisionError.
Proof.
  apply (plan_fails_on_empty_data (file_of 0 17) (default_options 600)).
  reflexivity.
Defined.

(** ** Prediction side-effects check *)

(** X11: the subset of the side-effects check cannot be drawn from fewer
    than 10 rows: for an input of fewer than [2^53] rows, drawing the
    subset fails with [ValueError] exactly when the input has fewer than
    10 rows (the subset would be larger than the input), whatever the
    random generator is. *)
Theorem side_effects_check_needs_10_rows {Row : Type} (RngState : Type)
  (RandomState : Z -> RngState)
  (choice : RngState -> nat -> nat -> list nat)
  (df : DataFrame Row) (global : RngState) :
  shape0 df < 2 ^ 53 ->
  (data_subset RngState RandomState choice df global = Raise ValueError
   <-> shape0 df < 10).
Proof. exact (data_subset_small RngState RandomState choice df global). Qed.

Lemma side_effects_check_needs_10_rows_witness :
  data_subset unit (fun _ => tt) first_positions (repeat tt 9) tt
  = Raise ValueError.
Proof.
  apply (side_effects_check_needs_10_rows unit (fun _ => tt) first_positions
           (repeat tt 9) tt).
  - reflexivity.
  - reflexivity.
Defined.

(** ** Null value imputation check *)

(** X12: what the null value imputation check leaves on disk when it
    fails.  The scoring subprocesses are given, in the order of the
    columns, the files [null_value_imputation_column0],
    [null_value_imputation_column1], ... of the directory of the check;
    when the check is reported as FAILED, the file of every column, of
    the passing ones too, is still there and reads as the input with
    that column nulled, and every other path of the disk reads as it
    did before the check. *)
Theorem failed_check_keeps_every_variant
  (score_subprocess : string -> FileSystem -> Z)
  (null_datasets_dir : string) (df : Frame) (fs : FileSystem)
  (columns : list string) :
  column_names df = Ok columns ->
  exists report st,
    validation_test score_subprocess null_datasets_dir df fs
      = Ok (report, st) /\
    map launch_input (launches st)
    = map (variant_path null_datasets_dir) (seq 0 (List.length columns)) /\
    (status report = "FAILED"%string ->
     (forall i col,
         nth_error columns i = Some col ->
         read_file (variant_path null_datasets_dir i) (disk st)
         = Some (null_column col df)) /\
     (forall p,
         (forall i, (i < List.length columns)%nat ->
                    p <> variant_path null_datasets_dir i) ->
         read_file p (disk st) = read_file p fs)).
Proof.
  exact (validation_files score_subprocess null_datasets_dir df fs columns).
Qed.

Lemma failed_check_keeps_every_variant_witness :
  let score := fails_on (os_path_join checks_dir
                           "null_value_imputation_column1") in
  exists report st,
    validation_test score checks_dir two_columns [] = Ok (report, st) /\
    map launch_input (launches st)
    = [ "/tmp/drum_validation_checks_0/null_value_imputation_column0";
        "/tmp/drum_validation_checks_0/null_value_imputation_column1"
      ]%string /\
    (status report = "FAILED"%string ->
     (forall i col,
         nth_error ["a"; "b"]%string i = Some col ->
         read_file (variant_path checks_dir i) (disk st)
         = Some (null_column col two_columns)) /\
     (forall p,
         (forall i, (i < 2)%nat -> p <> variant_path checks_dir i) ->
         read_file p (disk st) = read_file p [])).
Proof.
  intros score.
  apply (failed_check_keeps_every_variant score checks_dir two_columns []
           ["a"; "b"]%string).
  reflexivity.
Defined.

(** X13: the table of failed features lists exactly the failing columns.
    For an input whose column names are distinct, the rows the null
    value imputation check reports are the columns whose scoring
    subprocess exited with a code other than 0, each once, in the order
    of the columns and beside the file that subprocess was given; the
    check is reported as PASSED exactly when there is no such row. *)
Theorem report_lists_exactly_the_failing_columns
  (score_subprocess : string -> FileSystem -> Z)
  (null_datasets_dir : string) (df : Frame) (fs : FileSystem)
  (columns : list string) :
  column_names df = Ok columns -> NoDup columns ->
  exists report st,
    validation_test score_subprocess null_datasets_dir df fs
      = Ok (report, st) /\
    List.length (launches st) = List.length columns /\
    failed_features report = failing_columns columns (launches st) /\
    (status report = "PASSED"%string <-> failed_features report = []).
Proof.
  exact (validation_report score_subprocess null_datasets_dir df fs columns).
Qed.

Lemma report_lists_exactly_the_failing_columns_witness :
  let score := fails_on (os_path_join checks_dir
                           "null_value_imputation_column0") in
  exists report st,
    validation_test score checks_dir two_columns [] = Ok (report, st) /\
    List.length (launches st) = 2%nat /\
    failed_features report = failing_columns ["a"; "b"]%string (launches st) /\
    (status report = "PASSED"%string <-> failed_features report = []).
Proof.
  intros score.
  apply (report_lists_exactly_the_failing_columns score checks_dir
           two_columns [] ["a"; "b"]%string).
  - reflexivity.
  - constructor; [intros [H|[]]; discriminate|].
    constructor; [intros []|constructor].
Defined.

(** ** Waiting for the server *)

(** X14: the probing of the server is bounded by the retry budget.
    With a positive budget [_timeout], whatever the probes answer or
    raise, the wait sends at least one probe and at most [_timeout] of
    them.  It returns after a probe answered with a success, with a
    budget that is still positive and was lowered by one for every probe
    before that one.  After [_timeout] probes without a success the
    budget is at 0 and the wait calls [communicate()]: if the server
    process has exited, it raises [DrumCommonException] with a message
    made of the fixed text and of what the process wrote to its standard
    output and to its standard error; if the process does not exit, the
    wait is held there and neither returns nor raises. *)
Theorem server_start_is_bounded (World : Type)
  (requests_get : World -> Event Response * World)
  (time_sleep : Z -> World -> World)
  (communicate : World -> option ((string * string) * World))
  (st : WaitState World) :
  0 < _timeout st ->
  exists r,
    (forall fuel, (Z.to_nat (_timeout st) <= fuel)%nat ->
       _wait_for_server_to_start World requests_get time_sleep communicate
         fuel st = Some r) /\
    match r with
    | Ended (Done _) st' =>
        (probes st < probes st')%nat /\
        Z.of_nat (probes st') - Z.of_nat (probes st) <= _timeout st /\
        _timeout st'
        = _timeout st - (Z.of_nat (probes st') - Z.of_nat (probes st) - 1) /\
        0 < _timeout st'
    | Ended (Fails e) st' =>
        Z.of_nat (probes st') - Z.of_nat (probes st) = _timeout st /\
        _timeout st' = 0 /\
        exists w stdout stderr,
          communicate w = Some ((stdout, stderr), wait_world st') /\
          e = DrumCommonException (start_error_message stdout stderr)
    | Held st' =>
        Z.of_nat (probes st') - Z.of_nat (probes st) = _timeout st /\
        _timeout st' = 0 /\
        communicate (wait_world st') = None
    end.
Proof.
  intros Ht.
  destruct (wait_bounded World requests_get time_sleep communicate
              (Z.to_nat (_timeout st) - 1) st ltac:(lia))
    as [r [Hrun Hr]].
  exists r. split.
  - intros fuel Hf. apply Hrun. lia.
  - destruct r as [[u|e] st'|st'].
    + destruct Hr as [H1 [H2 H3]]. split; [lia|]. split; [lia|].
      split; assumption.
    + destruct Hr as [H1 [H2 H3]]. split; [lia|]. split; assumption.
    + destruct Hr as [H1 [H2 H3]]. split; [lia|]. split; assumption.
Qed.

Lemma server_start_is_bounded_witness :
  let st := {| _timeout := 20; wait_world := tt; probes := 0 |} in
  exists r,
    (forall fuel, (Z.to_nat (_timeout st) <= fuel)%nat ->
       Down.wait fuel st = Some r) /\
    match r with
    | Ended (Done _) st' =>
        (probes st < probes st')%nat /\
        Z.of_nat (probes st') - Z.of_nat (probes st) <= _timeout st /\
        _timeout st'
        = _timeout st - (Z.of_nat (probes st') - Z.of_nat (probes st) - 1) /\
        0 < _timeout st'
    | Ended (Fails e) st' =>
        Z.of_nat (probes st') - Z.of_nat (probes st) = _timeout st /\
        _timeout st' = 0 /\
        exists w stdout stderr,
          Down.communicate w = Some ((stdout, stderr), wait_world st') /\
          e = DrumCommonException (start_error_message stdout stderr)
    | Held st' =>
        Z.of_nat (probes st') - Z.of_nat (probes st) = _timeout st /\
        _timeout st' = 0 /\
        Down.communicate (wait_world st') = None
    end.
Proof.
  intros st.
  apply (server_start_is_bounded Down.World Down.get Down.sleep
           Down.communicate st).
  reflexivity.
Defined.

(** X15: the retry budget is not restored, and a wait that starts without
    budget has no bound: with [_timeout] at 0 or below (as a failed wait
    leaves it) and a server that answers no probe with a success, the
    loop is still running after any number of iterations. *)
Theorem server_start_hangs_without_budget (World : Type)
  (requests_get : World -> Event Response * World)
  (time_sleep : Z -> World -> World)
  (communicate : World -> option ((string * string) * World))
  (st : WaitState World) (fuel : nat) :
  (forall w, probe_failed (fst (requests_get w)) = true) ->
  _timeout st <= 0 ->
  _wait_for_server_to_start World requests_get time_sleep communicate
    fuel st = None.
Proof.
  intros Hdown Ht.
  exact (wait_without_budget World requests_get time_sleep communicate
           Hdown fuel st Ht).
Qed.

Lemma server_start_hangs_without_budget_witness :
  Down.wait 1000 {| _timeout := 0; wait_world := tt; probes := 20 |} = None.
Proof.
  apply (server_start_hangs_without_budget Down.World Down.get Down.sleep
           Down.communicate).
  - intros w. reflexivity.
  - cbn. lia.
Defined.

(** ** The table of results *)

(** X16: the table of results is rectangular.  Whenever [get_tbl_str]
    gets as far as drawing the table, the types and the alignments it
    declared and every row, the header included, have the same number of
    cells: 6, and 4 more (in docker) or 2 more (otherwise) when the
    memory is shown, and 1 more when the time inside the server is shown;
    there is one row per result after the header, in the order of the
    results, and each starts with the name, the sample count and the
    iteration count of its result. *)
Theorem table_is_rectangular
  (json_loads : string -> outcome PyVal)
  (dict_report : list StatsOp -> string -> outcome PyVal)
  (self : PerfTestResultsFormatter.t) (table : Table) :
  PerfTestResultsFormatter.get_tbl_str json_loads dict_report self
    = Done table ->
  List.length (cols_dtype table) = table_width self /\
  List.length (cols_align table) = table_width self /\
  Forall (fun row => List.length row = table_width self)
         (table_rows table) /\
  List.length (table_rows table)
  = S (List.length (PerfTestResultsFormatter._results self)) /\
  map (firstn 3) (tl (table_rows table))
  = map row_key (PerfTestResultsFormatter._results self).
Proof. exact (table_shape json_loads dict_report self table). Qed.

Lemma table_is_rectangular_witness :
  let self :=
    PerfTestResultsFormatter.init
      [ TestCaseResults.mk "2 rows" 3 2 [] true None (Some "{}"%string);
        TestCaseResults.mk "50MB" 1 524289 [] false None None ]
      true VNone true true in
  exists table,
    Plain.get_tbl_str self = Done table /\
    List.length (cols_dtype table) = 11%nat /\
    List.length (cols_align table) = 11%nat /\
    Forall (fun row => List.length row = 11%nat) (table_rows table) /\
    List.length (table_rows table) = 3%nat /\
    map (firstn 3) (tl (table_rows table))
    = [ [VStr "2 rows"; VInt 2; VInt 3]; [VStr "50MB"; VInt 524289; VInt 1] ].
Proof.
  intros self. eexists. split; [vm_compute; reflexivity|].
  apply (table_is_rectangular Plain.json_loads Plain.dict_report self).
  vm_compute. reflexivity.
Defined.

(** X17: the memory limit given to the formatter has no effect on the
    table: [__init__] stores it wrapped in a tuple, which is never
    [None], so that two formatters that differ in it only give the same
    table or fail the same way. *)
Theorem memory_limit_is_ignored
  (json_loads : string -> outcome PyVal)
  (dict_report : list StatsOp -> string -> outcome PyVal)
  (results : list TestCaseResults.t)
  (in_docker show_mem show_inside_server : bool)
  (memory_limit memory_limit' : PyVal) :
  PerfTestResultsFormatter.get_tbl_str json_loads dict_report
    (PerfTestResultsFormatter.init results in_docker memory_limit
       show_mem show_inside_server)
  = PerfTestResultsFormatter.get_tbl_str json_loads dict_report
      (PerfTestResultsFormatter.init results in_docker memory_limit'
         show_mem show_inside_server).
Proof.
  unfold PerfTestResultsFormatter.get_tbl_str.
  change (PerfTestResultsFormatter._init_table
            (PerfTestResultsFormatter.init results in_docker memory_limit'
               show_mem show_inside_server))
    with (PerfTestResultsFormatter._init_table
            (PerfTestResultsFormatter.init results in_docker memory_limit
               show_mem show_inside_server)).
  destruct (PerfTestResultsFormatter._init_table _) as [[hn ht] ca].
  cbn [PerfTestResultsFormatter._results PerfTestResultsFormatter.init].
  rewrite (rows_loop_limit json_loads dict_report results in_docker
             show_mem show_inside_server memory_limit memory_limit').
  reflexivity.
Qed.

(** X18: a report of failed cases is always drawn: when no result has its
    success flag set, [get_tbl_str] reads neither the timings nor the
    statistics of the server and cannot fail; after the header the table
    has one row per result, made of its name, sample count and iteration
    count, three cells ["Fail"] and a cell ["NA"] for every further
    column. *)
Theorem failed_cases_are_always_drawn
  (json_loads : string -> outcome PyVal)
  (dict_report : list StatsOp -> string -> outcome PyVal)
  (self : PerfTestResultsFormatter.t) :
  Forall (fun res => TestCaseResults.prediction_ok res = false)
         (PerfTestResultsFormatter._results self) ->
  exists table,
    PerfTestResultsFormatter.get_tbl_str json_loads dict_report self
      = Done table /\
    tl (table_rows table)
    = map (failed_row self) (PerfTestResultsFormatter._results self).
Proof.
  intros Hall. unfold PerfTestResultsFormatter.get_tbl_str.
  destruct (PerfTestResultsFormatter._init_table self) as [[hn ht] ca].
  rewrite (failed_rows_loop json_loads dict_report self _ Hall).
  cbn [and_then]. eexists. split; reflexivity.
Qed.

Lemma failed_cases_are_always_drawn_witness :
  let self :=
    PerfTestResultsFormatter.init
      [ TestCaseResults.mk "50MB" 1 524289 [] false
          (Some "model error"%string) (Some "not json"%string) ]
      false VNone true false in
  exists table,
    Plain.get_tbl_str self = Done table /\
    tl (table_rows table)
    = [ [ VStr "50MB"; VInt 524289; VInt 1;
          VStr "Fail"; VStr "Fail"; VStr "Fail"; VStr "NA"; VStr "NA" ] ].
Proof.
  intros self.
  apply (failed_cases_are_always_drawn Plain.json_loads Plain.dict_report
           self).
  constructor; [reflexivity|constructor].
Defined.

(** X19: from the run to the report: whatever the server answered during
    the run, when the table of the results of a run is drawn it has,
    after the header, one row per planned test case, in planning order,
    and each row starts with the name, the sample count and the iteration
    count of its case. *)
Theorem report_lists_the_planned_cases {Row : Type} (World : Type)
  (requests_post_predict : string -> World -> Event Response * World)
  (requests_get_stats : World -> Event Response * World)
  (signal_alarm : Z -> World -> World)
  (len_predictions : string -> result Z)
  (to_csv : DataFrame Row -> string)
  (json_loads : string -> outcome PyVal)
  (dict_report : list StatsOp -> string -> outcome PyVal)
  (_df_for_test : DataFrame Row) (_test_cases_to_run : list PerfTestCase.t)
  (options : Options) (w : World)
  (in_docker show_mem show_inside_server : bool) (memory_limit : PyVal)
  (table : Table) :
  let results :=
    fst (fst (_run_all_test_cases World requests_post_predict
                requests_get_stats signal_alarm len_predictions to_csv
                _df_for_test _test_cases_to_run options w)) in
  PerfTestResultsFormatter.get_tbl_str json_loads dict_report
    (PerfTestResultsFormatter.init results in_docker memory_limit
       show_mem show_inside_server) = Done table ->
  List.length (table_rows table) = S (List.length _test_cases_to_run) /\
  map (firstn 3) (tl (table_rows table)) = map case_key _test_cases_to_run.
Proof.
  intros results Htable.
  destruct (table_shape json_loads dict_report _ table Htable)
    as [_ [_ [_ [Hlen Hkeys]]]].
  cbn [PerfTestResultsFormatter._results PerfTestResultsFormatter.init]
    in Hlen, Hkeys.
  destruct (run_cases_spec World requests_post_predict requests_get_stats
              signal_alarm len_predictions to_csv _df_for_test
              (opt_timeout options) _test_cases_to_run [] w)
    as [new [Hres [Hk _]]].
  assert (Er : results = new) by exact Hres.
  assert (Hrow : forall l, map row_key l
                 = map (fun k : string * Z * Z =>
                          [VStr (fst (fst k)); VInt (snd (fst k));
                           VInt (snd k)]) (map res_key l)).
  { intros l. rewrite map_map. reflexivity. }
  assert (Hcase : forall l, map case_key l
                  = map (fun k : string * Z * Z =>
                           [VStr (fst (fst k)); VInt (snd (fst k));
                            VInt (snd k)]) (map tc_key l)).
  { intros l. rewrite map_map. reflexivity. }
  split.
  - rewrite Hlen, Er. f_equal.
    rewrite <- (length_map res_key new), Hk. apply length_map.
  - rewrite Hkeys, Hrow, Hcase, Er, Hk. reflexivity.
Qed.

Lemma report_lists_the_planned_cases_witness :
  let results :=
    fst (fst (Script.run_all three_rows [two_rows_three_times]
                (default_options 600)
                [ Script.ok_with "ab"; Script.failed_with "model error" ])) in
  exists table,
    Plain.get_tbl_str
      (PerfTestResultsFormatter.init results false VNone true false)
    = Done table /\
    List.length (table_rows table) = 2%nat /\
    map (firstn 3) (tl (table_rows table))
    = [ [VStr "2 rows"; VInt 2; VInt 3] ].
Proof.
  intros results. eexists. split; [vm_compute; reflexivity|].
  apply (report_lists_the_planned_cases Script.World Script.post_predict
           Script.get_stats Script.alarm Script.len_predictions
           Script.to_csv Plain.json_loads Plain.dict_report
           three_rows [two_rows_three_times] (default_options 600)
           [ Script.ok_with "ab"; Script.failed_with "model error" ]
           false true false VNone).
  vm_compute. reflexivity.
Defined.

(** ** More on the runner and the planner *)

(** X20: the success flag, exactly.  In the results of a run, whatever
    the server answers or raises, the success flag of a result is set if
    and only if a prediction request of its case was answered and no
    answer of the case reported a failure: a timeout, a connection error
    or a wrong number of predictions after a success response leaves the
    flag set, and a case without any answer is reported as failed. *)
Theorem success_flag_is_exact {Row : Type} (World : Type)
  (requests_post_predict : string -> World -> Event Response * World)
  (requests_get_stats : World -> Event Response * World)
  (signal_alarm : Z -> World -> World)
  (len_predictions : string -> result Z)
  (to_csv : DataFrame Row -> string)
  (_df_for_test : DataFrame Row) (_test_cases_to_run : list PerfTestCase.t)
  (options : Options) (w : World) :
  let out :=
    _run_all_test_cases World requests_post_predict requests_get_stats
      signal_alarm len_predictions to_csv
      _df_for_test _test_cases_to_run options w in
  List.length (fst (fst out)) = List.length (snd out) /\
  forall i r log,
    nth_error (fst (fst out)) i = Some r ->
    nth_error (snd out) i = Some log ->
    flag_exact r log.
Proof.
  cbv zeta. unfold _run_all_test_cases.
  destruct (run_cases_each World requests_post_predict requests_get_stats
              signal_alarm len_predictions to_csv
              (fun _ r log => flag_exact r log)
              _df_for_test (opt_timeout options))
    with (cases := _test_cases_to_run) (acc := @nil TestCaseResults.t)
         (w := w)
    as [new [Hres [Hl1 [Hl2 Hall]]]].
  - intros tc st Hcalls. apply run_case_flag. exact Hcalls.
  - rewrite Hres. cbn [app]. split; [lia|].
    intros i r log Hr Hlog.
    destruct (nth_error _test_cases_to_run i) as [tc|] eqn:Etc.
    + exact (Hall i tc r log Etc Hr Hlog).
    + apply nth_error_None in Etc.
      assert (Hsome : nth_error new i <> None) by congruence.
      apply nth_error_Some in Hsome. lia.
Qed.

(** X21: the working sample is transparent.  In default mode (for a file
    of at least one row, one byte per row at least and less than [2^53]
    bytes) every planned test case is served, from the working sample,
    exactly the rows the sampler would take from the input itself: as
    many rows as the case asks for, row [i] being row [i mod row_count]
    of the input. *)
Theorem default_cases_get_input_rows {Row : Type} (file : CsvFile Row)
  (options : Options) :
  well_sized file ->
  opt_iterations options = None -> opt_samples options = None ->
  exists cases df_50mb,
    _prepare_test_cases file options = Ok (cases, df_50mb) /\
    Forall (fun tc =>
              exists test_df,
                _get_samples_df df_50mb (PerfTestCase.samples tc)
                = Ok test_df /\
                _get_samples_df (csv_rows file) (PerfTestCase.samples tc)
                = Ok test_df /\
                shape0 test_df = PerfTestCase.samples tc /\
                forall i, (i < Z.to_nat (PerfTestCase.samples tc))%nat ->
                  nth_error test_df i
                  = nth_error (csv_rows file)
                      (i mod List.length (csv_rows file)))
           cases.
Proof.
  intros Hw Hi Hs.
  destruct (default_plan file options Hw Hi Hs)
    as [est [label [df [Hest [Hb [Hdf [Hshape Hplan]]]]]]].
  assert (Hne : csv_rows file <> []).
  { destruct Hw as [[Hrows _] _]. unfold shape0 in Hrows.
    destruct (csv_rows file); [cbn in Hrows; lia|congruence]. }
  assert (H53 : 2 ^ 28 + 1 < 2 ^ 53) by reflexivity.
  assert (Hcase : forall m, 0 <= m <= est ->
            exists test_df,
              _get_samples_df df m = Ok test_df /\
              _get_samples_df (csv_rows file) m = Ok test_df /\
              shape0 test_df = m /\
              forall i, (i < Z.to_nat m)%nat ->
                nth_error test_df i
                = nth_error (csv_rows file)
                    (i mod List.length (csv_rows file))).
  { intros m Hm.
    destruct (sample_returns (csv_rows file) m Hne ltac:(lia))
      as [out [Hout Hsh]].
    exists out.
    rewrite (sample_again (csv_rows file) df est m Hne Hm ltac:(lia) Hdf).
    split; [exact Hout|]. split; [exact Hout|]. split; [exact Hsh|].
    apply (sample_rows (csv_rows file) m out Hne ltac:(lia) Hout). }
  eexists. exists df. split; [exact Hplan|].
  assert (H500 : 0 <= est / 500) by (apply Z.div_pos; lia).
  assert (H500' : est / 500 <= est) by (apply Z.div_le_upper_bound; lia).
  assert (H5 : 0 <= est / 5) by (apply Z.div_pos; lia).
  assert (H5' : est / 5 <= est) by (apply Z.div_le_upper_bound; lia).
  repeat constructor; cbn [PerfTestCase.samples]; apply Hcase; lia.
Qed.

Lemma default_cases_get_input_rows_witness :
  exists cases df_50mb,
    _prepare_test_cases rows_10_file (default_options 600)
    = Ok (cases, df_50mb) /\
    Forall (fun tc =>
              exists test_df,
                _get_samples_df df_50mb (PerfTestCase.samples tc)
                = Ok test_df /\
                _get_samples_df (csv_rows rows_10_file)
                  (PerfTestCase.samples tc)
                = Ok test_df /\
                shape0 test_df = PerfTestCase.samples tc /\
                forall i, (i < Z.to_nat (PerfTestCase.samples tc))%nat ->
                  nth_error test_df i
                  = nth_error (csv_rows rows_10_file)
                      (i mod List.length (csv_rows rows_10_file)))
           cases.
Proof.
  apply (default_cases_get_input_rows rows_10_file (default_options 600)).
  - apply well_sized_file_of; [lia|reflexivity].
  - reflexivity.
  - reflexivity.
Defined.

(** X22: a default performance test is bounded work for the server: in
    default mode (same files), whatever the server answers, the run of
    the planned cases on the working sample sends at most
    [100 + 50 + 5 + 1 = 156] prediction requests and at most 4 requests
    for the statistics. *)
Theorem default_run_is_bounded {Row : Type} (file : CsvFile Row)
  (options : Options) :
  well_sized file ->
  opt_iterations options = None -> opt_samples options = None ->
  exists cases df_50mb,
    _prepare_test_cases file options = Ok (cases, df_50mb) /\
    forall (World : Type)
      (requests_post_predict : string -> World -> Event Response * World)
      (requests_get_stats : World -> Event Response * World)
      (signal_alarm : Z -> World -> World)
      (len_predictions : string -> result Z)
      (to_csv : DataFrame Row -> string) (w : World),
      let logs :=
        snd (_run_all_test_cases World requests_post_predict
               requests_get_stats signal_alarm len_predictions to_csv
               df_50mb cases options w) in
      (total_predict_requests logs <= 156)%nat /\
      (total_stats_fetches logs <= 4)%nat.
Proof.
  intros Hw Hi Hs.
  destruct (default_plan file options Hw Hi Hs)
    as [est [label [df [_ [_ [_ [_ Hplan]]]]]]].
  eexists. exists df. split; [exact Hplan|].
  intros World post get alarm len_predictions to_csv w logs.
  assert (Hb : Forall2 within_budget
                 [ PerfTestCase.mk (Some label) 1 100;
                   PerfTestCase.mk (Some "0.1MB"%string) (est / 500) 50;
                   PerfTestCase.mk (Some "10MB"%string) (est / 5) 5;
                   PerfTestCase.mk (Some "50MB"%string) est 1 ] logs).
  { unfold logs, _run_all_test_cases. apply run_cases_logs.
    intros tc st Hcalls. apply run_case_budget. exact Hcalls. }
  inversion Hb as [|tc1 l1 cs1 ls1 [P1 [F1 _]] Hb1]; subst.
  inversion Hb1 as [|tc2 l2 cs2 ls2 [P2 [F2 _]] Hb2]; subst.
  inversion Hb2 as [|tc3 l3 cs3 ls3 [P3 [F3 _]] Hb3]; subst.
  inversion Hb3 as [|tc4 l4 cs4 ls4 [P4 [F4 _]] Hb4]; subst.
  inversion Hb4; subst.
  cbn [PerfTestCase.iterations] in P1, P2, P3, P4.
  unfold total_predict_requests, total_stats_fetches.
  cbn [map list_sum fold_right]. lia.
Qed.

Lemma default_run_is_bounded_witness :
  exists cases df_50mb,
    _prepare_test_cases rows_10_file (default_options 600)
    = Ok (cases, df_50mb) /\
    forall (World : Type)
      (requests_post_predict : string -> World -> Event Response * World)
      (requests_get_stats : World -> Event Response * World)
      (signal_alarm : Z -> World -> World)
      (len_predictions : string -> result Z)
      (to_csv : DataFrame unit -> string) (w : World),
      let logs :=
        snd (_run_all_test_cases World requests_post_predict
               requests_get_stats signal_alarm len_predictions to_csv
               df_50mb cases (default_options 600) w) in
      (total_predict_requests logs <= 156)%nat /\
      (total_stats_fetches logs <= 4)%nat.
Proof.
  apply (default_run_is_bounded rows_10_file (default_options 600)).
  - apply well_sized_file_of; [lia|reflexivity].
  - reflexivity.
  - reflexivity.
Defined.
